(** * Housing-price harvesting pipeline: progress cursor, crawler,
      enrichment client and cleaning stage.

    Shallow embedding of
      - [src/processing/jobs/data_cleaning.py]   (class [DataCleaner]),
      - [src/scripts/scraper/rumah123_scraper.py] (class [Rumah123Scraper]),
      - [src/scripts/api/fetch_facilities.py]     (class [OSMFacilitiesFetcher]).

    Python values are an inductive type, exceptions are an explicit
    [result], MongoDB collections are lists of documents held in a
    database record that every operation threads through, and the network
    and the storage faults are oracles passed as arguments. *)

From Stdlib Require Import List String Ascii ZArith Bool Lia.
From Stdlib Require Import Numbers.DecimalString.
Import ListNotations.
Open Scope string_scope.
Open Scope Z_scope.

(* ================================================================== *)
(** ** Python values, exceptions and the conversions the code calls    *)
(* ================================================================== *)

Module Py.

(** A binary64 float: not-a-number, an infinity, or the finite number
    [(-1)^neg * m * 2^e] with [0 <= m]. *)
Inductive pyfloat : Type :=
| Fnan : pyfloat
| Finf (neg : bool) : pyfloat
| Ffin (neg : bool) (m : Z) (e : Z) : pyfloat.

(** The values that reach a cell of a DataFrame built from the stored
    documents. *)
Inductive value : Type :=
| VNone : value
| VBool (b : bool) : value
| VInt (z : Z) : value
| VFloat (f : pyfloat) : value
| VStr (s : string) : value.

Inductive exn : Type :=
| ValueError (msg : string)
| OverflowError (msg : string)
| KeyError (key : string)
| PyMongoError (msg : string)
| RequestException (msg : string)
| OSError (msg : string).

Inductive result (A : Type) : Type :=
| Ok (a : A)
| Raise (e : exn).
Arguments Ok {A} a.
Arguments Raise {A} e.

Definition bind {A B : Type} (r : result A) (k : A -> result B) : result B :=
  match r with
  | Ok a => k a
  | Raise e => Raise e
  end.

Notation "x <- c ;; k" := (bind c (fun x => k))
  (at level 61, c at next level, right associativity).

(** *** Characters and strings *)

(** A text is the list of its characters, and a character of the model is
    a code point up to U+00FF.  Among these the decimal digits are [0] to
    [9], and the white space is the ASCII white space, the four
    separators 28 to 31, the next-line character 133 and the no-break
    space 160. *)

Definition is_digit (c : ascii) : bool :=
  let n := nat_of_ascii c in (Nat.leb 48 n && Nat.leb n 57)%bool.

Definition digit_val (c : ascii) : Z := Z.of_nat (nat_of_ascii c) - 48.

(** The white space [str.strip] removes: the characters [c] with
    [c.isspace()]. *)
Definition is_space (c : ascii) : bool :=
  let n := nat_of_ascii c in
  ((Nat.leb 9 n && Nat.leb n 13) || (Nat.leb 28 n && Nat.leb n 32)
   || Nat.eqb n 133 || Nat.eqb n 160)%bool.

(** The white space [int] and [float] skip at either end of a text: the
    white space above but for the separators 28 to 31, which they leave in
    place and then reject. *)
Definition is_space_num (c : ascii) : bool :=
  let n := nat_of_ascii c in
  ((Nat.leb 9 n && Nat.leb n 13) || Nat.eqb n 32
   || Nat.eqb n 133 || Nat.eqb n 160)%bool.

Fixpoint lstrip (s : list ascii) : list ascii :=
  match s with
  | c :: s' => if is_space c then lstrip s' else s
  | [] => []
  end.

Definition strip_chars (s : list ascii) : list ascii :=
  rev (lstrip (rev (lstrip s))).

(** [str.strip()] *)
Definition strip (s : string) : string :=
  string_of_list_ascii (strip_chars (list_ascii_of_string s)).

Fixpoint lstrip_num (s : list ascii) : list ascii :=
  match s with
  | c :: s' => if is_space_num c then lstrip_num s' else s
  | [] => []
  end.

(** A numeric text without the white space [int] and [float] skip. *)
Definition strip_num (s : list ascii) : list ascii :=
  rev (lstrip_num (rev (lstrip_num s))).

(** [s.replace(',', '')] *)
Definition remove_commas (s : string) : string :=
  string_of_list_ascii
    (filter (fun c => negb (Ascii.eqb c ",")) (list_ascii_of_string s)).

Definition lower (c : ascii) : ascii :=
  let n := nat_of_ascii c in
  if (Nat.leb 65 n && Nat.leb n 90)%bool then ascii_of_nat (n + 32) else c.

(** [str(z)] for an integer. *)
Definition str_of_int (z : Z) : string :=
  NilEmpty.string_of_int (Z.to_int z).

(** A [digitpart] of the numeric grammar: digits, single underscores
    allowed between two digits.  Returns the digits read and the rest. *)
Fixpoint digitpart (s : list ascii) : list ascii * list ascii :=
  match s with
  | c :: s1 =>
      if is_digit c then
        match s1 with
        | u :: s2 =>
            if Ascii.eqb u "_" then
              match s2 with
              | d :: _ =>
                  if is_digit d
                  then let (ds, r) := digitpart s2 in (c :: ds, r)
                  else ([c], s1)
              | [] => ([c], s1)
              end
            else let (ds, r) := digitpart s1 in (c :: ds, r)
        | [] => ([c], [])
        end
      else ([], s)
  | [] => ([], [])
  end.

Definition digits_val (ds : list ascii) : Z :=
  fold_left (fun acc c => 10 * acc + digit_val c) ds 0.

(** An optional sign; [true] is minus. *)
Definition sign (s : list ascii) : bool * list ascii :=
  match s with
  | c :: s' =>
      if Ascii.eqb c "-" then (true, s')
      else if Ascii.eqb c "+" then (false, s')
      else (false, s)
  | [] => (false, [])
  end.

(** [int(s)] for a string, base 10.  A text of more than 4300 digits is
    refused (the limit [sys.int_max_str_digits] of CPython 3.11, which
    counts neither the sign nor the underscores). *)
Definition int_of_str (s : string) : result Z :=
  let (neg, r) := sign (strip_num (list_ascii_of_string s)) in
  match digitpart r with
  | ((_ :: _) as ds, []) =>
      if Nat.ltb 4300 (List.length ds)
      then Raise (ValueError
                    "Exceeds the limit (4300 digits) for integer string conversion")
      else Ok (if neg then - digits_val ds else digits_val ds)
  | _ => Raise (ValueError "invalid literal for int() with base 10")
  end.

(** *** Floats *)

(** Round the non-negative rational [num/den] to the nearest binary64,
    ties to even; a result of [2^1024] or more is an infinity. *)
Definition binary64_of_ratio (neg : bool) (num den : Z) : pyfloat :=
  if num =? 0 then Ffin neg 0 0
  else
    let e0 := Z.log2 num - Z.log2 den in
    let ge := if 0 <=? e0 then den * 2 ^ e0 <=? num
              else den <=? num * 2 ^ (- e0) in
    let e := if ge then e0 else e0 - 1 in
    let q := Z.max (e - 52) (-1074) in
    let N := if 0 <=? q then num else num * 2 ^ (- q) in
    let D := if 0 <=? q then den * 2 ^ q else den in
    let m0 := N / D in
    let r := N mod D in
    let m := if D <? 2 * r then m0 + 1
             else if 2 * r =? D then (if Z.odd m0 then m0 + 1 else m0)
             else m0 in
    if (0 <=? q) && (2 ^ 1024 <=? m * 2 ^ q) then Finf neg
    else Ffin neg m q.

(** The decimal [n * 10^k] as a binary64. *)
Definition binary64_of_decimal (neg : bool) (n k : Z) : pyfloat :=
  if 0 <=? k then binary64_of_ratio neg (n * 10 ^ k) 1
  else binary64_of_ratio neg n (10 ^ (- k)).

Definition word_eqb (s : list ascii) (w : string) : bool :=
  String.eqb (string_of_list_ascii (map lower s)) w.

(** [float(s)] for a string: white space stripped, an optional sign, then
    [inf], [infinity] or [nan] in any case, or a decimal number with an
    optional fraction and exponent. *)
Definition float_of_str (s : string) : result pyfloat :=
  let bad := Raise (ValueError "could not convert string to float") in
  let (neg, r) := sign (strip_num (list_ascii_of_string s)) in
  if word_eqb r "inf" || word_eqb r "infinity" then Ok (Finf neg)
  else if word_eqb r "nan" then Ok Fnan
  else
    let (ip, r1) := digitpart r in
    let (fp, r2) :=
      match r1 with
      | c :: r1' => if Ascii.eqb c "." then digitpart r1' else ([], r1)
      | [] => ([], [])
      end in
    if (Nat.eqb (List.length ip) 0 && Nat.eqb (List.length fp) 0)%bool then bad
    else
      let mant := digits_val (ip ++ fp)%list in
      let scale := - Z.of_nat (List.length fp) in
      match r2 with
      | [] => Ok (binary64_of_decimal neg mant scale)
      | c :: r2' =>
          if Ascii.eqb (lower c) "e" then
            let (eneg, r3) := sign r2' in
            match digitpart r3 with
            | ((_ :: _) as ep, []) =>
                let ex := if eneg then - digits_val ep else digits_val ep in
                Ok (binary64_of_decimal neg mant (scale + ex))
            | _ => bad
            end
          else bad
      end.

(** [int(f)] for a float: truncation toward zero. *)
Definition int_of_float (f : pyfloat) : result Z :=
  match f with
  | Fnan => Raise (ValueError "cannot convert float NaN to integer")
  | Finf _ => Raise (OverflowError "cannot convert float infinity to integer")
  | Ffin neg m e =>
      let t := if 0 <=? e then m * 2 ^ e else m / 2 ^ (- e) in
      Ok (if neg then - t else t)
  end.

(** [float(z)] for an integer. *)
Definition float_of_int (z : Z) : pyfloat :=
  binary64_of_ratio (z <? 0) (Z.abs z) 1.

(** [int(v)] *)
Definition py_int (v : value) : result Z :=
  match v with
  | VNone => Raise (ValueError "int() argument must be a string or a number")
  | VBool b => Ok (if b then 1 else 0)
  | VInt z => Ok z
  | VFloat f => int_of_float f
  | VStr s => int_of_str s
  end.

(** [float(str(v).replace(',', ''))].  The text of an integer is its
    decimal writing; the text of a float is its shortest round-tripping
    writing, which has no comma and reads back as the same float; the text
    of [None], [True] and [False] is a word [float] rejects. *)
Definition float_of_text (v : value) : result pyfloat :=
  match v with
  | VStr s => float_of_str (remove_commas s)
  | VInt z => float_of_str (remove_commas (str_of_int z))
  | VFloat f => Ok f
  | VBool _ | VNone => Raise (ValueError "could not convert string to float")
  end.

(** [pd.isna(v)] on a scalar. *)
Definition isna (v : value) : bool :=
  match v with
  | VNone => true
  | VFloat Fnan => true
  | _ => false
  end.

(** [v is None] *)
Definition is_None (v : value) : bool :=
  match v with VNone => true | _ => false end.

(** [v == ''] *)
Definition eq_empty (v : value) : bool :=
  match v with VStr s => String.eqb s "" | _ => false end.

(** Equality of stored scalars, as a MongoDB filter compares them. *)
Definition pyfloat_eqb (f g : pyfloat) : bool :=
  match f, g with
  | Fnan, Fnan => true
  | Finf a, Finf b => Bool.eqb a b
  | Ffin a m e, Ffin b m' e' => Bool.eqb a b && (m =? m') && (e =? e')
  | _, _ => false
  end.

Definition value_eqb (v w : value) : bool :=
  match v, w with
  | VNone, VNone => true
  | VBool a, VBool b => Bool.eqb a b
  | VInt a, VInt b => a =? b
  | VFloat f, VFloat g => pyfloat_eqb f g
  | VStr a, VStr b => String.eqb a b
  | _, _ => false
  end.

End Py.

Import Py.

(* ================================================================== *)
(** ** The MongoDB database [rumah123] shared by the three scripts     *)
(* ================================================================== *)

Module Mongo.

(** A stored document, and a Python dict with string keys. *)
Definition doc : Type := list (string * value).

Fixpoint get (k : string) (d : doc) : option value :=
  match d with
  | [] => None
  | (k', v) :: d' => if String.eqb k k' then Some v else get k d'
  end.

(** [d[k] = v] *)
Fixpoint set (k : string) (v : value) (d : doc) : doc :=
  match d with
  | [] => [(k, v)]
  | (k', v') :: d' =>
      if String.eqb k k' then (k, v) :: d' else (k', v') :: set k v d'
  end.

(** [provinces.get(region)] *)
Fixpoint cursor (region : string) (l : list (string * Z)) : option Z :=
  match l with
  | [] => None
  | (k, v) :: l' => if String.eqb region k then Some v else cursor region l'
  end.

(** The single document of [scraping_progress], [_id = "current_progress"]. *)
Record progress_doc : Type := {
  current_page : Z;
  provinces : list (string * Z)
}.

(** What a script does outside the database, in the order it does it. *)
Inductive event : Type :=
| HttpGet (url : string)
| OverpassPost (kecamatan : value) (facility_filter : string)
| Sleep (seconds : Z).

(** The five collections, and next to them the trace of the outside
    events so far, so that requests, waits and writes are ordered in one
    state. *)
Record db : Type := {
  raw_listings : list doc;
  facilities : list doc;
  cleaned_listings : list doc;
  cleaned_facilities : list doc;
  scraping_progress : option progress_doc;
  trace : list event
}.

Definition with_raw_listings (l : list doc) (s : db) : db :=
  {| raw_listings := l; facilities := facilities s;
     cleaned_listings := cleaned_listings s;
     cleaned_facilities := cleaned_facilities s;
     scraping_progress := scraping_progress s; trace := trace s |}.

Definition with_facilities (l : list doc) (s : db) : db :=
  {| raw_listings := raw_listings s; facilities := l;
     cleaned_listings := cleaned_listings s;
     cleaned_facilities := cleaned_facilities s;
     scraping_progress := scraping_progress s; trace := trace s |}.

Definition with_cleaned_listings (l : list doc) (s : db) : db :=
  {| raw_listings := raw_listings s; facilities := facilities s;
     cleaned_listings := l;
     cleaned_facilities := cleaned_facilities s;
     scraping_progress := scraping_progress s; trace := trace s |}.

Definition with_cleaned_facilities (l : list doc) (s : db) : db :=
  {| raw_listings := raw_listings s; facilities := facilities s;
     cleaned_listings := cleaned_listings s;
     cleaned_facilities := l;
     scraping_progress := scraping_progress s; trace := trace s |}.

Definition with_progress (p : option progress_doc) (s : db) : db :=
  {| raw_listings := raw_listings s; facilities := facilities s;
     cleaned_listings := cleaned_listings s;
     cleaned_facilities := cleaned_facilities s;
     scraping_progress := p; trace := trace s |}.

Definition with_trace (t : list event) (s : db) : db :=
  {| raw_listings := raw_listings s; facilities := facilities s;
     cleaned_listings := cleaned_listings s;
     cleaned_facilities := cleaned_facilities s;
     scraping_progress := scraping_progress s; trace := t |}.

(** A computation on the database that may raise; what it wrote before the
    exception stays written. *)
Definition M (A : Type) : Type := db -> result A * db.

Definition ret {A : Type} (a : A) : M A := fun s => (Ok a, s).

Definition raise {A : Type} (e : exn) : M A := fun s => (Raise e, s).

Definition bindM {A B : Type} (c : M A) (k : A -> M B) : M B :=
  fun s => match c s with
           | (Ok a, s') => k a s'
           | (Raise e, s') => (Raise e, s')
           end.

Definition lift {A : Type} (r : result A) : M A := fun s => (r, s).

(** [try: body  except Exception as e: handler(e)] *)
Definition try_except {A : Type} (body : M A) (handler : exn -> M A) : M A :=
  fun s => match body s with
           | (Ok a, s') => (Ok a, s')
           | (Raise e, s') => handler e s'
           end.

(** An outside event happens. *)
Definition emit (e : event) : M unit :=
  fun s => (Ok tt, with_trace (trace s ++ [e])%list s).

(** A read of the server: [fails] says that the server is unreachable. *)
Definition read {A : Type} (fails : bool) (q : db -> A) : M A :=
  fun s => if fails then (Raise (PyMongoError "server unreachable"), s)
           else (Ok (q s), s).

(** [insert_many(docs)], ordered.  [stops = Some n]: the call raises after
    the first [n] documents are written. *)
Definition insert_many (stops : option nat) (sel : db -> list doc)
    (upd : list doc -> db -> db) (docs : list doc) : M unit :=
  fun s => match stops with
           | None => (Ok tt, upd (sel s ++ docs)%list s)
           | Some n => (Raise (PyMongoError "insert_many failed"),
                        upd (sel s ++ firstn n docs)%list s)
           end.

(** The filter [{key: v}]: the field holds [v]; a missing field matches
    only [None].  Values are compared as stored, an integer page with an
    integer page. *)
Definition field_is (key : string) (v : value) (d : doc) : bool :=
  match get key d with
  | Some w => value_eqb w v
  | None => is_None v
  end.

(** The filter [{key: {"$in": vs}}]; [None] in [vs] also matches a document
    without the field. *)
Definition field_in (key : string) (vs : list value) (d : doc) : bool :=
  existsb (fun v => field_is key v d) vs.

(** The filter [{key: {"$exists": True, "$ne": None}}]. *)
Definition field_exists_not_null (key : string) (d : doc) : bool :=
  match get key d with
  | Some VNone | None => false
  | Some _ => true
  end.

(** Distinct values, in order of first appearance. *)
Fixpoint distinct_values (seen : list value) (l : list value) : list value :=
  match l with
  | [] => []
  | v :: l' =>
      if existsb (value_eqb v) seen then distinct_values seen l'
      else v :: distinct_values (v :: seen) l'
  end.

(** [c] takes every state to a state related to it by [R]. *)
Definition preserves (R : db -> db -> Prop) {A : Type} (c : M A) : Prop :=
  forall s, R s (snd (c s)).

(** The raw collections are as they were and the cleaned ones have only
    been appended to. *)
Definition appends_cleaned (s s' : db) : Prop :=
  raw_listings s' = raw_listings s /\
  facilities s' = facilities s /\
  (exists l, cleaned_listings s' = (cleaned_listings s ++ l)%list) /\
  (exists l, cleaned_facilities s' = (cleaned_facilities s ++ l)%list).

(** The progress document is as it was. *)
Definition same_progress (s s' : db) : Prop :=
  scraping_progress s' = scraping_progress s.

(** [c] takes every state to a state related to it by [R], unless it
    returns [True]. *)
Definition unless_true (R : db -> db -> Prop) (c : M bool) : Prop :=
  forall s, fst (c s) <> Ok true -> R s (snd (c s)).

(** Every event of the trace of [s'] was in the trace of [s] or is a [P]. *)
Definition trace_adds (P : event -> Prop) (s s' : db) : Prop :=
  forall e, In e (trace s') -> In e (trace s) \/ P e.

(** Every raw listing of [s'] was a raw listing of [s] or is a [Q]. *)
Definition raw_adds (Q : doc -> Prop) (s s' : db) : Prop :=
  forall d, In d (raw_listings s') -> In d (raw_listings s) \/ Q d.

(** The raw listings of [s'] are those of [s] followed by records that
    are all [Q]. *)
Definition raw_appends (Q : doc -> Prop) (s s' : db) : Prop :=
  exists added, raw_listings s' = (raw_listings s ++ added)%list /\
                forall d, In d added -> Q d.

(** The five collections are as they were. *)
Definition same_collections (s s' : db) : Prop :=
  raw_listings s' = raw_listings s /\
  facilities s' = facilities s /\
  cleaned_listings s' = cleaned_listings s /\
  cleaned_facilities s' = cleaned_facilities s /\
  scraping_progress s' = scraping_progress s.

(** Only the facility records and the trace may differ. *)
Definition only_facilities_change (s s' : db) : Prop :=
  raw_listings s' = raw_listings s /\
  cleaned_listings s' = cleaned_listings s /\
  cleaned_facilities s' = cleaned_facilities s /\
  scraping_progress s' = scraping_progress s.

(** The raw listings have only been appended to, and the facility records
    and the cleaned collections are as they were. *)
Definition only_raw_appended (s s' : db) : Prop :=
  (exists l, raw_listings s' = (raw_listings s ++ l)%list) /\
  facilities s' = facilities s /\
  cleaned_listings s' = cleaned_listings s /\
  cleaned_facilities s' = cleaned_facilities s.

(** If the progress document was [p], it still is. *)
Definition holds_progress (p : progress_doc) (s s' : db) : Prop :=
  scraping_progress s = Some p -> scraping_progress s' = Some p.

End Mongo.

Import Mongo.

Notation "x <== c ;; k" := (bindM c (fun x => k))
  (at level 61, c at next level, right associativity).

(* ================================================================== *)
(** ** [data_cleaning.py]: class [DataCleaner]                         *)
(* ================================================================== *)

Module DataCleaning.

(** [try: body  except: return None], the shape of the three coercions. *)
Definition or_None (body : result value) : result value :=
  match body with
  | Ok v => Ok v
  | Raise _ => Ok VNone
  end.

(** [clean_price], lines 47-54. *)
Definition clean_price (price : value) : result value :=
  or_None
    (if isna price || is_None price then Ok VNone
     else z <- py_int price ;; Ok (VInt z)).

(** [clean_numeric], lines 56-67. *)
Definition clean_numeric (v : value) (convert_to : string) : result value :=
  or_None
    (if isna v || is_None v || eq_empty v then Ok VNone
     else if String.eqb convert_to "int" then
       f <- float_of_text v ;; z <- int_of_float f ;; Ok (VInt z)
     else if String.eqb convert_to "float" then
       f <- float_of_text v ;; Ok (VFloat f)
     else Ok v).

(** A pandas DataFrame: the column labels and one record per row, each
    record holding a cell for every column.  A cell holds the value the
    cleaning function returned; the retyping of a whole column that pandas
    does afterwards is not part of the model. *)
Record DataFrame : Type := {
  columns : list string;
  records : list doc
}.

Fixpoint first_seen (seen : list string) (l : list string) : list string :=
  match l with
  | [] => []
  | k :: l' =>
      if existsb (String.eqb k) seen then first_seen seen l'
      else k :: first_seen (k :: seen) l'
  end.

(** [pd.DataFrame(docs)]: the columns are the keys of all the documents; a
    key a document lacks gives a NaN cell. *)
Definition DataFrame_of (docs : list doc) : DataFrame :=
  let cols := first_seen [] (List.concat (map (map fst) docs)) in
  {| columns := cols;
     records :=
       map (fun d =>
              map (fun c => (c, match get c d with
                                | Some v => v
                                | None => VFloat Fnan
                                end)) cols) docs |}.

(** [col in df.columns] *)
Definition has_column (col : string) (df : DataFrame) : bool :=
  existsb (String.eqb col) (columns df).

Fixpoint map_result {A B : Type} (f : A -> result B) (l : list A)
  : result (list B) :=
  match l with
  | [] => Ok []
  | a :: l' => b <- f a ;; bs <- map_result f l' ;; Ok (b :: bs)
  end.

Definition apply_cell (f : value -> result value) (col : string) (d : doc)
  : result doc :=
  map_result (fun kv : string * value =>
                if String.eqb (fst kv) col
                then v <- f (snd kv) ;; Ok (fst kv, v)
                else Ok kv) d.

(** [df[col] = df[col].apply(f)] *)
Definition apply_column (f : value -> result value) (col : string)
    (df : DataFrame) : result DataFrame :=
  if has_column col df then
    rs <- map_result (apply_cell f col) (records df) ;;
    Ok {| columns := columns df; records := rs |}
  else Raise (KeyError col).

(** [for col in cols: df[col] = df[col].apply(f)] *)
Fixpoint apply_columns (f : value -> result value) (cols : list string)
    (df : DataFrame) : result DataFrame :=
  match cols with
  | [] => Ok df
  | c :: cols' => df' <- apply_column f c df ;; apply_columns f cols' df'
  end.

(** [for col in required: if col not in df.columns: raise ValueError(...)] *)
Fixpoint check_required (required : list string) (df : DataFrame)
  : result unit :=
  match required with
  | [] => Ok tt
  | col :: rest =>
      if has_column col df then check_required rest df
      else Raise (ValueError ("Required column " ++ col ++ " is missing from data."))
  end.

(** Some required column is not a column of the frame: the column itself
    is missing, whatever the cells of the other columns hold. *)
Definition missing_required (required : list string) (df : DataFrame) : bool :=
  existsb (fun col => negb (has_column col df)) required.

(** [df.to_dict('records')] *)
Definition to_dict_records (df : DataFrame) : list doc := records df.

(** [df[col].unique()] *)
Definition unique (col : string) (df : DataFrame) : result (list value) :=
  if has_column col df then
    Ok (distinct_values []
          (map (fun d => match get col d with
                         | Some v => v
                         | None => VFloat Fnan
                         end) (records df)))
  else Raise (KeyError col).

Definition listing_required_columns : list string :=
  [ "judul_iklan"; "harga"; "kecamatan"; "kabupaten_kota"; "provinsi";
    "terakhir_diperbarui"; "agen"; "link_rumah123"; "kamar_tidur";
    "kamar_mandi"; "luas_tanah"; "luas_bangunan"; "carport";
    "sertifikat"; "daya_listrik"; "kamar_tidur_pembantu";
    "kamar_mandi_pembantu"; "dapur"; "ruang_makan"; "ruang_tamu";
    "kondisi_perabotan"; "material_bangunan"; "material_lantai";
    "garasi"; "jumlah_lantai"; "konsep_dan_gaya_rumah"; "pemandangan";
    "terjangkau_internet"; "lebar_jalan"; "tahun_dibangun";
    "tahun_direnovasi"; "sumber_air"; "hook"; "kondisi_properti" ].

Definition numeric_int_columns : list string :=
  [ "kamar_tidur"; "kamar_mandi"; "carport"; "daya_listrik";
    "kamar_tidur_pembantu"; "kamar_mandi_pembantu"; "dapur";
    "garasi"; "jumlah_lantai"; "tahun_dibangun"; "tahun_direnovasi" ].

Definition numeric_float_columns : list string :=
  [ "luas_tanah"; "luas_bangunan" ].

Definition string_columns : list string :=
  [ "kecamatan"; "kabupaten_kota"; "provinsi"; "terakhir_diperbarui";
    "agen"; "link_rumah123"; "sertifikat"; "ruang_makan"; "ruang_tamu";
    "kondisi_perabotan"; "material_bangunan"; "material_lantai";
    "konsep_dan_gaya_rumah"; "pemandangan"; "terjangkau_internet";
    "lebar_jalan"; "sumber_air"; "hook"; "kondisi_properti" ].

Definition facility_required_columns : list string :=
  [ "kecamatan"; "jumlah_fasilitas_pendidikan";
    "jumlah_fasilitas_kesehatan"; "jumlah_fasilitas_perbelanjaan";
    "jumlah_fasilitas_transportasi"; "jumlah_fasilitas_rekreasi" ].

(** The storage calls of one run of the cleaner that the server may fail. *)
Record faults : Type := {
  load_progress_fails : bool;
  find_listings_fails : bool;
  insert_listings_stops : option nat;
  find_facilities_fails : bool;
  insert_facilities_stops : option nat;
  update_progress_fails : bool
}.

(** Lines 195-198: the cursors moved in the loaded progress dict. *)
Definition advance_page (progress : progress_doc) : progress_doc :=
  let cp := current_page progress in
  {| current_page := cp + 1;
     provinces :=
       map (fun kv : string * Z =>
              (fst kv, if snd kv =? cp then cp + 1 else snd kv))
           (provinces progress) |}.

(** [update_one({"_id": "current_progress"}, {"$set": progress})] *)
Definition write_progress (fails : bool) (progress : progress_doc) : M unit :=
  fun s =>
    if fails then (Raise (PyMongoError "update_one failed"), s)
    else (Ok tt,
          match scraping_progress s with
          | Some _ => with_progress (Some progress) s
          | None => s
          end).

(** [load_progress], lines 36-45. *)
Definition load_progress (ft : faults) : M progress_doc :=
  try_except
    (progress <== read (load_progress_fails ft) scraping_progress ;;
     match progress with
     | Some p => ret p
     | None => raise (ValueError "No progress data found")
     end)
    (fun e => raise e).

Section Cleaner.

(** [str(f)] for a float, the one conversion left abstract. *)
Variable repr_float : pyfloat -> string.

(** [str(v)] *)
Definition py_str (v : value) : string :=
  match v with
  | VNone => "None"
  | VBool b => if b then "True" else "False"
  | VInt z => str_of_int z
  | VFloat f => repr_float f
  | VStr s => s
  end.

(** [clean_string], lines 69-76. *)
Definition clean_string (v : value) : result value :=
  or_None
    (if isna v || is_None v || eq_empty v then Ok VNone
     else Ok (VStr (strip (py_str v)))).

(** [clean_rumah123_data], lines 78-130. *)
Definition clean_rumah123_data (df : DataFrame) : result DataFrame :=
  _ <- check_required listing_required_columns df ;;
  df <- apply_column clean_price "harga" df ;;
  df <- apply_columns (fun x => clean_numeric x "int") numeric_int_columns df ;;
  df <- apply_columns (fun x => clean_numeric x "float") numeric_float_columns df ;;
  df <- apply_columns clean_string string_columns df ;;
  Ok df.

(** [clean_osm_facilities_data], lines 132-157. *)
Definition clean_osm_facilities_data (df : DataFrame) : result DataFrame :=
  _ <- check_required facility_required_columns df ;;
  let facility_columns :=
    filter (fun col => negb (String.eqb col "kecamatan"))
           facility_required_columns in
  df <- apply_columns (fun x => clean_numeric x "int") facility_columns df ;;
  df <- apply_column clean_string "kecamatan" df ;;
  Ok df.

(** The body of the [try] of [process_current_page], lines 165-205. *)
Definition process_body (ft : faults) (progress : progress_doc) : M bool :=
  let cp := current_page progress in
  raw <== read (find_listings_fails ft)
            (fun s => filter (field_is "page" (VInt cp)) (raw_listings s)) ;;
  match raw with
  | [] => ret false
  | _ :: _ =>
      cleaned_listings_df <== lift (clean_rumah123_data (DataFrame_of raw)) ;;
      let cleaned_records := to_dict_records cleaned_listings_df in
      _ <== match cleaned_records with
            | [] => ret tt
            | _ :: _ =>
                insert_many (insert_listings_stops ft) cleaned_listings
                            with_cleaned_listings cleaned_records
            end ;;
      unique_kecamatans <== lift (unique "kecamatan" cleaned_listings_df) ;;
      facilities_data <==
        read (find_facilities_fails ft)
          (fun s => filter (field_in "kecamatan" unique_kecamatans)
                           (facilities s)) ;;
      _ <== match facilities_data with
            | [] => ret tt
            | _ :: _ =>
                cleaned_facilities_df <==
                  lift (clean_osm_facilities_data (DataFrame_of facilities_data)) ;;
                insert_many (insert_facilities_stops ft) cleaned_facilities
                            with_cleaned_facilities
                            (to_dict_records cleaned_facilities_df)
            end ;;
      _ <== write_progress (update_progress_fails ft) (advance_page progress) ;;
      ret true
  end.

(** [process_current_page], lines 159-209. *)
Definition process_current_page (ft : faults) (progress : progress_doc)
  : M bool :=
  try_except (process_body ft progress) (fun _ => ret false).

(** How [run] ended: the three log lines of lines 221, 224 and 227. *)
Inductive outcome : Type :=
| Completed
| PageFailed
| PipelineFailed (e : exn).

(** [run], lines 211-229. *)
Definition run (ft : faults) (s : db) : outcome * db :=
  match (progress <== load_progress ft ;; process_current_page ft progress) s with
  | (Ok true, s') => (Completed, s')
  | (Ok false, s') => (PageFailed, s')
  | (Raise e, s') => (PipelineFailed e, s')
  end.

End Cleaner.

(** The columns [clean_rumah123_data] rewrites, lines 115-124. *)
Definition cleaned_listing_columns : list string :=
  ("harga" :: numeric_int_columns ++ numeric_float_columns ++ string_columns)%list.

(** [df'] has the columns, the rows and the fields of [df], and the cells
    of [df] outside the columns [cleaned]. *)
Definition keeps_shape (cleaned : list string) (df df' : DataFrame) : Prop :=
  columns df' = columns df /\
  map (map fst) (records df') = map (map fst) (records df) /\
  forall k, ~ In k cleaned ->
            map (get k) (records df') = map (get k) (records df).

End DataCleaning.

(* ================================================================== *)
(** ** [rumah123_scraper.py]: class [Rumah123Scraper]                  *)
(* ================================================================== *)

Module Scraper.

(** [self.provinces], lines 32-41. *)
Definition known_provinces : list string :=
  [ "dki-jakarta"; "jawa-barat"; "banten"; "jawa-timur"; "jawa-tengah";
    "bali"; "daerah-istimewa-yogyakarta"; "sumatera-utara"; "kepulauan-riau";
    "sulawesi-selatan"; "kalimantan-timur"; "riau"; "lampung"; "sumatera-selatan";
    "kalimantan-barat"; "sulawesi-utara"; "nusa-tenggara-barat"; "nusa-tenggara-timur";
    "sumatera-barat"; "kalimantan-selatan"; "jambi"; "kepulauan-bangka-belitung";
    "kalimantan-tengah"; "papua"; "aceh"; "bengkulu"; "papua-barat"; "sulawesi-tengah";
    "sulawesi-tenggara"; "gorontalo"; "kalimantan-utara"; "maluku-utara";
    "sulawesi-barat"; "maluku" ].

(** One [div.ui-organism-intersection__element] of an index page: the text
    of its title element and the [href] of its link element, when the
    selectors of lines 97-98 find them. *)
Record card : Type := {
  title_elem : option string;
  link_elem : option string
}.

(** What the selectors read off a detail page: the [h1], the location
    paragraph, and the other entries of the returned dict (lines 157,
    161-162 and 164-190) as already extracted. *)
Record detail_page : Type := {
  h1 : option string;
  location_text : option string;
  other_fields : doc
}.

(** The remote site and the clock.  A request either gives the parsed page
    or raises. *)
Record web : Type := {
  search_page : string -> result (list card);
  detail : string -> result detail_page;
  now : value
}.

(** The storage calls of one run of the scraper that the server may fail;
    the stores and progress writes are told apart by province. *)
Record faults : Type := {
  find_progress_fails : bool;
  insert_progress_fails : bool;
  distinct_fails : bool;
  store_stops : string -> option nat;
  update_progress_fails : string -> bool
}.

(** An entry of [houses_to_scrape]. *)
Record house : Type := {
  judul_iklan : string;
  link : string
}.

Definition opt_str (o : option string) : value :=
  match o with
  | Some s => VStr s
  | None => VNone
  end.

(** [s.split(c)] *)
Fixpoint split_on (c : ascii) (s : list ascii) : list (list ascii) :=
  match s with
  | [] => [[]]
  | x :: s' =>
      if Ascii.eqb x c then [] :: split_on c s'
      else match split_on c s' with
           | p :: ps => (x :: p) :: ps
           | [] => [[x]]
           end
  end.

Definition strip_part (p : list ascii) : value :=
  VStr (string_of_list_ascii (strip_chars p)).

(** Lines 141-142: [kecamatan] from the location paragraph. *)
Definition kecamatan_of (location_text : option string) : value :=
  match location_text with
  | None | Some "" => VNone
  | Some s =>
      match split_on "," (list_ascii_of_string s) with
      | p :: _ => strip_part p
      | [] => VNone
      end
  end.

(** Line 143: [kabupaten]. *)
Definition kabupaten_of (location_text : option string) : value :=
  match location_text with
  | None | Some "" => VNone
  | Some s =>
      match split_on "," (list_ascii_of_string s) with
      | (_ :: _ :: _) as parts => strip_part (last parts [])
      | _ => VNone
      end
  end.

(** [try: body  except requests.RequestException: return default] *)
Definition except_request {A : Type} (body : M A) (default : A) : M A :=
  try_except body
    (fun e => match e with
              | RequestException _ => ret default
              | _ => raise e
              end).

(** [title not in existing_titles] *)
Definition known_title (existing_titles : list value) (title : string) : bool :=
  existsb (value_eqb (VStr title)) existing_titles.

(** The body of the loop over the cards, lines 96-110. *)
Definition card_house (existing_titles : list value) (c : card) : list house :=
  match title_elem c, link_elem c with
  | Some t, Some l =>
      let title := strip t in
      if negb (String.eqb title "") && negb (known_title existing_titles title)
      then [ {| judul_iklan := title;
                link := "https://www.rumah123.com" ++ l |} ]
      else []
  | _, _ => []
  end.

(** [houses_to_scrape] for the cards of a page. *)
Definition candidates (existing_titles : list value) (cards : list card)
  : list house :=
  flat_map (card_house existing_titles) cards.

(** The cards of the index page at [url]; none when the request fails. *)
Definition cards_of (w : web) (url : string) : list card :=
  match search_page w url with
  | Ok cards => cards
  | Raise _ => []
  end.

(** The site shows a listing under the same title on the index page and on
    its detail page. *)
Definition title_consistent (w : web) (cards : list card) : Prop :=
  forall c t l pg,
    In c cards -> title_elem c = Some t -> link_elem c = Some l ->
    detail w ("https://www.rumah123.com" ++ l) = Ok pg ->
    h1 pg = Some (strip t).

(** [fetch_existing_titles], lines 72-79. *)
Definition fetch_existing_titles (ft : faults) : M (list value) :=
  try_except
    (read (distinct_fails ft)
       (fun s => distinct_values []
                   (flat_map (fun d => match get "judul_iklan" d with
                                       | Some v => [v]
                                       | None => []
                                       end) (raw_listings s))))
    (fun _ => ret []).

(** [scrape_search_page], lines 81-119. *)
Definition scrape_search_page (w : web) (url : string)
    (existing_titles : list value) : M (list house) :=
  except_request
    (_ <== emit (HttpGet url) ;;
     house_cards <== lift (search_page w url) ;;
     ret (flat_map (card_house existing_titles) house_cards))
    [].

(** [scrape_house_details], lines 121-194. *)
Definition scrape_house_details (w : web) (url : string) (province : string)
  : M doc :=
  except_request
    (_ <== emit (HttpGet url) ;;
     page <== lift (detail w url) ;;
     ret ([ ("judul_iklan", opt_str (h1 page));
            ("kecamatan", kecamatan_of (location_text page));
            ("kabupaten_kota", kabupaten_of (location_text page));
            ("provinsi", VStr province);
            ("link_rumah123", VStr url) ] ++ other_fields page)%list)
    [].

(** [store_to_mongodb], lines 196-217. *)
Definition store_to_mongodb (ft : faults) (w : web) (data : list doc)
    (province : string) (page : Z) : M bool :=
  match data with
  | [] => ret false
  | _ :: _ =>
      try_except
        (let data' :=
           map (fun record =>
                  set "inserted_at" (now w)
                    (set "page" (VInt page)
                       (set "province" (VStr province) record))) data in
         _ <== insert_many (store_stops ft province) raw_listings
                 with_raw_listings data' ;;
         ret true)
        (fun _ => ret false)
  end.

(** [load_progress], lines 219-234. *)
Definition load_progress (ft : faults) : M progress_doc :=
  try_except
    (progress <== read (find_progress_fails ft) scraping_progress ;;
     match progress with
     | Some p => ret p
     | None =>
         let p := {| current_page := 1;
                     provinces := map (fun province => (province, 1))
                                      known_provinces |} in
         fun s =>
           if insert_progress_fails ft
           then (Raise (PyMongoError "insert_one failed"), s)
           else (Ok p, with_progress (Some p) s)
     end)
    (fun e => raise e).

(** [provinces[province] = page] in the stored document. *)
Fixpoint set_cursor (province : string) (page : Z) (l : list (string * Z))
  : list (string * Z) :=
  match l with
  | [] => [(province, page)]
  | (k, v) :: l' =>
      if String.eqb province k then (k, page) :: l'
      else (k, v) :: set_cursor province page l'
  end.

(** The [$set] of lines 242-245 on the progress document. *)
Definition set_progress (province : string) (page : Z) (p : progress_doc)
  : progress_doc :=
  {| current_page := page;
     provinces := set_cursor province page (provinces p) |}.

(** [update_progress], lines 236-249. *)
Definition update_progress (ft : faults) (province : string) (page : Z)
  : M unit :=
  try_except
    (fun s =>
       if update_progress_fails ft province
       then (Raise (PyMongoError "update_one failed"), s)
       else (Ok tt,
             match scraping_progress s with
             | Some p => with_progress (Some (set_progress province page p)) s
             | None => s
             end))
    (fun _ => ret tt).

(** Lines 271-275: the details of each house, the empty ones left out. *)
Fixpoint scrape_all (w : web) (province : string) (houses : list house)
  : M (list doc) :=
  match houses with
  | [] => ret []
  | h :: rest =>
      details <== scrape_house_details w (link h) province ;;
      house_details <== scrape_all w province rest ;;
      ret (match details with
           | [] => house_details
           | _ :: _ => details :: house_details
           end)
  end.

Definition search_url (province : string) (page : Z) : string :=
  "https://www.rumah123.com/jual/" ++ province ++ "/rumah/?page="
    ++ str_of_int page.

(** The body of the loop of [run] for one entry of
    [progress["provinces"]], lines 258-281. *)
Definition run_province (ft : faults) (w : web) (existing_titles : list value)
    (current_page : Z) (province : string) (page : Z) : M unit :=
  if negb (page =? current_page) then ret tt
  else
    houses <== scrape_search_page w (search_url province page) existing_titles ;;
    match houses with
    | [] => ret tt
    | _ :: _ =>
        house_details <== scrape_all w province houses ;;
        match house_details with
        | [] => ret tt
        | _ :: _ =>
            stored <== store_to_mongodb ft w house_details province page ;;
            if stored then update_progress ft province page else ret tt
        end
    end.

Fixpoint run_loop (ft : faults) (w : web) (existing_titles : list value)
    (current_page : Z) (items : list (string * Z)) : M unit :=
  match items with
  | [] => ret tt
  | (province, page) :: rest =>
      _ <== run_province ft w existing_titles current_page province page ;;
      run_loop ft w existing_titles current_page rest
  end.

(** [run], lines 251-281. *)
Definition run (ft : faults) (w : web) : M unit :=
  progress <== load_progress ft ;;
  existing_titles <== fetch_existing_titles ft ;;
  run_loop ft w existing_titles (current_page progress) (provinces progress).

Section Price.

(** The decimal digits of the Unicode database: [todecimal c] is the value
    of the character of code point [c] when it is a decimal digit (a
    character of category [Nd], in whatever script), and nothing when it
    is not.  Both [\d] of [re] and [int] read a character through it. *)
Variable todecimal : N -> option nat.

Definition is_decimal (c : N) : bool :=
  match todecimal c with Some _ => true | None => false end.

Definition decimal_val (c : N) : Z :=
  match todecimal c with Some d => Z.of_nat d | None => 0 end.

Definition decimals_val (ds : list N) : Z :=
  fold_left (fun acc c => 10 * acc + decimal_val c) ds 0.

(** [clean_price], lines 61-70, on a text given by its code points: the
    decimal digits of the text read as one number.
    [re.sub(r"[^\d]", "", price_text)] keeps the decimal digits; [int]
    refuses a text of more than 4300 digits with [ValueError], which the
    handler turns into [None]. *)
Definition clean_price (price_text : option (list N)) : option Z :=
  match price_text with
  | None | Some [] => None
  | Some s =>
      let clean_text := filter is_decimal s in
      match clean_text with
      | [] => None
      | _ :: _ =>
          if Nat.ltb 4300 (List.length clean_text) then None
          else Some (decimals_val clean_text)
      end
  end.

End Price.

(** The dict of lines 155-191 for a detail page. *)
Definition details_of (url province : string) (pg : detail_page) : doc :=
  ([ ("judul_iklan", opt_str (h1 pg));
     ("kecamatan", kecamatan_of (location_text pg));
     ("kabupaten_kota", kabupaten_of (location_text pg));
     ("provinsi", VStr province);
     ("link_rumah123", VStr url) ] ++ other_fields pg)%list.

(** The three fields of lines 205-207 set on a record. *)
Definition with_metadata (w : web) (province : string) (page : Z)
    (record : doc) : doc :=
  set "inserted_at" (now w)
    (set "page" (VInt page) (set "province" (VStr province) record)).

(** The detail request answers, or fails as a request. *)
Definition request_outcome (w : web) (url : string) : Prop :=
  match detail w url with
  | Ok _ | Raise (RequestException _) => True
  | Raise _ => False
  end.

End Scraper.

(* ================================================================== *)
(** ** [fetch_facilities.py]: class [OSMFacilitiesFetcher]             *)
(* ================================================================== *)

Module Facilities.

(** The double quote, for the filter expressions below. *)
Definition dq : string := String (ascii_of_nat 34) EmptyString.

Definition tag_filter (key alternatives : string) : string :=
  key ++ "~" ++ dq ++ alternatives ++ dq.

(** [self.facility_queries], lines 41-61. *)
Definition facility_queries : list (string * list string) :=
  [ ("jumlah_fasilitas_pendidikan",
      [ tag_filter "amenity" "school|university|college|kindergarten" ]);
    ("jumlah_fasilitas_kesehatan",
      [ tag_filter "amenity" "hospital|clinic|doctors|dentist|pharmacy" ]);
    ("jumlah_fasilitas_perbelanjaan",
      [ tag_filter "shop" "supermarket|mall|department_store|convenience";
        tag_filter "amenity" "marketplace|shopping_mall" ]);
    ("jumlah_fasilitas_transportasi",
      [ tag_filter "amenity" "bus_station|taxi|ferry_terminal";
        tag_filter "aeroway" "aerodrome|terminal";
        tag_filter "railway" "station|halt" ]);
    ("jumlah_fasilitas_rekreasi",
      [ tag_filter "leisure" "park|sports_centre|fitness_centre|swimming_pool";
        tag_filter "amenity" "park|theatre|cinema" ]) ].

(** What [session.post] gives: a response with its status code, its
    [Retry-After] header when there is one, and its body read as JSON
    ([None]: not JSON; [Some None]: no [elements] key; [Some (Some n)]: an
    [elements] array of length [n]); or an exception. *)
Inductive response : Type :=
| Response (status_code : Z) (retry_after : option string)
           (json : option (option nat))
| Failed (e : exn).

(** The Overpass server, which answers the [n]-th request of the run, the
    clock, and the longest wait the platform takes: the deadline of a
    longer one is past what the system clock holds. *)
Record net : Type := {
  overpass : nat -> response;
  now : value;
  longest_sleep : Z
}.

(** The storage calls of one run of the fetcher that the server may fail;
    the look-ups and saves are told apart by kecamatan. *)
Record faults : Type := {
  find_progress_fails : bool;
  aggregate_fails : bool;
  find_facility_fails : value -> bool;
  save_fails : value -> bool
}.

Definition is_post (e : event) : bool :=
  match e with OverpassPost _ _ => true | _ => false end.

(** The number of requests sent so far. *)
Definition posts (s : db) : nat := List.length (filter is_post (trace s)).

(** [self.session.post(self.overpass_url, data=query, ...)] *)
Definition post (n : net) (kecamatan : value) (facility_filter : string)
  : M response :=
  fun s => (Ok (overpass n (posts s)),
            with_trace (trace s ++ [OverpassPost kecamatan facility_filter])%list s).

(** [time.sleep(seconds)] for an integer, on CPython 3.11.  The length is
    converted to nanoseconds in 64 bits, which fails from 9223372037
    seconds on; a negative length is refused; and the system refuses a
    wait longer than [longest_sleep], which is never the case of a wait of
    a minute or less.  Otherwise the wait takes place. *)
Definition sleep (n : net) (seconds : Z) : M unit :=
  if (seconds <? -9223372036) || (9223372036 <? seconds)
  then raise (OverflowError "timestamp too large to convert to C _PyTime_t")
  else if seconds <? 0
  then raise (ValueError "sleep length must be non-negative")
  else if (60 <? seconds) && (longest_sleep n <? seconds)
  then raise (OSError "Invalid argument")
  else emit (Sleep seconds).

(** The platform takes a wait of [seconds]. *)
Definition sleeps (n : net) (seconds : Z) : bool :=
  (0 <=? seconds) && (seconds <=? 9223372036)
  && ((seconds <=? 60) || (seconds <=? longest_sleep n)).

(** The answer that reaches the [break]: status 200 with a JSON body. *)
Definition is_success (r : response) : bool :=
  match r with
  | Response status_code _ (Some _) => status_code =? 200
  | _ => false
  end.

(** The number of answers, among the [len] answers from the [i]-th on, that
    do not reach the [break]. *)
Fixpoint failures (n : net) (i len : nat) : nat :=
  match len with
  | O => O
  | S len' =>
      ((if is_success (overpass n i) then O else 1%nat)
       + failures n (S i) len')%nat
  end.

(** The number of filter expressions of the five categories. *)
Definition filter_count : nat :=
  List.length (flat_map snd facility_queries).

(** How one turn of the [while] ends: at the [break], with the count to
    add to [total_count], or with [retry_count += 1]. *)
Inductive turn_result : Type :=
| Break (count : Z)
| Retry.

(** [int(response.headers.get('Retry-After', 60))], line 120. *)
Definition wait_of (retry_after : option string) : result Z :=
  match retry_after with
  | Some h => int_of_str h
  | None => Ok 60
  end.

(** The body of the [try], lines 103-127. *)
Definition attempt (n : net) (kecamatan : value) (facility_filter : string)
  : M turn_result :=
  _ <== sleep n 2 ;;
  r <== post n kecamatan facility_filter ;;
  match r with
  | Failed e => raise e
  | Response status_code retry_after json =>
      if status_code =? 200 then
        match json with
        | None => raise (ValueError "response is not JSON")
        | Some None => ret (Break 0)
        | Some (Some len) => ret (Break (Z.of_nat len))
        end
      else if status_code =? 429 then
        wait_time <== lift (wait_of retry_after) ;;
        _ <== sleep n wait_time ;;
        ret Retry
      else
        _ <== sleep n 5 ;;
        ret Retry
  end.

(** One turn of the [while], the [try] with its [except], lines 102-132. *)
Definition turn (n : net) (kecamatan : value) (facility_filter : string)
  : M turn_result :=
  try_except (attempt n kecamatan facility_filter)
             (fun _ => _ <== sleep n 5 ;; ret Retry).

(** The [while retry_count < max_retries] of lines 101-132 for one filter
    expression.  [budget] is [max_retries - retry_count]; the result is the
    count to add and the budget left. *)
Fixpoint query_filter (budget : nat) (n : net) (kecamatan : value)
    (facility_filter : string) : M (Z * nat) :=
  match budget with
  | O => ret (0, O)
  | S b =>
      r <== turn n kecamatan facility_filter ;;
      match r with
      | Break count => ret (count, S b)
      | Retry => query_filter b n kecamatan facility_filter
      end
  end.

(** The loop over the filter expressions of a category, lines 98-136.
    [None]: the [return None] of line 136 was reached. *)
Fixpoint query_filters (budget : nat) (n : net) (kecamatan : value)
    (facility_filters : list string) (total_count : Z) : M (option (Z * nat)) :=
  match facility_filters with
  | [] => ret (Some (total_count, budget))
  | f :: rest =>
      r <== query_filter budget n kecamatan f ;;
      match snd r with
      | O => ret None
      | S _ => query_filters (snd r) n kecamatan rest (total_count + fst r)
      end
  end.

(** The loop over the categories, lines 95-138. *)
Fixpoint query_categories (budget : nat) (n : net) (kecamatan : value)
    (queries : list (string * list string)) (results : doc) : M (option doc) :=
  match queries with
  | [] => ret (Some results)
  | (category, facility_filters) :: rest =>
      r <== query_filters budget n kecamatan facility_filters 0 ;;
      match r with
      | None => ret None
      | Some (total_count, budget') =>
          query_categories budget' n kecamatan rest
                           (set category (VInt total_count) results)
      end
  end.

(** [get_facilities_count], lines 87-147. *)
Definition get_facilities_count (n : net) (kecamatan : value) (max_retries : Z)
  : M (option doc) :=
  r <== query_categories (Z.to_nat max_retries) n kecamatan facility_queries [] ;;
  match r with
  | None => ret None
  | Some results =>
      ret (Some (set "status" (VStr "success")
                   (set "timestamp" (now n)
                      (set "kecamatan" kecamatan results))))
  end.

(** What the fetcher does outside the database for the regions [ks]: it
    waits, and it queries the server about a region of [ks]. *)
Definition enrichment_event (ks : list value) (e : event) : Prop :=
  (exists seconds, e = Sleep seconds) \/
  (exists k f, In k ks /\ e = OverpassPost k f).

(** [get_current_kecamatans], lines 150-177. *)
Definition get_current_kecamatans (ft : faults) (progress : progress_doc)
  : M (list value) :=
  try_except
    (read (aggregate_fails ft)
       (fun s =>
          distinct_values []
            (flat_map (fun d => match get "kecamatan" d with
                                | Some v => [v]
                                | None => []
                                end)
               (filter (fun d => field_is "page" (VInt (current_page progress)) d
                                 && field_exists_not_null "kecamatan" d)
                       (raw_listings s)))))
    (fun _ => ret []).

Definition apply_set (fields : doc) (d : doc) : doc :=
  fold_left (fun d kv => set (fst kv) (snd kv) d) fields d.

(** [update_one({"kecamatan": k}, {"$set": fields}, upsert=True)] *)
Fixpoint upsert (k : value) (fields : doc) (l : list doc) : list doc :=
  match l with
  | [] => [ apply_set fields [("kecamatan", k)] ]
  | d :: l' =>
      if field_is "kecamatan" k d then apply_set fields d :: l'
      else d :: upsert k fields l'
  end.

(** [save_facilities_to_mongodb], lines 179-199. *)
Definition save_facilities_to_mongodb (ft : faults) (n : net) (facilities_ : doc)
  : M bool :=
  try_except
    (match get "kecamatan" facilities_ with
     | None => raise (KeyError "kecamatan")
     | Some kecamatan =>
         let fields := set "updated_at" (now n) facilities_ in
         fun s =>
           if save_fails ft kecamatan
           then (Raise (PyMongoError "update_one failed"), s)
           else (Ok true, with_facilities (upsert kecamatan fields (facilities s)) s)
     end)
    (fun _ => ret false).

(** [facility_exists], lines 201-203. *)
Definition facility_exists (ft : faults) (kecamatan : value) : M bool :=
  read (find_facility_fails ft kecamatan)
       (fun s => existsb (field_is "kecamatan" kecamatan) (facilities s)).

(** The body of the loop of [run] for one kecamatan, lines 218-229. *)
Definition run_kecamatan (ft : faults) (n : net) (kecamatan : value) : M unit :=
  found <== facility_exists ft kecamatan ;;
  if found then ret tt
  else
    facilities_ <== get_facilities_count n kecamatan 3 ;;
    match facilities_ with
    | Some ((_ :: _) as f) => _ <== save_facilities_to_mongodb ft n f ;; ret tt
    | _ => ret tt
    end.

Fixpoint run_loop (ft : faults) (n : net) (kecamatans : list value) : M unit :=
  match kecamatans with
  | [] => ret tt
  | kecamatan :: rest =>
      _ <== run_kecamatan ft n kecamatan ;;
      run_loop ft n rest
  end.

(** [run], lines 205-234. *)
Definition run (ft : faults) (n : net) : M unit :=
  try_except
    (progress <== read (find_progress_fails ft) scraping_progress ;;
     match progress with
     | None => ret tt
     | Some p =>
         kecamatans <== get_current_kecamatans ft p ;;
         run_loop ft n kecamatans
     end)
    (fun _ => ret tt).

(** [len(data['elements'])] of a successful answer. *)
Definition count_of (r : response) : Z :=
  match r with
  | Response _ _ (Some (Some len)) => Z.of_nat len
  | _ => 0
  end.

(** The counts of the [len] answers from the [i]-th on, added up. *)
Fixpoint counts (n : net) (i len : nat) : Z :=
  match len with
  | O => 0
  | S len' => count_of (overpass n i) + counts n (S i) len'
  end.

(** [results] after the categories [qs], each category holding the sum of
    the counts of the answers to its filter expressions, the answers
    being taken in order from the [i]-th on. *)
Fixpoint tally (n : net) (i : nat) (qs : list (string * list string))
    (results : doc) : doc :=
  match qs with
  | [] => results
  | (category, facility_filters) :: rest =>
      tally n (i + List.length facility_filters) rest
            (set category (VInt (counts n i (List.length facility_filters)))
                 results)
  end.

Definition is_sleep2 (e : event) : bool :=
  match e with Sleep seconds => seconds =? 2 | _ => false end.

(** Every request of the trace comes right after a wait of 2 seconds;
    [prev] says whether the event before the trace was such a wait. *)
Fixpoint paced_after (prev : bool) (t : list event) : bool :=
  match t with
  | [] => true
  | e :: t' => (if is_post e then prev else true) && paced_after (is_sleep2 e) t'
  end.

Definition paced (t : list event) : bool := paced_after false t.

(** The trace of [s'] is the trace of [s] followed by events that are
    paced whatever came before them. *)
Definition adds_paced (s s' : db) : Prop :=
  exists added, trace s' = (trace s ++ added)%list /\
                forall prev, paced_after prev added = true.

(** The number of records for a region. *)
Definition records_for (k : value) (l : list doc) : nat :=
  List.length (filter (field_is "kecamatan" k) l).

End Facilities.

(* ================================================================== *)
(** ** The advancement rule as the specification words it              *)
(* ================================================================== *)

Module ProgressRule.

(** The regions other than [region] whose cursor is [page]. *)
Definition others_at (region : string) (page : Z) (l : list (string * Z))
  : list (string * Z) :=
  filter (fun kv => negb (String.eqb (fst kv) region) && (snd kv =? page)) l.

(** [advance(region, new_page)]: set the cursor of [region] to [new_page]
    and, if [region] was the last region remaining at [current_page],
    increment [current_page]. *)
Definition advance (region : string) (new_page : Z) (p : progress_doc)
  : progress_doc :=
  let last_remaining :=
    match cursor region (provinces p), others_at region (current_page p) (provinces p) with
    | Some c, [] => c =? current_page p
    | _, _ => false
    end in
  {| current_page := if last_remaining then current_page p + 1
                     else current_page p;
     provinces := Scraper.set_cursor region new_page (provinces p) |}.

End ProgressRule.

(* ================================================================== *)
(** ** Sample data                                                     *)
(* ================================================================== *)

Module Sample.

(** A raw listing with every column of the listing schema. *)
Definition listing (title kecamatan : value) (page : Z) : doc :=
  (map (fun col => (col, if String.eqb col "judul_iklan" then title
                         else if String.eqb col "kecamatan" then kecamatan
                         else VStr "2"))
       DataCleaning.listing_required_columns
   ++ [("province", VStr "bali"); ("page", VInt page)])%list.

Definition progress1 : progress_doc :=
  {| current_page := 1;
     provinces := [("bali", 1); ("riau", 1); ("aceh", 2)] |}.

Definition db1 : db :=
  {| raw_listings := [listing (VStr "Rumah A") (VStr "Kuta") 1];
     facilities := [];
     cleaned_listings := [];
     cleaned_facilities := [];
     scraping_progress := Some progress1;
     trace := [] |}.

Definition repr0 (f : pyfloat) : string := "0.0".

Definition cleaner_faults (update_fails : bool) : DataCleaning.faults :=
  {| DataCleaning.load_progress_fails := false;
     DataCleaning.find_listings_fails := false;
     DataCleaning.insert_listings_stops := None;
     DataCleaning.find_facilities_fails := false;
     DataCleaning.insert_facilities_stops := None;
     DataCleaning.update_progress_fails := update_fails |}.

(** A facility record as the fetcher stores it. *)
Definition facility (kecamatan : value) : doc :=
  [ ("jumlah_fasilitas_pendidikan", VInt 3);
    ("jumlah_fasilitas_kesehatan", VInt 2);
    ("jumlah_fasilitas_perbelanjaan", VInt 5);
    ("jumlah_fasilitas_transportasi", VInt 0);
    ("jumlah_fasilitas_rekreasi", VInt 1);
    ("kecamatan", kecamatan);
    ("timestamp", VStr "2024-01-01T00:00:00");
    ("status", VStr "success") ].

(** A frame with the single column [judul_iklan]. *)
Definition narrow_frame : DataCleaning.DataFrame :=
  DataCleaning.DataFrame_of [[("judul_iklan", VStr "Rumah A")]].

(** A site whose index pages all show the one card of "Rumah A". *)
Definition web1 : Scraper.web :=
  {| Scraper.search_page := fun _ =>
       Ok [ {| Scraper.title_elem := Some " Rumah A ";
               Scraper.link_elem := Some "/properti/a" |} ];
     Scraper.detail := fun _ =>
       Ok {| Scraper.h1 := Some "Rumah A";
             Scraper.location_text := Some "Kuta, Badung";
             Scraper.other_fields := [("harga", VInt 1200000)] |};
     Scraper.now := VStr "2024-01-01T00:00:00" |}.

(** A site that shows the listing under a longer title on its index pages
    than on its detail page. *)
Definition web2 : Scraper.web :=
  {| Scraper.search_page := fun _ =>
       Ok [ {| Scraper.title_elem := Some "Rumah A di Kuta";
               Scraper.link_elem := Some "/properti/a" |} ];
     Scraper.detail := Scraper.detail web1;
     Scraper.now := Scraper.now web1 |}.

(** A site whose index pages show no card. *)
Definition web0 : Scraper.web :=
  {| Scraper.search_page := fun _ => Ok [];
     Scraper.detail := Scraper.detail web1;
     Scraper.now := Scraper.now web1 |}.

Definition scraper_faults (find_fails distinct_fails : bool)
    (store_stops : option nat) (update_fails : bool) : Scraper.faults :=
  {| Scraper.find_progress_fails := find_fails;
     Scraper.insert_progress_fails := false;
     Scraper.distinct_fails := distinct_fails;
     Scraper.store_stops := fun _ => store_stops;
     Scraper.update_progress_fails := fun _ => update_fails |}.

(** The decimal digits of two scripts of the Unicode database: the ASCII
    digits and the Arabic-Indic digits, U+0660 to U+0669. *)
Definition two_scripts (c : N) : option nat :=
  if ((48 <=? c) && (c <=? 57))%N then Some (N.to_nat (c - 48))
  else if ((1632 <=? c) && (c <=? 1641))%N then Some (N.to_nat (c - 1632))
  else None.

(** The code points of the text "Rp" followed by a space and the
    Arabic-Indic digits one, two, three. *)
Definition price_text : list N := [82; 112; 32; 1633; 1634; 1635]%N.

(** A server that always answers 429 with [Retry-After: 7]. *)
Definition net429 : Facilities.net :=
  {| Facilities.overpass := fun _ => Facilities.Response 429 (Some "7") None;
     Facilities.now := VStr "2024-01-01T00:00:00";
     Facilities.longest_sleep := 9223345734 |}.

(** A server that always answers 429 with a [Retry-After] of more seconds
    than a wait can last. *)
Definition net429_forever : Facilities.net :=
  {| Facilities.overpass :=
       fun _ => Facilities.Response 429 (Some "9223372037") None;
     Facilities.now := VStr "2024-01-01T00:00:00";
     Facilities.longest_sleep := 9223345734 |}.

(** A server that always answers 500. *)
Definition net500 : Facilities.net :=
  {| Facilities.overpass := fun _ => Facilities.Response 500 None None;
     Facilities.now := VStr "2024-01-01T00:00:00";
     Facilities.longest_sleep := 9223345734 |}.

Definition fetcher_faults : Facilities.faults :=
  {| Facilities.find_progress_fails := false;
     Facilities.aggregate_fails := false;
     Facilities.find_facility_fails := fun _ => false;
     Facilities.save_fails := fun _ => false |}.

(** A server that answers every request with 200 and an [elements] array
    as long as the number of the request. *)
Definition net200 : Facilities.net :=
  {| Facilities.overpass := fun i => Facilities.Response 200 None (Some (Some i));
     Facilities.now := VStr "2024-01-01T00:00:00";
     Facilities.longest_sleep := 9223345734 |}.

(** [db1] once the cleaner has completed page 1: the progress document
    stored is at page 2. *)
Definition progress2 : progress_doc :=
  {| current_page := 2;
     provinces := [("bali", 2); ("riau", 2); ("aceh", 2)] |}.

Definition db3 : db := with_progress (Some progress2) db1.

(** [db1] with a facility record for Kuta. *)
Definition db2 : db :=
  with_facilities [[("kecamatan", VStr "Kuta"); ("status", VStr "success")]] db1.

End Sample.

(* ================================================================== *)
(** ** Reasoning about computations on the database                    *)
(* ================================================================== *)

Section Frame.

Variable R : db -> db -> Prop.
Hypothesis R_refl : forall s, R s s.
Hypothesis R_trans : forall s1 s2 s3, R s1 s2 -> R s2 s3 -> R s1 s3.

Lemma preserves_ret (A : Type) (a : A) : preserves R (ret a).
Proof. intros s. apply R_refl. Qed.

Lemma preserves_raise (A : Type) (e : exn) : preserves R (@raise A e).
Proof. intros s. apply R_refl. Qed.

Lemma preserves_lift (A : Type) (r : result A) : preserves R (lift r).
Proof. intros s. apply R_refl. Qed.

Lemma preserves_read (A : Type) (fails : bool) (q : db -> A) :
  preserves R (read fails q).
Proof. intros s. unfold read. destruct fails; apply R_refl. Qed.

Lemma preserves_bind (A B : Type) (c : M A) (k : A -> M B) :
  preserves R c -> (forall a, preserves R (k a)) -> preserves R (bindM c k).
Proof.
  intros Hc Hk s. unfold bindM.
  specialize (Hc s). destruct (c s) as [[a | e] s1]; simpl in *.
  - eapply R_trans; [exact Hc | apply Hk].
  - exact Hc.
Qed.

Lemma preserves_try_except (A : Type) (body : M A) (handler : exn -> M A) :
  preserves R body -> (forall e, preserves R (handler e)) ->
  preserves R (try_except body handler).
Proof.
  intros Hb Hh s. unfold try_except.
  specialize (Hb s). destruct (body s) as [[a | e] s1]; simpl in *.
  - exact Hb.
  - eapply R_trans; [exact Hb | apply Hh].
Qed.

(** A bind whose continuation may rely on what the first part returns. *)
Lemma preserves_bind_result (A B : Type) (P : A -> Prop) (c : M A)
    (k : A -> M B) :
  preserves R c ->
  (forall s a, fst (c s) = Ok a -> P a) ->
  (forall a, P a -> preserves R (k a)) ->
  preserves R (bindM c k).
Proof.
  intros Hc HP Hk s. unfold bindM.
  specialize (Hc s). specialize (HP s).
  destruct (c s) as [[a | e] s1]; simpl in *.
  - eapply R_trans; [exact Hc | apply Hk, HP; reflexivity].
  - exact Hc.
Qed.

Lemma unless_true_of_preserves (c : M bool) :
  preserves R c -> unless_true R c.
Proof. intros H s _. apply H. Qed.

Lemma unless_true_bind (A : Type) (c : M A) (k : A -> M bool) :
  preserves R c -> (forall a, unless_true R (k a)) ->
  unless_true R (bindM c k).
Proof.
  intros Hc Hk s. unfold bindM.
  specialize (Hc s). destruct (c s) as [[a | e] s1]; simpl in *.
  - intros Hne. eapply R_trans; [exact Hc | apply Hk, Hne].
  - intros _. exact Hc.
Qed.

Lemma unless_true_returns_false (body : M bool) :
  unless_true R body ->
  unless_true R (try_except body (fun _ => ret false)).
Proof.
  intros Hb s. unfold try_except.
  specialize (Hb s). destruct (body s) as [[b | e] s1]; simpl in *.
  - exact Hb.
  - intros _. apply Hb. discriminate.
Qed.

End Frame.

Lemma appends_cleaned_refl (s : db) : appends_cleaned s s.
Proof.
  repeat split; exists []; symmetry; apply app_nil_r.
Qed.

Lemma appends_cleaned_trans (s1 s2 s3 : db) :
  appends_cleaned s1 s2 -> appends_cleaned s2 s3 -> appends_cleaned s1 s3.
Proof.
  intros (Hr & Hf & [l1 Hl] & [m1 Hm]) (Hr' & Hf' & [l2 Hl'] & [m2 Hm']).
  repeat split; try congruence.
  - exists (l1 ++ l2)%list. rewrite Hl', Hl. symmetry. apply app_assoc.
  - exists (m1 ++ m2)%list. rewrite Hm', Hm. symmetry. apply app_assoc.
Qed.

Lemma same_progress_refl (s : db) : same_progress s s.
Proof. reflexivity. Qed.

Lemma same_progress_trans (s1 s2 s3 : db) :
  same_progress s1 s2 -> same_progress s2 s3 -> same_progress s1 s3.
Proof. unfold same_progress. congruence. Qed.

Lemma same_collections_refl (s : db) : same_collections s s.
Proof. repeat split. Qed.

Lemma same_collections_trans (s1 s2 s3 : db) :
  same_collections s1 s2 -> same_collections s2 s3 -> same_collections s1 s3.
Proof.
  unfold same_collections. intros (? & ? & ? & ? & ?) (? & ? & ? & ? & ?).
  repeat split; congruence.
Qed.

Create HintDb frame.

Lemma trace_adds_refl (P : event -> Prop) (s : db) : trace_adds P s s.
Proof. intros e He. left. exact He. Qed.

Lemma trace_adds_trans (P : event -> Prop) (s1 s2 s3 : db) :
  trace_adds P s1 s2 -> trace_adds P s2 s3 -> trace_adds P s1 s3.
Proof.
  intros H12 H23 e He. destruct (H23 e He) as [H | H]; [auto | right; exact H].
Qed.

Lemma raw_adds_refl (Q : doc -> Prop) (s : db) : raw_adds Q s s.
Proof. intros d Hd. left. exact Hd. Qed.

Lemma raw_adds_trans (Q : doc -> Prop) (s1 s2 s3 : db) :
  raw_adds Q s1 s2 -> raw_adds Q s2 s3 -> raw_adds Q s1 s3.
Proof.
  intros H12 H23 d Hd. destruct (H23 d Hd) as [H | H]; [auto | right; exact H].
Qed.

#[local] Hint Resolve appends_cleaned_refl appends_cleaned_trans
  same_progress_refl same_progress_trans
  same_collections_refl same_collections_trans
  trace_adds_refl trace_adds_trans raw_adds_refl raw_adds_trans : frame.

Lemma emit_trace_adds (P : event -> Prop) (e : event) :
  P e -> preserves (trace_adds P) (emit e).
Proof.
  intros HP s e' He'. simpl in He'.
  apply in_app_or in He'. destruct He' as [H | [<- | []]]; auto.
Qed.

Lemma emit_same_collections (e : event) :
  preserves same_collections (emit e).
Proof. intros s. repeat split. Qed.

Lemma emit_same_progress (e : event) : preserves same_progress (emit e).
Proof. intros s. reflexivity. Qed.

Lemma emit_raw_adds (Q : doc -> Prop) (e : event) :
  preserves (raw_adds Q) (emit e).
Proof. intros s d Hd. left. exact Hd. Qed.

Lemma value_eqb_eq (v w : value) : value_eqb v w = true <-> v = w.
Proof.
  destruct v as [| a | a | f | a], w as [| b | b | g | b]; simpl;
    try (split; [discriminate | discriminate]).
  - split; reflexivity.
  - rewrite Bool.eqb_true_iff. split; congruence.
  - rewrite Z.eqb_eq. split; congruence.
  - destruct f as [| a | a m e], g as [| b | b m' e']; simpl;
      try (split; [discriminate | discriminate]).
    + split; reflexivity.
    + rewrite Bool.eqb_true_iff. split; congruence.
    + rewrite !andb_true_iff, Bool.eqb_true_iff, !Z.eqb_eq.
      split; [intros [[-> ->] ->]; reflexivity | intros [= -> -> ->]; auto].
  - rewrite String.eqb_eq. split; congruence.
Qed.

Lemma distinct_values_In (v : value) (l seen : list value) :
  In v (distinct_values seen l)
  <-> In v l /\ existsb (value_eqb v) seen = false.
Proof.
  revert seen. induction l as [| x l IH]; intros seen; simpl.
  - tauto.
  - destruct (existsb (value_eqb x) seen) eqn:Ex.
    + rewrite IH. split.
      * intros [H1 H2]. auto.
      * intros [[-> | H1] H2]; [congruence | auto].
    + simpl. rewrite IH. simpl. rewrite orb_false_iff. split.
      * intros [<- | [H1 [H2 H3]]]; auto.
      * intros [[-> | H1] H2]; [auto |].
        destruct (value_eqb v x) eqn:Evx.
        -- apply value_eqb_eq in Evx. auto.
        -- right. auto.
Qed.

Lemma distinct_values_NoDup (l seen : list value) :
  NoDup (distinct_values seen l).
Proof.
  revert seen. induction l as [| x l IH]; intros seen; simpl.
  - constructor.
  - destruct (existsb (value_eqb x) seen); [apply IH |].
    constructor; [| apply IH].
    rewrite distinct_values_In. simpl. intros [_ H].
    assert (E : value_eqb x x = true) by (apply value_eqb_eq; reflexivity).
    rewrite E in H. discriminate.
Qed.

Lemma In_firstn (A : Type) (n : nat) (l : list A) (x : A) :
  In x (firstn n l) -> In x l.
Proof.
  intros H. rewrite <- (firstn_skipn n l). apply in_or_app. left. exact H.
Qed.

Lemma get_set_other (k k' : string) (v : value) (d : doc) :
  k <> k' -> get k (set k' v d) = get k d.
Proof.
  intros Hne. induction d as [| [k0 v0] d IH]; simpl.
  - destruct (String.eqb_spec k k'); [contradiction | reflexivity].
  - destruct (String.eqb_spec k' k0) as [-> | Hk]; simpl.
    + destruct (String.eqb_spec k k0); [contradiction | reflexivity].
    + rewrite IH. reflexivity.
Qed.

Ltac solve_appends :=
  unfold appends_cleaned; simpl;
  split; [reflexivity | split; [reflexivity | split ]];
  first [ eexists; reflexivity | exists []; symmetry; apply app_nil_r ].

(** The steps of a computation, one lemma per constructor of the code. *)
Ltac frame_leaf :=
  first [ apply preserves_ret | apply preserves_raise
        | apply preserves_lift | apply preserves_read ];
  eauto with frame.

Tactic Notation "frame_bind" ident(x) :=
  apply preserves_bind; [eauto with frame | try frame_leaf | intros x].

Tactic Notation "frame_try" ident(x) :=
  apply preserves_try_except; [eauto with frame | | intros x].

(* ================================================================== *)
(** ** Properties of the cleaning stage                                *)
(* ================================================================== *)

Section CleaningProperties.

Import DataCleaning.

Variable repr_float : pyfloat -> string.

Lemma or_None_returns (body : result value) :
  exists r, or_None body = Ok r.
Proof.
  destruct body as [v | e]; simpl; eauto.
Qed.

Lemma check_required_missing (required : list string) (df : DataFrame) :
  missing_required required df = true ->
  exists msg, check_required required df = Raise (ValueError msg).
Proof.
  induction required as [| col rest IH]; simpl; intros H.
  - discriminate.
  - destruct (has_column col df); simpl in H.
    + apply IH, H.
    + eauto.
Qed.

Lemma clean_rumah123_data_missing (df : DataFrame) :
  missing_required listing_required_columns df = true ->
  exists msg, clean_rumah123_data repr_float df = Raise (ValueError msg).
Proof.
  intros H. destruct (check_required_missing _ _ H) as [msg E].
  exists msg. unfold clean_rumah123_data. rewrite E. reflexivity.
Qed.

Lemma clean_osm_facilities_data_missing (df : DataFrame) :
  missing_required facility_required_columns df = true ->
  exists msg, clean_osm_facilities_data repr_float df = Raise (ValueError msg).
Proof.
  intros H. destruct (check_required_missing _ _ H) as [msg E].
  exists msg. unfold clean_osm_facilities_data. rewrite E. reflexivity.
Qed.

Lemma insert_cleaned_listings_appends (stops : option nat) (docs : list doc) :
  preserves appends_cleaned
    (insert_many stops cleaned_listings with_cleaned_listings docs).
Proof.
  intros s. unfold insert_many. destruct stops; solve_appends.
Qed.

Lemma insert_cleaned_facilities_appends (stops : option nat) (docs : list doc) :
  preserves appends_cleaned
    (insert_many stops cleaned_facilities with_cleaned_facilities docs).
Proof.
  intros s. unfold insert_many. destruct stops; solve_appends.
Qed.

Lemma insert_cleaned_listings_progress (stops : option nat) (docs : list doc) :
  preserves same_progress
    (insert_many stops cleaned_listings with_cleaned_listings docs).
Proof. intros s. unfold insert_many. destruct stops; reflexivity. Qed.

Lemma insert_cleaned_facilities_progress (stops : option nat) (docs : list doc) :
  preserves same_progress
    (insert_many stops cleaned_facilities with_cleaned_facilities docs).
Proof. intros s. unfold insert_many. destruct stops; reflexivity. Qed.

Lemma write_progress_appends (fails : bool) (p : progress_doc) :
  preserves appends_cleaned (write_progress fails p).
Proof.
  intros s. unfold write_progress.
  destruct fails; [solve_appends |].
  destruct (scraping_progress s); solve_appends.
Qed.

(** Whatever fails, a page of the cleaner leaves the raw collections alone
    and only appends to the cleaned ones. *)
Lemma process_body_appends (ft : faults) (progress : progress_doc) :
  preserves appends_cleaned (process_body repr_float ft progress).
Proof.
  unfold process_body.
  frame_bind raw. destruct raw as [| d raw]; [frame_leaf |].
  frame_bind df.
  frame_bind u.
  { destruct (to_dict_records df);
      [frame_leaf | apply insert_cleaned_listings_appends]. }
  frame_bind ks. frame_bind fs.
  frame_bind u'.
  { destruct fs as [| f fs]; [frame_leaf |].
    frame_bind df'. apply insert_cleaned_facilities_appends. }
  frame_bind u''; [apply write_progress_appends | frame_leaf].
Qed.

Lemma write_progress_then_true (fails : bool) (p : progress_doc) :
  unless_true same_progress (_ <== write_progress fails p ;; ret true).
Proof.
  intros s. unfold bindM, write_progress, ret.
  destruct fails; simpl.
  - intros _. reflexivity.
  - intros Hne. exfalso. apply Hne. reflexivity.
Qed.

(** The progress document is written only by a page that returns [True]. *)
Lemma process_body_progress (ft : faults) (progress : progress_doc) :
  unless_true same_progress (process_body repr_float ft progress).
Proof.
  unfold process_body.
  apply unless_true_bind; [eauto with frame | frame_leaf | intros raw].
  destruct raw as [| d raw].
  { apply unless_true_of_preserves. frame_leaf. }
  apply unless_true_bind; [eauto with frame | frame_leaf | intros df].
  apply unless_true_bind; [eauto with frame | | intros u].
  { destruct (to_dict_records df);
      [frame_leaf | apply insert_cleaned_listings_progress]. }
  apply unless_true_bind; [eauto with frame | frame_leaf | intros ks].
  apply unless_true_bind; [eauto with frame | frame_leaf | intros fs].
  apply unless_true_bind; [eauto with frame | | intros u'].
  { destruct fs as [| f fs]; [frame_leaf |].
    frame_bind df'. apply insert_cleaned_facilities_progress. }
  apply write_progress_then_true.
Qed.

Lemma process_current_page_progress (ft : faults) (progress : progress_doc) :
  unless_true same_progress (process_current_page repr_float ft progress).
Proof.
  unfold process_current_page.
  apply unless_true_returns_false, process_body_progress.
Qed.

Lemma process_current_page_appends (ft : faults) (progress : progress_doc) :
  preserves appends_cleaned (process_current_page repr_float ft progress).
Proof.
  unfold process_current_page.
  frame_try e; [apply process_body_appends | frame_leaf].
Qed.

Lemma load_progress_same (ft : faults) (s : db) :
  snd (load_progress ft s) = s.
Proof.
  unfold load_progress, try_except, bindM, read, ret, raise.
  destruct (load_progress_fails ft); simpl; [reflexivity |].
  destruct (scraping_progress s); reflexivity.
Qed.

(** [run] is [process_current_page] on the loaded progress, or nothing. *)
Lemma run_cases (ft : faults) (s : db) :
  (exists e, run repr_float ft s = (PipelineFailed e, s)) \/
  (exists progress,
      fst (load_progress ft s) = Ok progress /\
      snd (run repr_float ft s)
      = snd (process_current_page repr_float ft progress s) /\
      (fst (run repr_float ft s) <> Completed ->
       fst (process_current_page repr_float ft progress s) <> Ok true)).
Proof.
  unfold run, bindM.
  pose proof (load_progress_same ft s) as Hs.
  destruct (load_progress ft s) as [[progress | e] s1]; simpl in Hs; subst s1.
  - right. exists progress. split; [reflexivity |].
    destruct (process_current_page repr_float ft progress s) as [[[|] | e] s2];
      simpl; split; try reflexivity; try discriminate.
    intros H _. apply H. reflexivity.
  - left. exists e. reflexivity.
Qed.

(** C2.  All-or-nothing page commit: in every run of the cleaner that does
    not complete the page, whatever failed (a storage call, a missing
    column, no listing for the page), the progress document, that is
    [current_page] and every cursor of [provinces], is after the run what
    it was before, so the next run loads the same progress and works on
    the same page. *)
Theorem C2_progress_unchanged_when_page_fails (ft : faults) (s : db) :
  fst (run repr_float ft s) <> Completed ->
  scraping_progress (snd (run repr_float ft s)) = scraping_progress s /\
  forall ft', fst (load_progress ft' (snd (run repr_float ft s)))
              = fst (load_progress ft' s).
Proof.
  intros Hfail.
  assert (Hp : scraping_progress (snd (run repr_float ft s)) = scraping_progress s).
  { destruct (run_cases ft s) as [[e E] | (progress & _ & Es & Hpage)].
    - rewrite E. reflexivity.
    - rewrite Es. apply process_current_page_progress, Hpage, Hfail. }
  split; [exact Hp |].
  intros ft'. unfold load_progress, try_except, bindM, read, ret, raise.
  destruct (load_progress_fails ft'); simpl; [reflexivity |].
  rewrite Hp. destruct (scraping_progress s); reflexivity.
Qed.

(** C3, as amended.  In every run of the cleaner that does not complete the
    page, the progress document, the raw listings and the facility records
    are after the run exactly what they were before; the cleaned listings
    and the cleaned facilities are what they were before followed by the
    records written before the failure. *)
Theorem C3_failed_page_keeps_raw_and_progress (ft : faults) (s : db) :
  fst (run repr_float ft s) <> Completed ->
  scraping_progress (snd (run repr_float ft s)) = scraping_progress s /\
  raw_listings (snd (run repr_float ft s)) = raw_listings s /\
  facilities (snd (run repr_float ft s)) = facilities s /\
  (exists l, cleaned_listings (snd (run repr_float ft s))
             = (cleaned_listings s ++ l)%list) /\
  (exists l, cleaned_facilities (snd (run repr_float ft s))
             = (cleaned_facilities s ++ l)%list).
Proof.
  intros Hfail.
  destruct (run_cases ft s) as [[e E] | (progress & _ & Es & Hpage)].
  - rewrite E. simpl. repeat split; exists []; symmetry; apply app_nil_r.
  - rewrite Es. split.
    + apply process_current_page_progress, Hpage, Hfail.
    + apply process_current_page_appends.
Qed.

Lemma lstrip_num_In (c : ascii) (l : list ascii) :
  is_space_num c = false -> In c l -> In c (lstrip_num l).
Proof.
  intros Hc. induction l as [| a l IH]; simpl; [auto |].
  intros [<- | Hin].
  - rewrite Hc. left. reflexivity.
  - destruct (is_space_num a); [apply IH, Hin | right; exact Hin].
Qed.

Lemma strip_num_In (c : ascii) (l : list ascii) :
  is_space_num c = false -> In c l -> In c (strip_num l).
Proof.
  intros Hc Hin. unfold strip_num.
  apply -> in_rev. apply lstrip_num_In; [exact Hc |].
  apply -> in_rev. apply lstrip_num_In; assumption.
Qed.

Lemma sign_In (c : ascii) (l : list ascii) :
  c <> "-"%char -> c <> "+"%char -> In c l -> In c (snd (sign l)).
Proof.
  intros Hm Hp. destruct l as [| a l]; simpl; [auto |].
  intros Hin.
  destruct (Ascii.eqb_spec a "-"); [| destruct (Ascii.eqb_spec a "+")];
    simpl; try exact Hin;
    destruct Hin as [<- | Hin]; try contradiction; exact Hin.
Qed.

(** A text that [digitpart] reads to its end is made of digits and
    underscores. *)
Lemma digitpart_chars (k : nat) :
  forall r ds, (List.length r <= k)%nat -> digitpart r = (ds, []) ->
               forall c, In c r -> is_digit c = true \/ c = "_"%char.
Proof.
  induction k as [| k IH]; intros r ds Hlen Hd c Hin.
  - destruct r; [contradiction | simpl in Hlen; lia].
  - destruct r as [| a s1]; [contradiction |].
    simpl in Hlen. cbn [digitpart] in Hd.
    destruct (is_digit a) eqn:Ea; [| discriminate].
    destruct s1 as [| u s2].
    + destruct Hin as [<- | []]. left. exact Ea.
    + destruct (Ascii.eqb_spec u "_") as [-> | Hu].
      * destruct s2 as [| d s3]; [discriminate |].
        destruct (is_digit d) eqn:Ed; [| discriminate].
        destruct (digitpart (d :: s3)) as [ds' r'] eqn:E'.
        injection Hd as _ ->.
        destruct Hin as [<- | [<- | Hin]]; [left; exact Ea | right; reflexivity |].
        apply (IH (d :: s3) ds'); [simpl in *; lia | exact E' | exact Hin].
      * destruct (digitpart (u :: s2)) as [ds' r'] eqn:E'.
        injection Hd as _ ->.
        destruct Hin as [<- | Hin]; [left; exact Ea |].
        apply (IH (u :: s2) ds'); [simpl in *; lia | exact E' | exact Hin].
Qed.

(** [int] rejects a text with a comma. *)
Lemma int_of_str_comma (s : string) :
  In ","%char (list_ascii_of_string s) -> exists e, int_of_str s = Raise e.
Proof.
  intros Hin. unfold int_of_str.
  pose proof (sign_In ","%char (strip_num (list_ascii_of_string s))) as Hs.
  destruct (sign (strip_num (list_ascii_of_string s))) as [neg r].
  simpl in Hs.
  assert (Hr : In ","%char r).
  { apply Hs; [discriminate | discriminate |].
    apply strip_num_In; [reflexivity | exact Hin]. }
  destruct (digitpart r) as [ds rest] eqn:Ed.
  destruct ds as [| d ds]; [eexists; reflexivity |].
  destruct rest as [| x rest]; [| eexists; reflexivity].
  destruct (digitpart_chars (List.length r) r (d :: ds) (Nat.le_refl _) Ed
              ","%char Hr) as [H | H]; discriminate.
Qed.

Lemma remove_commas_fixed (s : string) :
  remove_commas (remove_commas s) = remove_commas s.
Proof.
  unfold remove_commas. rewrite list_ascii_of_string_of_list_ascii.
  f_equal. induction (list_ascii_of_string s) as [| c l IH]; simpl;
    [reflexivity |].
  destruct (negb (Ascii.eqb c ",")) eqn:E; simpl;
    [rewrite E, IH; reflexivity | exact IH].
Qed.

(** [clean_numeric] reads a text as it reads the text without its
    commas. *)
Lemma clean_numeric_commas (s : string) :
  clean_numeric (VStr s) "int"
  = clean_numeric (VStr (remove_commas s)) "int".
Proof.
  unfold clean_numeric. cbn [isna is_None eq_empty orb float_of_text].
  rewrite remove_commas_fixed.
  destruct (String.eqb_spec s "") as [-> | Hs]; [reflexivity |].
  destruct (String.eqb_spec (remove_commas s) "") as [-> | Hr];
    reflexivity.
Qed.

(** [int] of a finite float is its integer part: the magnitude rounded
    down, with the sign of the float. *)
Lemma int_of_float_integer_part (neg : bool) (m e : Z) :
  0 <= m ->
  exists t,
    int_of_float (Ffin neg m e) = Ok (if neg then - t else t) /\
    0 <= t /\
    (0 <= e -> t = m * 2 ^ e) /\
    (e < 0 -> t * 2 ^ (- e) <= m < (t + 1) * 2 ^ (- e)).
Proof.
  intros Hm. unfold int_of_float.
  destruct (Z.leb_spec 0 e) as [He | He].
  - exists (m * 2 ^ e). split; [reflexivity |].
    split; [apply Z.mul_nonneg_nonneg; [exact Hm | apply Z.pow_nonneg; lia] |].
    split; [reflexivity | lia].
  - exists (m / 2 ^ (- e)). split; [reflexivity |].
    assert (Hp : 0 < 2 ^ (- e)) by (apply Z.pow_pos_nonneg; lia).
    split; [apply Z.div_pos; assumption |].
    split; [lia |]. intros _.
    pose proof (Z.mul_div_le m (2 ^ (- e)) Hp).
    pose proof (Z.mul_succ_div_gt m (2 ^ (- e)) Hp).
    nia.
Qed.

(** C4, as amended.  An int field ([clean_numeric] with ['int']) turns
    ["1,200,000"] into 1200000, and reads any text as it reads the text
    without its commas.  The price field ([clean_price]) keeps an integer
    price, whatever the integer; it turns a finite float price into its
    integer part, the magnitude rounded down with the sign kept; and it
    gives the absent value for every text with a comma.  In both, the
    empty string, [None], NaN and ["abc"] give the absent value, as does
    every text that the conversion rejects; and neither coercion raises,
    whatever the value. *)
Theorem C4_numeric_coercion :
  clean_numeric (VStr "1,200,000") "int" = Ok (VInt 1200000) /\
  (forall s, clean_numeric (VStr s) "int"
             = clean_numeric (VStr (remove_commas s)) "int") /\
  (forall z, clean_price (VInt z) = Ok (VInt z)) /\
  (forall neg m e,
     0 <= m ->
     exists t,
       clean_price (VFloat (Ffin neg m e)) = Ok (VInt (if neg then - t else t)) /\
       0 <= t /\
       (0 <= e -> t = m * 2 ^ e) /\
       (e < 0 -> t * 2 ^ (- e) <= m < (t + 1) * 2 ^ (- e))) /\
  clean_price (VFloat (float_of_int 1200000)) = Ok (VInt 1200000) /\
  (forall s, In ","%char (list_ascii_of_string s) ->
             clean_price (VStr s) = Ok VNone) /\
  map (fun v => clean_numeric v "int")
      [VStr ""; VNone; VFloat Fnan; VStr "abc"]
  = [Ok VNone; Ok VNone; Ok VNone; Ok VNone] /\
  map clean_price [VStr ""; VNone; VFloat Fnan; VStr "abc"]
  = [Ok VNone; Ok VNone; Ok VNone; Ok VNone] /\
  (forall s e, float_of_str (remove_commas s) = Raise e ->
               clean_numeric (VStr s) "int" = Ok VNone) /\
  (forall s e, int_of_str s = Raise e -> clean_price (VStr s) = Ok VNone) /\
  (forall v convert_to, exists r, clean_numeric v convert_to = Ok r) /\
  (forall v, exists r, clean_price v = Ok r).
Proof.
  split; [vm_compute; reflexivity |].
  split; [exact clean_numeric_commas |].
  split; [reflexivity |].
  split.
  { intros neg m e Hm.
    destruct (int_of_float_integer_part neg m e Hm) as (t & Ht & Hrest).
    exists t. split; [| exact Hrest].
    unfold clean_price. cbn [isna is_None orb py_int]. rewrite Ht.
    reflexivity. }
  split; [vm_compute; reflexivity |].
  split.
  { intros s Hin. destruct (int_of_str_comma s Hin) as [e He].
    unfold clean_price. cbn [isna is_None orb py_int]. rewrite He.
    reflexivity. }
  split; [vm_compute; reflexivity |].
  split; [vm_compute; reflexivity |].
  split.
  { intros s e He. unfold clean_numeric.
    cbn [isna is_None eq_empty orb float_of_text]. rewrite He.
    destruct (String.eqb s ""); reflexivity. }
  split.
  { intros s e He. unfold clean_price. cbn [isna is_None orb py_int].
    rewrite He. reflexivity. }
  split.
  - intros v convert_to. apply or_None_returns.
  - intros v. apply or_None_returns.
Qed.

(** C4, the claim as written fails on the price field: [clean_price] calls
    [int] on the text, which rejects the separators, and the handler turns
    the error into the absent value. *)
Lemma C4_price_text_with_separators :
  clean_price (VStr "1,200,000") = Ok VNone /\
  clean_price (VStr "1,200,000") <> Ok (VInt 1200000).
Proof.
  split; [vm_compute; reflexivity | vm_compute; discriminate].
Qed.

(** C5.  Schema enforcement: when a required column is missing from the
    frame (the column itself, not the values in it), cleaning the listings
    raises [ValueError], the schema error of the code, and gives no frame;
    the same holds for the facilities; and a page whose listings lack a
    required column ends as failed with the whole database untouched, so
    no cleaned record of the batch is stored. *)
Theorem C5_schema_enforcement (df : DataFrame) :
  (missing_required listing_required_columns df = true ->
   exists msg, clean_rumah123_data repr_float df = Raise (ValueError msg)) /\
  (missing_required facility_required_columns df = true ->
   exists msg, clean_osm_facilities_data repr_float df = Raise (ValueError msg)) /\
  (forall ft progress s,
     df = DataFrame_of (filter (field_is "page" (VInt (current_page progress)))
                               (raw_listings s)) ->
     missing_required listing_required_columns df = true ->
     process_current_page repr_float ft progress s = (Ok false, s)).
Proof.
  split; [apply clean_rumah123_data_missing |].
  split; [apply clean_osm_facilities_data_missing |].
  intros ft progress s -> Hmiss.
  unfold process_current_page, process_body, try_except, bindM, read, lift, ret.
  destruct (find_listings_fails ft); [reflexivity |].
  destruct (filter _ (raw_listings s)) as [| d raw]; [reflexivity |].
  destruct (clean_rumah123_data_missing _ Hmiss) as [msg E].
  rewrite E. reflexivity.
Qed.

End CleaningProperties.

(** A run of the cleaner whose progress write fails. *)
Lemma C2_witness :
  scraping_progress
    (snd (DataCleaning.run Sample.repr0 (Sample.cleaner_faults true) Sample.db1))
  = scraping_progress Sample.db1 /\
  forall ft', fst (DataCleaning.load_progress ft'
                     (snd (DataCleaning.run Sample.repr0
                             (Sample.cleaner_faults true) Sample.db1)))
              = fst (DataCleaning.load_progress ft' Sample.db1).
Proof.
  apply (C2_progress_unchanged_when_page_fails Sample.repr0
           (Sample.cleaner_faults true) Sample.db1).
  vm_compute. discriminate.
Defined.

(** C3, the claim as written fails: the listings of the page are cleaned
    and stored, then the progress write fails; the page is failed and the
    cleaned listings stay. *)
Lemma C3_cleaned_listings_survive_failure :
  fst (DataCleaning.run Sample.repr0 (Sample.cleaner_faults true) Sample.db1)
  = DataCleaning.PageFailed /\
  cleaned_listings
    (snd (DataCleaning.run Sample.repr0 (Sample.cleaner_faults true) Sample.db1))
  <> cleaned_listings Sample.db1.
Proof.
  split; [vm_compute; reflexivity | vm_compute; discriminate].
Qed.

Lemma C3_witness :
  let s' := snd (DataCleaning.run Sample.repr0 (Sample.cleaner_faults true)
                   Sample.db1) in
  scraping_progress s' = scraping_progress Sample.db1 /\
  raw_listings s' = raw_listings Sample.db1 /\
  facilities s' = facilities Sample.db1 /\
  (exists l, cleaned_listings s' = (cleaned_listings Sample.db1 ++ l)%list) /\
  (exists l, cleaned_facilities s' = (cleaned_facilities Sample.db1 ++ l)%list).
Proof.
  apply (C3_failed_page_keeps_raw_and_progress Sample.repr0
           (Sample.cleaner_faults true) Sample.db1).
  vm_compute. discriminate.
Defined.

Lemma C4_witness :
  DataCleaning.clean_price (VStr "12,5") = Ok VNone /\
  DataCleaning.clean_price (VFloat (Ffin true 5 (-1))) = Ok (VInt (-2)) /\
  DataCleaning.clean_price (VStr "12 345") = Ok VNone /\
  DataCleaning.clean_numeric (VStr "1.2.3") "int" = Ok VNone.
Proof.
  destruct C4_numeric_coercion
    as (_ & _ & _ & Hfloat & _ & Hcomma & _ & _ & Hnum & Hint & _).
  split; [apply Hcomma; simpl; auto |].
  split.
  { destruct (Hfloat true 5 (-1)) as (t & Ht & _ & _ & Hlt); [lia |].
    assert (Ht2 : t = 2) by (specialize (Hlt eq_refl); simpl in Hlt; lia).
    rewrite Ht2 in Ht. exact Ht. }
  split.
  { apply (Hint _ (ValueError "invalid literal for int() with base 10")).
    vm_compute. reflexivity. }
  apply (Hnum _ (ValueError "could not convert string to float")).
  vm_compute. reflexivity.
Defined.

Lemma C5_witness :
  (exists msg, DataCleaning.clean_rumah123_data Sample.repr0 Sample.narrow_frame
               = Raise (ValueError msg)) /\
  (exists msg, DataCleaning.clean_osm_facilities_data Sample.repr0
                 Sample.narrow_frame = Raise (ValueError msg)) /\
  DataCleaning.process_current_page Sample.repr0 (Sample.cleaner_faults false)
    Sample.progress1
    (with_raw_listings [[("judul_iklan", VStr "Rumah A"); ("page", VInt 1)]]
       Sample.db1)
  = (Ok false,
     with_raw_listings [[("judul_iklan", VStr "Rumah A"); ("page", VInt 1)]]
       Sample.db1).
Proof.
  destruct (C5_schema_enforcement Sample.repr0 Sample.narrow_frame)
    as (Hl & Hf & _).
  split; [apply Hl; reflexivity |].
  split; [apply Hf; reflexivity |].
  destruct (C5_schema_enforcement Sample.repr0
              (DataCleaning.DataFrame_of
                 [[("judul_iklan", VStr "Rumah A"); ("page", VInt 1)]]))
    as (_ & _ & Hp).
  apply Hp; reflexivity.
Defined.

(* ================================================================== *)
(** ** Properties of the progress cursor                               *)
(* ================================================================== *)

Section ProgressProperties.

Import Scraper.

Lemma cursor_set_cursor (r province : string) (page : Z) (l : list (string * Z)) :
  cursor r (set_cursor province page l)
  = if String.eqb r province then Some page else cursor r l.
Proof.
  induction l as [| [k v] l IH]; simpl.
  - destruct (String.eqb r province); reflexivity.
  - destruct (String.eqb_spec province k) as [-> | Hpk]; simpl.
    + destruct (String.eqb r k); reflexivity.
    + rewrite IH. destruct (String.eqb_spec r k) as [-> | Hrk];
        [| reflexivity].
      destruct (String.eqb_spec k province) as [-> | _];
        [contradiction | reflexivity].
Qed.

Lemma set_cursor_same (province : string) (page : Z) (l : list (string * Z)) :
  cursor province l = Some page -> set_cursor province page l = l.
Proof.
  induction l as [| [k v] l IH]; simpl; [discriminate |].
  destruct (String.eqb province k).
  - intros [= ->]. reflexivity.
  - intros H. rewrite (IH H). reflexivity.
Qed.

Lemma cursor_advance_page (r : string) (p : progress_doc) :
  cursor r (provinces (DataCleaning.advance_page p))
  = option_map (fun v => if v =? current_page p then current_page p + 1 else v)
               (cursor r (provinces p)).
Proof.
  unfold DataCleaning.advance_page. simpl.
  induction (provinces p) as [| [k v] l IH]; simpl; [reflexivity |].
  destruct (String.eqb r k); [reflexivity | exact IH].
Qed.

(** C1, as amended.  The scraper's [update_progress(region, page)] writes
    [page] as the cursor of [region] and as [current_page], and leaves the
    cursor of every other region as it was; when a page of the cleaner
    completes, every region whose cursor is [current_page] gets the cursor
    [current_page + 1], every other cursor stays, and [current_page] is
    incremented whatever the cursors are. *)
Theorem C1_progress_advancement (p : progress_doc) (region r : string) (page : Z) :
  current_page (set_progress region page p) = page /\
  cursor region (provinces (set_progress region page p)) = Some page /\
  (r <> region ->
   cursor r (provinces (set_progress region page p)) = cursor r (provinces p)) /\
  current_page (DataCleaning.advance_page p) = current_page p + 1 /\
  cursor r (provinces (DataCleaning.advance_page p))
  = match cursor r (provinces p) with
    | Some v => Some (if v =? current_page p then current_page p + 1 else v)
    | None => None
    end.
Proof.
  split; [reflexivity |].
  split; [simpl; rewrite cursor_set_cursor, String.eqb_refl; reflexivity |].
  split.
  - intros Hne. simpl. rewrite cursor_set_cursor.
    destruct (String.eqb_spec r region); [contradiction | reflexivity].
  - split; [reflexivity |].
    rewrite cursor_advance_page. destruct (cursor r (provinces p)); reflexivity.
Qed.

(** C1, the claim as written fails: with two regions at the current page,
    one completed page of the cleaner moves both cursors, which no
    [advance(region, new_page)] of the rule does. *)
Lemma C1_cleaner_moves_every_region_at_page :
  ~ exists region new_page,
      DataCleaning.advance_page Sample.progress1
      = ProgressRule.advance region new_page Sample.progress1.
Proof.
  intros (region & new_page & H).
  apply (f_equal provinces) in H. simpl in H.
  destruct (String.eqb region "bali"); [congruence |].
  destruct (String.eqb region "riau"); [congruence |].
  destruct (String.eqb region "aceh"); congruence.
Qed.

End ProgressProperties.

Lemma C1_witness :
  cursor "riau" (provinces (Scraper.set_progress "bali" 1 Sample.progress1))
  = cursor "riau" (provinces Sample.progress1).
Proof.
  apply (C1_progress_advancement Sample.progress1 "bali" "riau" 1).
  discriminate.
Defined.

(* ================================================================== *)
(** ** Properties of the scraper                                       *)
(* ================================================================== *)

Section ScraperProperties.

Import Scraper.

Variable ft : faults.
Variable w : web.

Lemma candidates_spec (existing_titles : list value) (cards : list card)
    (h : house) :
  In h (candidates existing_titles cards) ->
  exists c t l,
    In c cards /\ title_elem c = Some t /\ link_elem c = Some l /\
    judul_iklan h = strip t /\ link h = "https://www.rumah123.com" ++ l /\
    judul_iklan h <> "" /\
    known_title existing_titles (judul_iklan h) = false.
Proof.
  unfold candidates. rewrite in_flat_map. intros (c & Hc & Hh).
  unfold card_house in Hh.
  destruct (title_elem c) as [t |] eqn:Et; [| contradiction].
  destruct (link_elem c) as [l |] eqn:El; [| contradiction].
  destruct (String.eqb_spec (strip t) ""); simpl in Hh; [contradiction |].
  destruct (known_title existing_titles (strip t)) eqn:Ek; simpl in Hh;
    [contradiction |].
  destruct Hh as [<- | []]. simpl.
  exists c, t, l. repeat split; auto.
Qed.

(** What [scrape_search_page] returns, when it returns. *)
Lemma scrape_search_page_result (url : string) (existing_titles : list value)
    (s : db) (houses : list house) :
  fst (scrape_search_page w url existing_titles s) = Ok houses ->
  houses = candidates existing_titles (cards_of w url).
Proof.
  unfold scrape_search_page, except_request, try_except, bindM,
    emit, lift, ret, raise, cards_of.
  destruct (search_page w url) as [cards | e]; simpl.
  - intros [= <-]. reflexivity.
  - destruct e; simpl; intros [= <-]. reflexivity.
Qed.

Section Frames.

Variable R : db -> db -> Prop.
Hypothesis R_refl : forall s, R s s.
Hypothesis R_trans : forall s1 s2 s3, R s1 s2 -> R s2 s3 -> R s1 s3.

Lemma except_request_preserves (A : Type) (body : M A) (default : A) :
  preserves R body -> preserves R (except_request body default).
Proof.
  intros Hb. unfold except_request.
  apply preserves_try_except; [exact R_trans | exact Hb |].
  intros e. destruct e;
    first [apply preserves_ret | apply preserves_raise]; exact R_refl.
Qed.

Lemma scrape_search_page_preserves (url : string) (ex : list value) :
  preserves R (emit (HttpGet url)) ->
  preserves R (scrape_search_page w url ex).
Proof.
  intros He. unfold scrape_search_page. apply except_request_preserves.
  apply preserves_bind; [exact R_trans | exact He | intros _].
  apply preserves_bind; [exact R_trans | apply preserves_lift, R_refl | intros cards].
  apply preserves_ret, R_refl.
Qed.

Lemma scrape_house_details_preserves (url province : string) :
  preserves R (emit (HttpGet url)) ->
  preserves R (scrape_house_details w url province).
Proof.
  intros He. unfold scrape_house_details. apply except_request_preserves.
  apply preserves_bind; [exact R_trans | exact He | intros _].
  apply preserves_bind; [exact R_trans | apply preserves_lift, R_refl | intros pg].
  apply preserves_ret, R_refl.
Qed.

Lemma scrape_all_preserves (province : string) (houses : list house) :
  (forall h, In h houses -> preserves R (emit (HttpGet (link h)))) ->
  preserves R (scrape_all w province houses).
Proof.
  induction houses as [| h rest IH]; simpl; intros He.
  - apply preserves_ret, R_refl.
  - apply preserves_bind; [exact R_trans | | intros details].
    + apply scrape_house_details_preserves, He. left. reflexivity.
    + apply preserves_bind; [exact R_trans | | intros ds].
      * apply IH. intros h' Hh'. apply He. right. exact Hh'.
      * apply preserves_ret, R_refl.
Qed.

End Frames.

Lemma scrape_house_details_result (url province : string) (s : db)
    (details : doc) :
  fst (scrape_house_details w url province s) = Ok details ->
  details = [] \/
  exists pg, detail w url = Ok pg /\
             get "judul_iklan" details = Some (opt_str (h1 pg)).
Proof.
  unfold scrape_house_details, except_request, try_except, bindM, emit, lift,
    ret, raise.
  destruct (detail w url) as [pg | e]; simpl.
  - intros [= <-]. right. exists pg. split; reflexivity.
  - destruct e; simpl; intros [= <-]. left. reflexivity.
Qed.

(** The records [scrape_all] returns are read off the detail pages of the
    houses it was given. *)
Lemma scrape_all_result (province : string) (houses : list house) (s : db)
    (ds : list doc) :
  fst (scrape_all w province houses s) = Ok ds ->
  Forall (fun d => exists h pg,
                     In h houses /\ detail w (link h) = Ok pg /\
                     get "judul_iklan" d = Some (opt_str (h1 pg))) ds.
Proof.
  revert s ds. induction houses as [| h rest IH]; simpl; intros s ds.
  - unfold ret. simpl. intros [= <-]. constructor.
  - unfold bindM at 1.
    destruct (scrape_house_details w (link h) province s) as [[details | e] s1]
      eqn:E1; simpl; [| discriminate].
    unfold bindM.
    destruct (scrape_all w province rest s1) as [[hd | e] s2] eqn:E2; simpl;
      [| discriminate].
    intros [= <-].
    assert (Hrest : Forall (fun d => exists h0 pg,
                (h = h0 \/ In h0 rest) /\ detail w (link h0) = Ok pg /\
                get "judul_iklan" d = Some (opt_str (h1 pg))) hd).
    { specialize (IH s1 hd). rewrite E2 in IH. specialize (IH eq_refl).
      eapply Forall_impl; [| exact IH].
      intros d (h0 & pg & H1 & H2 & H3). exists h0, pg. auto. }
    pose proof (scrape_house_details_result (link h) province s details) as Hd.
    rewrite E1 in Hd. specialize (Hd eq_refl).
    destruct details as [| kv details]; [exact Hrest |].
    constructor; [| exact Hrest].
    destruct Hd as [Hd | (pg & H1 & H2)]; [discriminate |].
    exists h, pg. auto.
Qed.

Lemma store_to_mongodb_trace (data : list doc) (province : string) (page : Z)
    (s : db) :
  trace (snd (store_to_mongodb ft w data province page s)) = trace s.
Proof.
  unfold store_to_mongodb. destruct data; [reflexivity |].
  unfold try_except, bindM, insert_many, ret.
  destruct (store_stops ft province); reflexivity.
Qed.

Lemma store_to_mongodb_progress (data : list doc) (province : string)
    (page : Z) :
  preserves same_progress (store_to_mongodb ft w data province page).
Proof.
  intros s. unfold store_to_mongodb. destruct data; [reflexivity |].
  unfold try_except, bindM, insert_many, ret.
  destruct (store_stops ft province); reflexivity.
Qed.

(** The records [store_to_mongodb] adds are records of [data] with the
    three fields of lines 205-207 set. *)
Lemma store_to_mongodb_raw (data : list doc) (province : string) (page : Z)
    (s : db) (d : doc) :
  In d (raw_listings (snd (store_to_mongodb ft w data province page s))) ->
  In d (raw_listings s) \/
  exists d0, In d0 data /\
             d = set "inserted_at" (now w)
                   (set "page" (VInt page)
                      (set "province" (VStr province) d0)).
Proof.
  unfold store_to_mongodb. destruct data as [| d1 data]; [auto |].
  unfold try_except, bindM, insert_many, ret.
  set (f := fun record => set "inserted_at" (now w)
                            (set "page" (VInt page)
                               (set "province" (VStr province) record))).
  destruct (store_stops ft province) as [n |]; simpl; intros Hd;
    apply in_app_or in Hd; destruct Hd as [Hd | Hd]; auto; right.
  - apply In_firstn in Hd.
    change (In d (map f (d1 :: data))) in Hd.
    apply in_map_iff in Hd. destruct Hd as (d0 & <- & H0). eauto.
  - change (In d (map f (d1 :: data))) in Hd.
    apply in_map_iff in Hd. destruct Hd as (d0 & <- & H0). eauto.
Qed.

Lemma store_to_mongodb_fails (data : list doc) (province : string) (page : Z)
    (s : db) :
  store_stops ft province <> None ->
  fst (store_to_mongodb ft w data province page s) = Ok false.
Proof.
  intros Hs. unfold store_to_mongodb. destruct data; [reflexivity |].
  unfold try_except, bindM, insert_many, ret.
  destruct (store_stops ft province); [reflexivity | contradiction].
Qed.

Lemma update_progress_trace (province : string) (page : Z) (s : db) :
  trace (snd (update_progress ft province page s)) = trace s.
Proof.
  unfold update_progress, try_except, ret.
  destruct (update_progress_fails ft province); [reflexivity |].
  destruct (scraping_progress s); reflexivity.
Qed.

Lemma update_progress_raw (province : string) (page : Z) (s : db) :
  raw_listings (snd (update_progress ft province page s)) = raw_listings s.
Proof.
  unfold update_progress, try_except, ret.
  destruct (update_progress_fails ft province); [reflexivity |].
  destruct (scraping_progress s); reflexivity.
Qed.

Lemma trace_adds_of_same_trace (P : event -> Prop) (A : Type) (c : M A) :
  (forall s, trace (snd (c s)) = trace s) -> preserves (trace_adds P) c.
Proof. intros H s e He. rewrite H in He. left. exact He. Qed.

Lemma raw_adds_of_same_raw (Q : doc -> Prop) (A : Type) (c : M A) :
  (forall s, raw_listings (snd (c s)) = raw_listings s) ->
  preserves (raw_adds Q) c.
Proof. intros H s d Hd. rewrite H in Hd. left. exact Hd. Qed.

(** The requests of one turn of the loop of [run]: the index page, then the
    detail pages of the candidates and of nothing else. *)
Lemma run_province_trace (ex : list value) (cp : Z) (province : string)
    (page : Z) :
  preserves
    (trace_adds
       (fun e => e = HttpGet (search_url province page) \/
                 exists h,
                   In h (candidates ex (cards_of w (search_url province page))) /\
                   e = HttpGet (link h)))
    (run_province ft w ex cp province page).
Proof.
  unfold run_province.
  destruct (negb (page =? cp)); [frame_leaf |].
  apply preserves_bind_result
    with (P := fun houses =>
                 houses = candidates ex (cards_of w (search_url province page)));
    [eauto with frame | | |].
  - apply scrape_search_page_preserves; eauto with frame.
    apply emit_trace_adds. left. reflexivity.
  - intros s houses. apply scrape_search_page_result.
  - intros houses ->.
    destruct (candidates ex (cards_of w (search_url province page)))
      as [| h0 hs] eqn:Ec; [frame_leaf |]. rewrite <- Ec.
    apply preserves_bind; [eauto with frame | | intros ds].
    + apply scrape_all_preserves; eauto with frame.
      intros h Hh. apply emit_trace_adds. right. exists h. auto.
    + destruct ds as [| d ds]; [frame_leaf |].
      apply preserves_bind; [eauto with frame | | intros stored].
      * apply trace_adds_of_same_trace. apply store_to_mongodb_trace.
      * destruct stored; [| frame_leaf].
        apply trace_adds_of_same_trace. apply update_progress_trace.
Qed.

(** The records of one turn of the loop of [run], on a site that shows a
    listing under one title: none bears a title of the dedup set. *)
Lemma run_province_raw (ex : list value) (cp : Z) (province : string)
    (page : Z) :
  title_consistent w (cards_of w (search_url province page)) ->
  preserves
    (raw_adds (fun d => exists t, get "judul_iklan" d = Some (VStr t) /\
                                  known_title ex t = false))
    (run_province ft w ex cp province page).
Proof.
  intros Hcons. unfold run_province.
  destruct (negb (page =? cp)); [frame_leaf |].
  apply preserves_bind_result
    with (P := fun houses =>
                 houses = candidates ex (cards_of w (search_url province page)));
    [eauto with frame | | |].
  - apply scrape_search_page_preserves; eauto with frame.
    apply emit_raw_adds.
  - intros s houses. apply scrape_search_page_result.
  - intros houses ->.
    destruct (candidates ex (cards_of w (search_url province page)))
      as [| h0 hs] eqn:Ec; [frame_leaf |]. rewrite <- Ec.
    eapply preserves_bind_result; [eauto with frame | | | ].
    + apply scrape_all_preserves; eauto with frame.
      intros h Hh. apply emit_raw_adds.
    + intros s ds. apply scrape_all_result.
    + intros ds Hds. simpl in Hds.
      destruct ds as [| d ds]; [frame_leaf |].
      apply preserves_bind; [eauto with frame | | intros stored].
      * intros s d' Hd'. apply store_to_mongodb_raw in Hd'.
        destruct Hd' as [Hd' | (d0 & Hin & ->)]; [left; exact Hd' | right].
        rewrite Forall_forall in Hds.
        destruct (Hds d0 Hin) as (h & pg & Hh & Hpg & Hget).
        destruct (candidates_spec _ _ _ Hh)
          as (c & t & l & Hc & Ht & Hl & Htitle & Hlink & _ & Hnew).
        rewrite Hlink in Hpg.
        rewrite (Hcons c t l pg Hc Ht Hl Hpg) in Hget. simpl in Hget.
        exists (strip t). rewrite !get_set_other by discriminate.
        rewrite <- Htitle at 2. auto.
      * destruct stored; [| frame_leaf].
        apply raw_adds_of_same_raw. apply update_progress_raw.
Qed.

(** The dedup set, when it loads, is the set of the stored titles. *)
Lemma fetch_existing_titles_spec (s : db) (t : string) :
  distinct_fails ft = false ->
  exists ex, fetch_existing_titles ft s = (Ok ex, s) /\
             (known_title ex t = true <->
              exists d, In d (raw_listings s) /\
                        get "judul_iklan" d = Some (VStr t)).
Proof.
  intros Hok. unfold fetch_existing_titles, try_except, read. rewrite Hok.
  eexists. split; [reflexivity |].
  unfold known_title. rewrite existsb_exists. split.
  - intros (v & Hv & Heq). apply value_eqb_eq in Heq. subst v.
    apply distinct_values_In in Hv. destruct Hv as [Hv _].
    apply in_flat_map in Hv. destruct Hv as (d & Hd & Hv).
    exists d. split; [exact Hd |].
    destruct (get "judul_iklan" d); simpl in Hv; [| contradiction].
    destruct Hv as [-> | []]. reflexivity.
  - intros (d & Hd & Hget). exists (VStr t). split.
    + apply distinct_values_In. split; [| reflexivity].
      apply in_flat_map. exists d. split; [exact Hd |].
      rewrite Hget. left. reflexivity.
    + apply value_eqb_eq. reflexivity.
Qed.

Lemma run_province_progress_when_store_fails (ex : list value) (cp : Z)
    (province : string) (page : Z) :
  store_stops ft province <> None ->
  preserves same_progress (run_province ft w ex cp province page).
Proof.
  intros Hstore. unfold run_province.
  destruct (negb (page =? cp)); [frame_leaf |].
  apply preserves_bind; [eauto with frame | | intros houses].
  { apply scrape_search_page_preserves; eauto with frame.
    apply emit_same_progress. }
  destruct houses as [| h0 hs]; [frame_leaf |].
  apply preserves_bind; [eauto with frame | | intros ds].
  { apply scrape_all_preserves; eauto with frame.
    intros h _. apply emit_same_progress. }
  destruct ds as [| d ds]; [frame_leaf |].
  apply preserves_bind_result with (P := fun stored => stored = false);
    [eauto with frame | apply store_to_mongodb_progress | |].
  - intros s stored Hs.
    rewrite (store_to_mongodb_fails _ _ _ _ Hstore) in Hs. congruence.
  - intros stored ->. frame_leaf.
Qed.

(** C8, as amended.  Only a failure to load the progress document is fatal:
    [run] then raises before any request or write.  A failure to load the
    dedup set is absorbed and the set is taken as empty; a failed store of a
    province's listings returns [False], so the progress document is not
    written for that province and the loop goes on; a failed progress write
    is absorbed. *)
Theorem C8_storage_failures (province : string) (page : Z) (data : list doc)
    (ex : list value) (cp : Z) (s : db) :
  (find_progress_fails ft = true -> exists e, run ft w s = (Raise e, s)) /\
  (distinct_fails ft = true -> fetch_existing_titles ft s = (Ok [], s)) /\
  (store_stops ft province <> None ->
   fst (store_to_mongodb ft w data province page s) = Ok false /\
   same_progress s (snd (run_province ft w ex cp province page s))) /\
  (update_progress_fails ft province = true ->
   update_progress ft province page s = (Ok tt, s)).
Proof.
  split; [| split; [| split]].
  - intros H. eexists.
    unfold run, load_progress, bindM, try_except, read, raise. rewrite H.
    reflexivity.
  - intros H. unfold fetch_existing_titles, try_except, read. rewrite H.
    reflexivity.
  - intros H. split.
    + apply store_to_mongodb_fails, H.
    + apply run_province_progress_when_store_fails, H.
  - intros H. unfold update_progress, try_except. rewrite H. reflexivity.
Qed.

(** The state [scrape_search_page] leaves: the request made, nothing
    else. *)
Lemma scrape_search_page_state (url : string) (ex : list value) (s : db) :
  snd (scrape_search_page w url ex s)
  = with_trace (trace s ++ [HttpGet url]) s.
Proof.
  unfold scrape_search_page, except_request, try_except, bindM, emit, lift,
    ret, raise.
  destruct (search_page w url) as [cards | e]; simpl; [reflexivity |].
  destruct e; reflexivity.
Qed.


End ScraperProperties.

Lemma C8_witness :
  (exists e, Scraper.run (Sample.scraper_faults true true (Some O) true)
               Sample.web1 Sample.db1 = (Raise e, Sample.db1)) /\
  Scraper.fetch_existing_titles (Sample.scraper_faults true true (Some O) true)
    Sample.db1 = (Ok [], Sample.db1) /\
  (fst (Scraper.store_to_mongodb (Sample.scraper_faults true true (Some O) true)
          Sample.web1 [[("judul_iklan", VStr "Rumah B")]] "bali" 1 Sample.db1)
   = Ok false /\
   same_progress Sample.db1
     (snd (Scraper.run_province (Sample.scraper_faults true true (Some O) true)
             Sample.web1 [] 1 "bali" 1 Sample.db1))) /\
  Scraper.update_progress (Sample.scraper_faults true true (Some O) true)
    "bali" 1 Sample.db1 = (Ok tt, Sample.db1).
Proof.
  destruct (C8_storage_failures (Sample.scraper_faults true true (Some O) true)
              Sample.web1 "bali" 1 [[("judul_iklan", VStr "Rumah B")]] [] 1
              Sample.db1) as (H1 & H2 & H3 & H4).
  split; [apply H1; reflexivity |].
  split; [apply H2; reflexivity |].
  split; [apply H3; discriminate | apply H4; reflexivity].
Defined.

(** C8, the claim as written fails: the dedup set cannot be loaded, the run
    goes on with an empty set, fetches the listing it already has and
    stores it again, and ends without error. *)
Lemma C8_run_continues_after_storage_failure :
  fst (Scraper.run (Sample.scraper_faults false true None false)
         Sample.web1 Sample.db1) = Ok tt /\
  raw_listings (snd (Scraper.run (Sample.scraper_faults false true None false)
                       Sample.web1 Sample.db1))
  <> raw_listings Sample.db1.
Proof.
  split; [vm_compute; reflexivity | vm_compute; discriminate].
Qed.



(* ================================================================== *)
(** ** Properties of the enrichment client                             *)
(* ================================================================== *)

Section FacilitiesProperties.

Import Facilities.

Variable ft : faults.
Variable n : net.
Variable kecamatan : value.

Lemma failures_app (i d1 d2 : nat) :
  failures n i (d1 + d2) = (failures n i d1 + failures n (i + d1) d2)%nat.
Proof.
  revert i. induction d1 as [| d1 IH]; intros i; simpl.
  - rewrite Nat.add_0_r. reflexivity.
  - rewrite IH. rewrite <- plus_n_Sm. simpl. lia.
Qed.

Ltac count_posts :=
  unfold posts; simpl; rewrite ?filter_app, ?length_app; simpl; lia.

(** The ways a wait of [wt] seconds ends. *)
Ltac sleep_branches wt :=
  destruct ((wt <? -9223372036) || (9223372036 <? wt))%bool;
  [| destruct (wt <? 0);
     [| destruct ((60 <? wt) && (longest_sleep n <? wt))%bool]].

(** One turn of the [while] sends one request, touches no collection, never
    raises, and reaches the [break] exactly on a successful answer. *)
Lemma turn_spec (facility_filter : string) (s : db) :
  let r := turn n kecamatan facility_filter s in
  ((exists count, fst r = Ok (Break count) /\
                  is_success (overpass n (posts s)) = true) \/
   (fst r = Ok Retry /\ is_success (overpass n (posts s)) = false)) /\
  posts (snd r) = S (posts s) /\
  same_collections s (snd r).
Proof.
  unfold turn, attempt, try_except, bindM, sleep, post, emit, lift, raise, ret,
    wait_of.
  simpl.
  replace (posts (with_trace (trace s ++ [Sleep 2]) s)) with (posts s)
    by count_posts.
  destruct (overpass n (posts s)) as [c ra j | e]; simpl.
  - destruct (c =? 200) eqn:E200.
    + destruct j as [[len |] |]; simpl;
        (split; [eauto | split; [count_posts | repeat split]]).
    + destruct (c =? 429).
      * destruct ra as [h |]; simpl.
        -- destruct (int_of_str h) as [wt | e]; simpl.
           ++ sleep_branches wt; simpl;
                (split; [right; split; [reflexivity |];
                         destruct j; reflexivity
                        | split; [count_posts | repeat split]]).
           ++ split; [right; split; [reflexivity |]; destruct j; reflexivity
                     | split; [count_posts | repeat split]].
        -- split; [right; split; [reflexivity |]; destruct j; reflexivity
                  | split; [count_posts | repeat split]].
      * simpl.
        split; [right; split; [reflexivity |]; destruct j; reflexivity
               | split; [count_posts | repeat split]].
  - split; [right; split; reflexivity | split; [count_posts | repeat split]].
Qed.

Lemma turn_collections (f : string) :
  preserves same_collections (turn n kecamatan f).
Proof. intros s. apply (turn_spec f s). Qed.

Lemma query_filter_collections (f : string) (b : nat) :
  preserves same_collections (query_filter b n kecamatan f).
Proof.
  induction b as [| b IH]; simpl; [frame_leaf |].
  apply preserves_bind; [eauto with frame | apply turn_collections | intros r].
  destruct r; [frame_leaf | exact IH].
Qed.

Lemma query_filters_collections (fs : list string) (b : nat) (t : Z) :
  preserves same_collections (query_filters b n kecamatan fs t).
Proof.
  revert b t. induction fs as [| f fs IH]; intros b t; simpl; [frame_leaf |].
  apply preserves_bind;
    [eauto with frame | apply query_filter_collections | intros r].
  destruct (snd r); [frame_leaf | apply IH].
Qed.

Lemma query_categories_collections (qs : list (string * list string))
    (b : nat) (results : doc) :
  preserves same_collections (query_categories b n kecamatan qs results).
Proof.
  revert b results. induction qs as [| [cat fs] qs IH]; intros b results;
    simpl; [frame_leaf |].
  apply preserves_bind;
    [eauto with frame | apply query_filters_collections | intros r].
  destruct r as [[t b'] |]; [apply IH | frame_leaf].
Qed.

Lemma get_facilities_count_collections (max_retries : Z) :
  preserves same_collections (get_facilities_count n kecamatan max_retries).
Proof.
  unfold get_facilities_count.
  apply preserves_bind;
    [eauto with frame | apply query_categories_collections | intros r].
  destruct r; frame_leaf.
Qed.

(** The [while] of one filter expression: it never raises; with [d]
    requests it uses up as much budget as there are failed answers among
    them, and it ends on a success exactly when budget is left. *)
Lemma query_filter_spec (f : string) (b : nat) (s : db) :
  exists count b' d,
    fst (query_filter b n kecamatan f s) = Ok (count, b') /\
    posts (snd (query_filter b n kecamatan f s)) = (posts s + d)%nat /\
    (failures n (posts s) d + b' = b)%nat /\
    d = (failures n (posts s) d + match b' with O => O | S _ => 1 end)%nat.
Proof.
  revert s. induction b as [| b IH]; intros s; simpl.
  - exists 0, O, O. simpl. repeat split; lia.
  - unfold bindM.
    destruct (turn_spec f s) as (Hr & Hp & _).
    destruct (turn n kecamatan f s) as [r s1]. simpl in Hr, Hp.
    destruct Hr as [(count & -> & Hs) | (-> & Hs)]; simpl.
    + exists count, (S b), 1%nat. simpl. rewrite Hs, Hp.
      repeat split; lia.
    + destruct (IH s1) as (count & b' & d & E & Hd & Hf & Hdd).
      exists count, b', (S d). rewrite Hp in Hd, Hf, Hdd.
      simpl. rewrite Hs. repeat split; [exact E | lia | lia | lia].
Qed.

(** The loop over the filter expressions of a category. *)
Lemma query_filters_spec (fs : list string) (b : nat) (t : Z) (s : db) :
  exists d,
    posts (snd (query_filters b n kecamatan fs t s)) = (posts s + d)%nat /\
    ((fst (query_filters b n kecamatan fs t s) = Ok None /\
      failures n (posts s) d = b /\ (d < b + List.length fs)%nat) \/
     (exists t' b',
        fst (query_filters b n kecamatan fs t s) = Ok (Some (t', b')) /\
        (failures n (posts s) d + b' = b)%nat /\
        d = (failures n (posts s) d + List.length fs)%nat /\
        (b <> O \/ fs <> [] -> b' <> O))).
Proof.
  revert b t s. induction fs as [| f fs IH]; intros b t s; simpl.
  - exists O. simpl. split; [lia |]. right. exists t, b.
    repeat split; auto. intros [H | H]; [exact H | contradiction].
  - unfold bindM.
    destruct (query_filter_spec f b s) as (count & b1 & d1 & E & Hp & Hf & Hd).
    destruct (query_filter b n kecamatan f s) as [r s1]. simpl in E, Hp.
    subst r. simpl. destruct b1 as [| b1].
    + exists d1. simpl. split; [exact Hp |]. left.
      repeat split; [lia | lia].
    + destruct (IH (S b1) (t + count) s1) as (d2 & Hp2 & Hcase).
      exists (d1 + d2)%nat. rewrite Hp in Hp2, Hcase.
      split; [lia |]. rewrite failures_app.
      destruct Hcase as [(E2 & Hf2 & Hd2) | (t' & b' & E2 & Hf2 & Hd2 & Hb)].
      * left. repeat split; [exact E2 | lia | lia].
      * right. exists t', b'.
        repeat split; [exact E2 | lia | lia |].
        intros _. apply Hb. left. discriminate.
Qed.

(** The loop over the categories: [None] exactly when the failed answers
    use up the budget. *)
Lemma query_categories_spec (qs : list (string * list string)) (b : nat)
    (results : doc) (s : db) :
  exists d,
    posts (snd (query_categories b n kecamatan qs results s))
    = (posts s + d)%nat /\
    ((fst (query_categories b n kecamatan qs results s) = Ok None /\
      failures n (posts s) d = b /\
      (d < b + List.length (flat_map snd qs))%nat) \/
     (exists results' b',
        fst (query_categories b n kecamatan qs results s) = Ok (Some results') /\
        (failures n (posts s) d + b' = b)%nat /\
        d = (failures n (posts s) d + List.length (flat_map snd qs))%nat /\
        (b <> O \/ flat_map snd qs <> [] -> b' <> O))).
Proof.
  revert b results s. induction qs as [| [cat fs] qs IH]; intros b results s;
    simpl.
  - exists O. simpl. split; [lia |]. right. exists results, b.
    repeat split; auto. intros [H | H]; [exact H | contradiction].
  - unfold bindM.
    destruct (query_filters_spec fs b 0 s) as (d1 & Hp & Hcase).
    destruct (query_filters b n kecamatan fs 0 s) as [r s1]. simpl in Hp, Hcase.
    rewrite length_app.
    destruct Hcase as [(-> & Hf & Hd) | (t' & b1 & -> & Hf & Hd & Hb)]; simpl.
    + exists d1. split; [exact Hp |]. left. repeat split; [exact Hf | lia].
    + destruct (IH b1 (set cat (VInt t') results) s1) as (d2 & Hp2 & Hcase).
      exists (d1 + d2)%nat. rewrite Hp in Hp2, Hcase.
      split; [lia |]. rewrite failures_app.
      destruct Hcase as [(E2 & Hf2 & Hd2) | (r' & b' & E2 & Hf2 & Hd2 & Hb2)].
      * left. repeat split; [exact E2 | lia | lia].
      * right. exists r', b'.
        repeat split; [exact E2 | lia | lia |].
        intros [Hb0 | Hne].
        -- apply Hb2. left. apply Hb. left. exact Hb0.
        -- destruct fs as [| f fs].
           ++ apply Hb2. right. exact Hne.
           ++ apply Hb2. left. apply Hb. right. discriminate.
Qed.

Lemma set_nonempty (k : string) (v : value) (d : doc) : set k v d <> [].
Proof.
  destruct d as [| [k' v'] d]; simpl; [discriminate |].
  destruct (String.eqb k k'); discriminate.
Qed.

(** [get_facilities_count] never raises and touches no collection; with
    [d] requests, it returns [None] exactly when the failed answers among
    them reach [max_retries], and a record when they stay below it and each
    filter expression got its successful answer. *)
Lemma get_facilities_count_spec (max_retries : Z) (s : db) :
  let r := get_facilities_count n kecamatan max_retries s in
  same_collections s (snd r) /\
  exists d,
    posts (snd r) = (posts s + d)%nat /\
    ((fst r = Ok None /\
      failures n (posts s) d = Z.to_nat max_retries /\
      (d < Z.to_nat max_retries + filter_count)%nat) \/
     (exists results,
        fst r = Ok (Some results) /\ results <> [] /\
        (failures n (posts s) d < Z.to_nat max_retries)%nat /\
        d = (failures n (posts s) d + filter_count)%nat)).
Proof.
  split; [apply get_facilities_count_collections |].
  unfold get_facilities_count, bindM.
  destruct (query_categories_spec facility_queries (Z.to_nat max_retries) [] s)
    as (d & Hp & Hcase).
  destruct (query_categories (Z.to_nat max_retries) n kecamatan
              facility_queries [] s) as [r s1].
  simpl in Hp, Hcase. exists d.
  destruct Hcase as [(-> & Hf & Hd) | (res & b' & -> & Hf & Hd & Hb)]; simpl.
  - split; [exact Hp |]. left. repeat split; [exact Hf | exact Hd].
  - split; [exact Hp |]. right. eexists. split; [reflexivity |].
    split; [apply set_nonempty |].
    assert (b' <> O) by (apply Hb; right; discriminate).
    split; [lia | exact Hd].
Qed.

(** What [sleeps] says of [sleep]. *)
Lemma sleeps_spec (z : Z) :
  sleeps n z = true
  <-> 0 <= z <= 9223372036 /\ (z <= 60 \/ z <= longest_sleep n).
Proof.
  unfold sleeps. rewrite !andb_true_iff, orb_true_iff, !Z.leb_le. tauto.
Qed.

Lemma sleep_spec (z : Z) (s : db) :
  (sleeps n z = true ->
   sleep n z s = (Ok tt, with_trace (trace s ++ [Sleep z]) s)) /\
  (sleeps n z = false -> exists e, sleep n z s = (Raise e, s)).
Proof.
  pose proof (sleeps_spec z) as Hs.
  unfold sleep, raise, emit.
  destruct (Z.ltb_spec z (-9223372036)), (Z.ltb_spec 9223372036 z),
    (Z.ltb_spec z 0), (Z.ltb_spec 60 z), (Z.ltb_spec (longest_sleep n) z);
    simpl;
    (split; intros Hz;
     [try reflexivity; apply Hs in Hz; lia
     | try (eexists; reflexivity);
       assert (sleeps n z = true) by (apply Hs; lia); congruence]).
Qed.

(** The waits of a failed turn. *)
Lemma turn_waits (f : string) (s : db) (c : Z) (ra : option string)
    (j : option (option nat)) :
  overpass n (posts s) = Response c ra j ->
  (c = 429 -> forall wt, wait_of ra = Ok wt -> sleeps n wt = true ->
     fst (turn n kecamatan f s) = Ok Retry /\
     trace (snd (turn n kecamatan f s))
     = (trace s ++ [Sleep 2; OverpassPost kecamatan f; Sleep wt])%list) /\
  (c = 429 -> (forall wt, wait_of ra = Ok wt -> sleeps n wt = false) ->
     fst (turn n kecamatan f s) = Ok Retry /\
     trace (snd (turn n kecamatan f s))
     = (trace s ++ [Sleep 2; OverpassPost kecamatan f; Sleep 5])%list) /\
  (c <> 200 -> c <> 429 ->
     fst (turn n kecamatan f s) = Ok Retry /\
     trace (snd (turn n kecamatan f s))
     = (trace s ++ [Sleep 2; OverpassPost kecamatan f; Sleep 5])%list).
Proof.
  intros Hr.
  assert (H429 : c = 429 ->
            turn n kecamatan f s
            = let s2 := with_trace
                          (trace s ++ [Sleep 2; OverpassPost kecamatan f]) s in
              match wait_of ra with
              | Ok wt =>
                  match sleep n wt s2 with
                  | (Ok _, s3) => (Ok Retry, s3)
                  | (Raise _, s3) =>
                      (Ok Retry, with_trace (trace s3 ++ [Sleep 5]) s3)
                  end
              | Raise _ => (Ok Retry, with_trace (trace s2 ++ [Sleep 5]) s2)
              end).
  { intros ->.
    unfold turn, attempt, try_except, bindM, post, lift, raise, ret.
    change (sleep n 2 s) with (Ok tt, with_trace (trace s ++ [Sleep 2]) s).
    cbv beta iota zeta.
    replace (posts (with_trace (trace s ++ [Sleep 2]) s)) with (posts s)
      by count_posts.
    rewrite Hr. cbn [Z.eqb Pos.eqb].
    replace (with_trace
               (trace (with_trace (trace s ++ [Sleep 2]) s)
                ++ [OverpassPost kecamatan f])
               (with_trace (trace s ++ [Sleep 2]) s))
      with (with_trace (trace s ++ [Sleep 2; OverpassPost kecamatan f]) s)
      by (simpl; rewrite <- app_assoc; reflexivity).
    destruct (wait_of ra) as [wt | e]; [| reflexivity].
    destruct (sleep n wt _) as [[[] | e] s3]; reflexivity. }
  split; [| split].
  - intros Hc wt Hw Hs. rewrite (H429 Hc). cbv zeta. rewrite Hw.
    rewrite (proj1 (sleep_spec wt _) Hs). simpl.
    split; [reflexivity |]. rewrite <- !app_assoc. reflexivity.
  - intros Hc Hbad. rewrite (H429 Hc). cbv zeta.
    destruct (wait_of ra) as [wt | e].
    + destruct (proj2 (sleep_spec wt (with_trace
                  (trace s ++ [Sleep 2; OverpassPost kecamatan f]) s))
                  (Hbad wt eq_refl)) as [e He].
      rewrite He. simpl. split; [reflexivity |].
      rewrite <- !app_assoc. reflexivity.
    + simpl. split; [reflexivity |]. rewrite <- !app_assoc. reflexivity.
  - intros H200 Hn429.
    unfold turn, attempt, try_except, bindM, sleep, post, emit, lift, raise,
      ret.
    simpl.
    replace (posts (with_trace (trace s ++ [Sleep 2]) s)) with (posts s)
      by count_posts.
    rewrite Hr.
    destruct (Z.eqb_spec c 200); [contradiction |].
    destruct (Z.eqb_spec c 429); [contradiction |]. simpl.
    split; [reflexivity |]. rewrite <- !app_assoc. reflexivity.
Qed.

Lemma facility_exists_state (s : db) :
  snd (facility_exists ft kecamatan s) = s.
Proof.
  unfold facility_exists, read.
  destruct (find_facility_fails ft kecamatan); reflexivity.
Qed.

(** A region whose facility record exists is skipped: the turn of the loop
    leaves the state, trace included, as it is. *)
Lemma run_kecamatan_skips (s : db) :
  existsb (field_is "kecamatan" kecamatan) (facilities s) = true ->
  snd (run_kecamatan ft n kecamatan s) = s.
Proof.
  intros Hex. unfold run_kecamatan, bindM, facility_exists, read.
  destruct (find_facility_fails ft kecamatan); [reflexivity |].
  rewrite Hex. reflexivity.
Qed.

(** A region whose count fails gets no record. *)
Lemma run_kecamatan_no_record (s : db) :
  fst (get_facilities_count n kecamatan 3 s) = Ok None ->
  same_collections s (snd (run_kecamatan ft n kecamatan s)).
Proof.
  intros Hnone. unfold run_kecamatan, bindM, facility_exists, read.
  destruct (find_facility_fails ft kecamatan);
    [apply same_collections_refl |].
  destruct (existsb _ (facilities s)); [apply same_collections_refl |].
  pose proof (get_facilities_count_collections 3 s) as Hcol.
  destruct (get_facilities_count n kecamatan 3 s) as [r s1].
  simpl in Hnone, Hcol. subst r. exact Hcol.
Qed.


Section Traces.

Variable P : event -> Prop.
Hypothesis P_sleep : forall z, P (Sleep z).
Hypothesis P_post : forall f, P (OverpassPost kecamatan f).

Lemma sleep_trace (z : Z) : preserves (trace_adds P) (sleep n z).
Proof.
  unfold sleep. sleep_branches z; try frame_leaf.
  apply emit_trace_adds, P_sleep.
Qed.

Lemma post_trace (f : string) : preserves (trace_adds P) (post n kecamatan f).
Proof.
  intros s e He. simpl in He.
  apply in_app_or in He. destruct He as [H | [<- | []]]; auto.
Qed.

Lemma turn_trace (f : string) : preserves (trace_adds P) (turn n kecamatan f).
Proof.
  unfold turn, attempt.
  apply preserves_try_except; [eauto with frame | | intros e].
  - apply preserves_bind; [eauto with frame | apply sleep_trace | intros _].
    apply preserves_bind; [eauto with frame | apply post_trace | intros r].
    destruct r as [c ra j | e]; [| frame_leaf].
    destruct (c =? 200).
    + destruct j as [[len |] |]; frame_leaf.
    + destruct (c =? 429).
      * frame_bind wt.
        apply preserves_bind; [eauto with frame | apply sleep_trace | intros _].
        frame_leaf.
      * apply preserves_bind; [eauto with frame | apply sleep_trace | intros _].
        frame_leaf.
  - apply preserves_bind; [eauto with frame | apply sleep_trace | intros _].
    frame_leaf.
Qed.

Lemma query_filter_trace (f : string) (b : nat) :
  preserves (trace_adds P) (query_filter b n kecamatan f).
Proof.
  induction b as [| b IH]; simpl; [frame_leaf |].
  apply preserves_bind; [eauto with frame | apply turn_trace | intros r].
  destruct r; [frame_leaf | exact IH].
Qed.

Lemma query_filters_trace (fs : list string) (b : nat) (t : Z) :
  preserves (trace_adds P) (query_filters b n kecamatan fs t).
Proof.
  revert b t. induction fs as [| f fs IH]; intros b t; simpl; [frame_leaf |].
  apply preserves_bind; [eauto with frame | apply query_filter_trace | intros r].
  destruct (snd r); [frame_leaf | apply IH].
Qed.

Lemma query_categories_trace (qs : list (string * list string)) (b : nat)
    (results : doc) :
  preserves (trace_adds P) (query_categories b n kecamatan qs results).
Proof.
  revert b results. induction qs as [| [cat fs] qs IH]; intros b results;
    simpl; [frame_leaf |].
  apply preserves_bind; [eauto with frame | apply query_filters_trace | intros r].
  destruct r as [[t b'] |]; [apply IH | frame_leaf].
Qed.

Lemma run_kecamatan_trace :
  preserves (trace_adds P) (run_kecamatan ft n kecamatan).
Proof.
  unfold run_kecamatan, facility_exists.
  frame_bind found. destruct found; [frame_leaf |].
  apply preserves_bind; [eauto with frame | | intros r].
  - unfold get_facilities_count.
    apply preserves_bind;
      [eauto with frame | apply query_categories_trace | intros r].
    destruct r; frame_leaf.
  - destruct r as [[| kv f] |]; try frame_leaf.
    apply preserves_bind; [eauto with frame | | intros _; frame_leaf].
    intros s e He. left. revert He.
    unfold save_facilities_to_mongodb, try_except, raise, ret.
    destruct (get "kecamatan" (kv :: f)) as [v |]; [| auto].
    destruct (save_fails ft v); auto.
Qed.

End Traces.

End FacilitiesProperties.

Section FetcherRun.

Import Facilities.

Variable ft : faults.
Variable n : net.

Lemma run_loop_trace (ks l : list value) :
  (forall k, In k l -> In k ks) ->
  preserves (trace_adds (enrichment_event ks)) (run_loop ft n l).
Proof.
  induction l as [| k l IH]; simpl; intros Hsub; [frame_leaf |].
  apply preserves_bind; [eauto with frame | | intros _; apply IH; auto].
  apply run_kecamatan_trace.
  - intros z. left. eauto.
  - intros f. right. exists k, f. auto.
Qed.

Lemma field_is_int (key : string) (z : Z) (d : doc) :
  field_is key (VInt z) d = true <-> get key d = Some (VInt z).
Proof.
  unfold field_is. destruct (get key d) as [v |]; simpl.
  - rewrite value_eqb_eq. split; congruence.
  - split; discriminate.
Qed.


End FetcherRun.

(* ================================================================== *)
(** ** Re-runs                                                         *)
(* ================================================================== *)

Section ScraperReruns.

Import Scraper.

Variable ft : faults.
Variable w : web.

Lemma raw_appends_refl (Q : doc -> Prop) (s : db) : raw_appends Q s s.
Proof.
  exists []. split; [symmetry; apply app_nil_r | intros d []].
Qed.

Lemma raw_appends_trans (Q : doc -> Prop) (s1 s2 s3 : db) :
  raw_appends Q s1 s2 -> raw_appends Q s2 s3 -> raw_appends Q s1 s3.
Proof.
  intros (a1 & E1 & H1) (a2 & E2 & H2). exists (a1 ++ a2)%list. split.
  - rewrite E2, E1. symmetry. apply app_assoc.
  - intros d Hd. apply in_app_or in Hd. destruct Hd; auto.
Qed.

Lemma raw_appends_of_same_raw (Q : doc -> Prop) (A : Type) (c : M A) :
  (forall s, raw_listings (snd (c s)) = raw_listings s) ->
  preserves (raw_appends Q) c.
Proof.
  intros H s. exists []. split; [| intros d []].
  rewrite H. symmetry. apply app_nil_r.
Qed.

Lemma emit_raw_appends (Q : doc -> Prop) (e : event) :
  preserves (raw_appends Q) (emit e).
Proof. apply raw_appends_of_same_raw. reflexivity. Qed.

(** What a store appends is the batch, or the part of it that was written
    when the call failed. *)
Lemma store_to_mongodb_raw_appends (Q : doc -> Prop) (data : list doc)
    (province : string) (page : Z) :
  (forall d0, In d0 data -> Q (with_metadata w province page d0)) ->
  preserves (raw_appends Q) (store_to_mongodb ft w data province page).
Proof.
  intros HQ s. unfold store_to_mongodb.
  destruct data as [| d1 data]; [apply raw_appends_refl |].
  unfold try_except, bindM, insert_many, ret.
  destruct (store_stops ft province) as [k |]; simpl;
    (eexists; split; [reflexivity |]); intros d Hd.
  - apply In_firstn in Hd.
    change (In d (map (with_metadata w province page) (d1 :: data))) in Hd.
    apply in_map_iff in Hd. destruct Hd as (d0 & <- & H0). apply HQ, H0.
  - change (In d (map (with_metadata w province page) (d1 :: data))) in Hd.
    apply in_map_iff in Hd. destruct Hd as (d0 & <- & H0). apply HQ, H0.
Qed.

(** On a site that shows a listing under one title, a turn of the loop of
    [run] appends only records whose title is not in the dedup set. *)
Lemma run_province_raw_appends (ex : list value) (cp : Z) (province : string)
    (page : Z) :
  title_consistent w (cards_of w (search_url province page)) ->
  preserves
    (raw_appends (fun d => exists t, get "judul_iklan" d = Some (VStr t) /\
                                     known_title ex t = false))
    (run_province ft w ex cp province page).
Proof.
  intros Hcons. unfold run_province.
  destruct (negb (page =? cp)); [apply preserves_ret, raw_appends_refl |].
  apply preserves_bind_result
    with (P := fun houses =>
                 houses = candidates ex (cards_of w (search_url province page)));
    [apply raw_appends_trans | | |].
  - apply scrape_search_page_preserves;
      [apply raw_appends_refl | apply raw_appends_trans
       | apply emit_raw_appends].
  - intros s houses. apply scrape_search_page_result.
  - intros houses ->.
    destruct (candidates ex (cards_of w (search_url province page)))
      as [| h0 hs] eqn:Ec; [apply preserves_ret, raw_appends_refl |].
    rewrite <- Ec.
    eapply preserves_bind_result; [apply raw_appends_trans | | | ].
    + apply scrape_all_preserves;
        [apply raw_appends_refl | apply raw_appends_trans
         | intros h Hh; apply emit_raw_appends].
    + intros s ds. apply scrape_all_result.
    + intros ds Hds. simpl in Hds.
      destruct ds as [| d ds]; [apply preserves_ret, raw_appends_refl |].
      apply preserves_bind; [apply raw_appends_trans | | intros stored].
      * apply store_to_mongodb_raw_appends. intros d0 Hin.
        rewrite Forall_forall in Hds.
        destruct (Hds d0 Hin) as (h & pg & Hh & Hpg & Hget).
        destruct (candidates_spec _ _ _ Hh)
          as (c & t & l & Hc & Ht & Hl & Htitle & Hlink & _ & Hnew).
        rewrite Hlink in Hpg.
        rewrite (Hcons c t l pg Hc Ht Hl Hpg) in Hget. simpl in Hget.
        exists (strip t). unfold with_metadata.
        rewrite !get_set_other by discriminate.
        rewrite <- Htitle at 2. auto.
      * destruct stored; [| apply preserves_ret, raw_appends_refl].
        apply raw_appends_of_same_raw. apply update_progress_raw.
Qed.

(** On such a site, when the dedup set loads, a run appends only records
    whose title no record stored before the run bears. *)
Lemma run_appends_new_titles (s : db) :
  distinct_fails ft = false ->
  (forall province page,
     title_consistent w (cards_of w (search_url province page))) ->
  raw_appends
    (fun d => exists t, get "judul_iklan" d = Some (VStr t) /\
                        forall d0, In d0 (raw_listings s) ->
                                   get "judul_iklan" d0 <> Some (VStr t))
    s (snd (run ft w s)).
Proof.
  intros Hok Hcons. unfold run, bindM.
  assert (Hload : raw_listings (snd (load_progress ft s)) = raw_listings s).
  { unfold load_progress, try_except, bindM, read, ret, raise.
    destruct (find_progress_fails ft); [reflexivity |].
    destruct (scraping_progress s); [reflexivity |].
    destruct (insert_progress_fails ft); reflexivity. }
  destruct (load_progress ft s) as [[progress | e] s1]; simpl in Hload.
  2:{ simpl. exists []. split; [| intros d []].
      rewrite Hload. symmetry. apply app_nil_r. }
  assert (Hex : exists ex,
            fetch_existing_titles ft s1 = (Ok ex, s1) /\
            forall t, known_title ex t = false ->
                      forall d0, In d0 (raw_listings s) ->
                                 get "judul_iklan" d0 <> Some (VStr t)).
  { destruct (fetch_existing_titles_spec ft s1 "" Hok) as (ex & Eex & _).
    exists ex. split; [exact Eex |]. intros t Hnew d0 Hd0 Hget.
    destruct (fetch_existing_titles_spec ft s1 t Hok) as (ex' & Eex' & Hiff).
    rewrite Eex in Eex'. injection Eex' as <-.
    assert (Hk : known_title ex t = true).
    { apply Hiff. exists d0. split; [rewrite Hload; exact Hd0 | exact Hget]. }
    congruence. }
  destruct Hex as (ex & Eex & Hfresh). rewrite Eex.
  assert (Hloop : forall items,
            preserves
              (raw_appends (fun d => exists t,
                              get "judul_iklan" d = Some (VStr t) /\
                              known_title ex t = false))
              (run_loop ft w ex (current_page progress) items)).
  { induction items as [| [province page] rest IH]; simpl.
    - apply preserves_ret, raw_appends_refl.
    - apply preserves_bind;
        [apply raw_appends_trans | apply run_province_raw_appends, Hcons
         | intros _; exact IH]. }
  destruct (Hloop (provinces progress) s1) as (added & Eadd & Hadd).
  exists added. split; [rewrite Eadd, Hload; reflexivity |].
  intros d Hd. destruct (Hadd d Hd) as (t & Hget & Hnew).
  exists t. split; [exact Hget | apply Hfresh, Hnew].
Qed.

End ScraperReruns.

(** C7, as amended.  Idempotence of re-runs.  In a turn of the scraper for
    a region's page no candidate bears a title of the dedup set, and the
    only requests are the index page and the detail pages of the
    candidates, so no detail page is fetched for a title of the dedup set.
    When the dedup set loads and the site shows each listing under the
    same title on its index pages and on its detail page, a run started in
    any state, the state a former run left included, only appends to the
    raw listings, and appends no record bearing a title that a record
    stored before the run bears.  The dedup set, when it loads, is the set
    of the titles stored.  In the fetcher, a region that has a facility
    record is skipped: the state is left as it is, so no query is sent and
    no record is written. *)
Theorem C7_idempotent_reruns (sft : Scraper.faults) (w : Scraper.web)
    (ex : list value) (cp : Z) (province : string) (page : Z) (s : db)
    (fft : Facilities.faults) (n : Facilities.net) (k : value) (sf : db) :
  let cards := Scraper.cards_of w (Scraper.search_url province page) in
  let s' := snd (Scraper.run_province sft w ex cp province page s) in
  (forall h, In h (Scraper.candidates ex cards) ->
             Scraper.known_title ex (Scraper.judul_iklan h) = false) /\
  (forall e,
     In e (trace s') ->
     In e (trace s) \/
     e = HttpGet (Scraper.search_url province page) \/
     exists h, In h (Scraper.candidates ex cards) /\
               e = HttpGet (Scraper.link h)) /\
  (Scraper.distinct_fails sft = false ->
   (forall province0 page0,
      Scraper.title_consistent w
        (Scraper.cards_of w (Scraper.search_url province0 page0))) ->
   exists added,
     raw_listings (snd (Scraper.run sft w s)) = (raw_listings s ++ added)%list /\
     forall d, In d added ->
       exists t, get "judul_iklan" d = Some (VStr t) /\
                 forall d0, In d0 (raw_listings s) ->
                            get "judul_iklan" d0 <> Some (VStr t)) /\
  (Scraper.distinct_fails sft = false ->
   forall t, exists ex0,
     Scraper.fetch_existing_titles sft s = (Ok ex0, s) /\
     (Scraper.known_title ex0 t = true <->
      exists d, In d (raw_listings s) /\ get "judul_iklan" d = Some (VStr t))) /\
  (existsb (field_is "kecamatan" k) (facilities sf) = true ->
   snd (Facilities.run_kecamatan fft n k sf) = sf).
Proof.
  intros cards s'.
  split.
  { intros h Hh. destruct (candidates_spec _ _ _ Hh)
      as (c & t & l & _ & _ & _ & _ & _ & _ & Hnew). exact Hnew. }
  split.
  { intros e He.
    apply (run_province_trace sft w ex cp province page s e) in He. tauto. }
  split.
  { intros Hok Hcons. apply (run_appends_new_titles sft w s Hok Hcons). }
  split.
  { intros Hok t. apply fetch_existing_titles_spec, Hok. }
  apply run_kecamatan_skips.
Qed.

(** C7, the claim as written fails: the dedup set loads, the source does
    not change, and the second run stores again the listing the first run
    stored.  The site shows the listing under a longer title on its index
    pages than on its detail page; the title stored is that of the detail
    page, the title looked up in the dedup set that of the index page. *)
Lemma C7_second_run_stores_the_listing_again :
  let ft := Sample.scraper_faults false false None false in
  let s1 := snd (Scraper.run ft Sample.web2 Sample.db1) in
  let s2 := snd (Scraper.run ft Sample.web2 s1) in
  let stored := fun s =>
    List.length (filter (field_is "judul_iklan" (VStr "Rumah A"))
                        (raw_listings s)) in
  Scraper.distinct_fails ft = false /\
  fst (Scraper.run ft Sample.web2 Sample.db1) = Ok tt /\
  fst (Scraper.run ft Sample.web2 s1) = Ok tt /\
  stored s1 = 3%nat /\
  stored s2 = 5%nat /\
  List.length (raw_listings s2) = (List.length (raw_listings s1) + 2)%nat.
Proof.
  vm_compute. repeat split.
Qed.

Lemma sample_site_title_consistent (url : string) :
  Scraper.title_consistent Sample.web1 (Scraper.cards_of Sample.web1 url).
Proof.
  intros c t l pg [<- | []] [= <-] _ [= <-]. reflexivity.
Qed.

Lemma C7_witness :
  (exists added,
     raw_listings
       (snd (Scraper.run (Sample.scraper_faults false false None false)
               Sample.web1 Sample.db1))
     = (raw_listings Sample.db1 ++ added)%list /\
     forall d, In d added ->
       exists t, get "judul_iklan" d = Some (VStr t) /\
                 forall d0, In d0 (raw_listings Sample.db1) ->
                            get "judul_iklan" d0 <> Some (VStr t)) /\
  (exists ex0,
     Scraper.fetch_existing_titles
       (Sample.scraper_faults false false None false) Sample.db1
     = (Ok ex0, Sample.db1) /\
     (Scraper.known_title ex0 "Rumah A" = true <->
      exists d, In d (raw_listings Sample.db1) /\
                get "judul_iklan" d = Some (VStr "Rumah A"))) /\
  snd (Facilities.run_kecamatan Sample.fetcher_faults Sample.net500
         (VStr "Kuta") Sample.db2) = Sample.db2.
Proof.
  destruct (C7_idempotent_reruns
              (Sample.scraper_faults false false None false) Sample.web1
              [VStr "Rumah A"] 1 "bali" 1 Sample.db1
              Sample.fetcher_faults Sample.net500 (VStr "Kuta") Sample.db2)
    as (_ & _ & Hrun & Hset & Hskip).
  split.
  { apply Hrun; [reflexivity |].
    intros province0 page0. apply sample_site_title_consistent. }
  split; [apply Hset; reflexivity | apply Hskip; reflexivity].
Defined.



(* ================================================================== *)
(** ** Texts: stripping, prices and locations                          *)
(* ================================================================== *)

Section TextProperties.

Lemma lstrip_head (s r : list ascii) (c : ascii) :
  lstrip s = c :: r -> is_space c = false.
Proof.
  induction s as [| x s IH]; simpl; [discriminate |].
  destruct (is_space x) eqn:Ex; [exact IH |].
  intros [= <- <-]. exact Ex.
Qed.

Lemma lstrip_fixed (s : list ascii) :
  match s with
  | [] => True
  | c :: _ => is_space c = false
  end -> lstrip s = s.
Proof.
  destruct s as [| c s]; simpl; [reflexivity |].
  intros ->. reflexivity.
Qed.

(** What [lstrip] removes is white space. *)
Lemma lstrip_split (s : list ascii) :
  exists sp, s = (sp ++ lstrip s)%list /\ forallb is_space sp = true.
Proof.
  induction s as [| x s (sp & Hs & Hsp)]; simpl.
  - exists []. split; reflexivity.
  - destruct (is_space x) eqn:Ex.
    + exists (x :: sp). simpl. rewrite Ex, Hsp. split; [congruence | reflexivity].
    + exists []. split; reflexivity.
Qed.

Lemma lstrip_spaces (s : list ascii) :
  forallb is_space s = true -> lstrip s = [].
Proof.
  induction s as [| x s IH]; simpl; [reflexivity |].
  destruct (is_space x); simpl; [exact IH | discriminate].
Qed.

Lemma forallb_rev (A : Type) (f : A -> bool) (l : list A) :
  forallb f (rev l) = forallb f l.
Proof.
  induction l as [| x l IH]; simpl; [reflexivity |].
  rewrite forallb_app, IH. simpl. rewrite andb_true_r. apply andb_comm.
Qed.

(** The text [strip_chars] returns starts with no white space. *)
Lemma strip_chars_head (s r : list ascii) (c : ascii) :
  strip_chars s = c :: r -> is_space c = false.
Proof.
  unfold strip_chars. intros H.
  destruct (lstrip_split (rev (lstrip s))) as (sp & Hs & _).
  apply (f_equal (@rev ascii)) in Hs. rewrite rev_involutive, rev_app_distr in Hs.
  rewrite H in Hs. simpl in Hs.
  apply (lstrip_head s (r ++ rev sp)%list c). exact Hs.
Qed.

(** ... and ends with none. *)
Lemma strip_chars_last (s r : list ascii) (c : ascii) :
  rev (strip_chars s) = c :: r -> is_space c = false.
Proof.
  unfold strip_chars. rewrite rev_involutive. apply lstrip_head.
Qed.

Lemma strip_chars_fixed (s : list ascii) :
  strip_chars (strip_chars s) = strip_chars s.
Proof.
  unfold strip_chars at 1.
  rewrite (lstrip_fixed (strip_chars s)).
  - rewrite (lstrip_fixed (rev (strip_chars s))); [apply rev_involutive |].
    destruct (rev (strip_chars s)) as [| c r] eqn:E; [exact I |].
    apply (strip_chars_last s r c E).
  - destruct (strip_chars s) as [| c r] eqn:E; [exact I |].
    apply (strip_chars_head s r c E).
Qed.

Lemma strip_fixed (s : string) : strip (strip s) = strip s.
Proof.
  unfold strip. rewrite list_ascii_of_string_of_list_ascii.
  rewrite strip_chars_fixed. reflexivity.
Qed.

Lemma strip_spaces (s : string) :
  forallb is_space (list_ascii_of_string s) = true -> strip s = "".
Proof.
  intros H. unfold strip, strip_chars.
  rewrite (lstrip_spaces _ H). reflexivity.
Qed.

Lemma digit_val_nonneg (c : ascii) : is_digit c = true -> 0 <= digit_val c.
Proof.
  unfold is_digit, digit_val. cbv zeta. intros H. apply andb_true_iff in H.
  destruct H as [H _]. apply Nat.leb_le in H.
  apply Nat2Z.inj_le in H. change (Z.of_nat 48) with 48 in H. lia.
Qed.

Lemma digits_val_nonneg (ds : list ascii) :
  forallb is_digit ds = true -> 0 <= digits_val ds.
Proof.
  unfold digits_val.
  assert (H : forall acc, 0 <= acc -> forallb is_digit ds = true ->
                          0 <= fold_left (fun a c => 10 * a + digit_val c) ds acc).
  { induction ds as [| c ds IH]; cbn [fold_left forallb];
      intros acc Hacc Hd; [exact Hacc |].
    apply andb_true_iff in Hd. destruct Hd as [Hc Hd].
    apply IH; [| exact Hd]. pose proof (digit_val_nonneg c Hc). lia. }
  apply H. lia.
Qed.

Lemma forallb_filter_same (A : Type) (f : A -> bool) (l : list A) :
  forallb f (filter f l) = true.
Proof.
  induction l as [| x l IH]; simpl; [reflexivity |].
  destruct (f x) eqn:E; simpl; [rewrite E; exact IH | exact IH].
Qed.

Lemma filter_filter_same (A : Type) (f : A -> bool) (l : list A) :
  filter f (filter f l) = filter f l.
Proof.
  induction l as [| x l IH]; simpl; [reflexivity |].
  destruct (f x) eqn:E; simpl; [rewrite E, IH; reflexivity | exact IH].
Qed.

Section PriceText.

Variable todecimal : N -> option nat.

Lemma decimals_val_nonneg (ds : list N) :
  0 <= Scraper.decimals_val todecimal ds.
Proof.
  unfold Scraper.decimals_val.
  assert (H : forall acc, 0 <= acc ->
            0 <= fold_left
                   (fun a c => 10 * a + Scraper.decimal_val todecimal c) ds acc).
  { induction ds as [| c ds IH]; cbn [fold_left]; intros acc Hacc;
      [exact Hacc |].
    apply IH. unfold Scraper.decimal_val.
    destruct (todecimal c); lia. }
  apply H. lia.
Qed.

Lemma clean_price_digits (t : list N) :
  Scraper.clean_price todecimal (Some t)
  = match filter (Scraper.is_decimal todecimal) t with
    | [] => None
    | (_ :: _) as ds =>
        if Nat.ltb 4300 (List.length ds) then None
        else Some (Scraper.decimals_val todecimal ds)
    end.
Proof.
  destruct t as [| c t]; [reflexivity |].
  unfold Scraper.clean_price. cbv zeta.
  destruct (filter (Scraper.is_decimal todecimal) (c :: t)); reflexivity.
Qed.

(** X1.  The scraper's [clean_price] reads the decimal digits of the text,
    of whatever script, as one number and nothing else of it: the text and
    its decimal digits alone give the same price; a text without a decimal
    digit gives no price; a price is never negative; and a text of more
    than 4300 decimal digits gives no price. *)
Theorem X1_scraper_clean_price_reads_digits (s : list N) :
  Scraper.clean_price todecimal (Some s)
  = Scraper.clean_price todecimal
      (Some (filter (Scraper.is_decimal todecimal) s)) /\
  (filter (Scraper.is_decimal todecimal) s = [] ->
   Scraper.clean_price todecimal (Some s) = None) /\
  (forall z, Scraper.clean_price todecimal (Some s) = Some z -> 0 <= z) /\
  ((4300 < List.length (filter (Scraper.is_decimal todecimal) s))%nat ->
   Scraper.clean_price todecimal (Some s) = None).
Proof.
  split.
  { rewrite !clean_price_digits, filter_filter_same. reflexivity. }
  split.
  { intros H. rewrite clean_price_digits, H. reflexivity. }
  split.
  { intros z. rewrite clean_price_digits.
    destruct (filter (Scraper.is_decimal todecimal) s) as [| c ds];
      [discriminate |].
    cbv zeta.
    match goal with
    | |- context [if ?b then _ else _] => destruct b
    end; [discriminate |].
    intros [= <-]. apply decimals_val_nonneg. }
  intros H. rewrite clean_price_digits.
  destruct (filter (Scraper.is_decimal todecimal) s) as [| c ds] eqn:E;
    [reflexivity |].
  apply Nat.ltb_lt in H. cbv beta iota zeta. rewrite H. reflexivity.
Qed.

End PriceText.

Lemma split_on_nonempty (c : ascii) (s : list ascii) : Scraper.split_on c s <> [].
Proof.
  destruct s as [| x s]; simpl; [discriminate |].
  destruct (Ascii.eqb x c); [discriminate |].
  destruct (Scraper.split_on c s); discriminate.
Qed.

Lemma split_on_without (c : ascii) (s : list ascii) :
  existsb (fun x => Ascii.eqb x c) s = false -> Scraper.split_on c s = [s].
Proof.
  induction s as [| x s IH]; simpl; [reflexivity |].
  destruct (Ascii.eqb x c); simpl; [discriminate |].
  intros H. rewrite (IH H). reflexivity.
Qed.

Lemma split_on_with (c : ascii) (s : list ascii) :
  existsb (fun x => Ascii.eqb x c) s = true ->
  exists p q r, Scraper.split_on c s = p :: q :: r.
Proof.
  induction s as [| x s IH]; simpl; [discriminate |].
  destruct (Ascii.eqb x c); simpl.
  - intros _. pose proof (split_on_nonempty c s) as Hne.
    destruct (Scraper.split_on c s) as [| q r]; [contradiction | eauto].
  - intros H. destruct (IH H) as (p & q & r & ->). eauto.
Qed.

(** X2.  The location fields of a detail page: the kecamatan is absent
    exactly when the location paragraph is absent or empty, and the
    kabupaten is absent exactly when the paragraph is absent or has no
    comma. *)
Theorem X2_location_fields_absent (location_text : option string) :
  (Scraper.kecamatan_of location_text = VNone
   <-> location_text = None \/ location_text = Some "") /\
  (Scraper.kabupaten_of location_text = VNone
   <-> location_text = None \/
       exists s, location_text = Some s /\
                 existsb (fun x => Ascii.eqb x ",") (list_ascii_of_string s)
                 = false).
Proof.
  destruct location_text as [s |]; [| split; split; auto].
  destruct (String.eqb_spec s "") as [-> | Hne].
  { split; split; auto. intros _. right. exists "". auto. }
  assert (Hkec : Scraper.kecamatan_of (Some s)
                 = match Scraper.split_on "," (list_ascii_of_string s) with
                   | p :: _ => Scraper.strip_part p
                   | [] => VNone
                   end).
  { destruct s; [contradiction | reflexivity]. }
  assert (Hkab : Scraper.kabupaten_of (Some s)
                 = match Scraper.split_on "," (list_ascii_of_string s) with
                   | (_ :: _ :: _) as parts =>
                       Scraper.strip_part (last parts [])
                   | _ => VNone
                   end).
  { destruct s; [contradiction | reflexivity]. }
  rewrite Hkec, Hkab. clear Hkec Hkab. split.
  - pose proof (split_on_nonempty "," (list_ascii_of_string s)) as Hsp.
    destruct (Scraper.split_on "," (list_ascii_of_string s)) as [| p ps];
      [contradiction |].
    split; [discriminate |].
    intros [H | [= H]]; [discriminate | contradiction].
  - destruct (existsb (fun x => Ascii.eqb x ",") (list_ascii_of_string s))
      eqn:Ex.
    + destruct (split_on_with _ _ Ex) as (p & q & r & E). rewrite E.
      split; [discriminate |].
      intros [H | (s0 & [= <-] & H)]; [discriminate | congruence].
    + rewrite (split_on_without _ _ Ex). split; [| reflexivity].
      intros _. right. exists s. split; [reflexivity | exact Ex].
Qed.

End TextProperties.

Lemma X1_witness :
  Scraper.clean_price Sample.two_scripts (Some [82; 112]%N) = None /\
  Scraper.clean_price Sample.two_scripts (Some Sample.price_text) = Some 123 /\
  0 <= 123 /\
  Scraper.clean_price Sample.two_scripts (Some (repeat 49%N 4301)) = None.
Proof.
  destruct (X1_scraper_clean_price_reads_digits Sample.two_scripts
              [82; 112]%N) as (_ & Hnone & _).
  destruct (X1_scraper_clean_price_reads_digits Sample.two_scripts
              Sample.price_text) as (_ & _ & Hpos & _).
  destruct (X1_scraper_clean_price_reads_digits Sample.two_scripts
              (repeat 49%N 4301)) as (_ & _ & _ & Hlong).
  split; [apply Hnone; reflexivity |].
  split; [vm_compute; reflexivity |].
  split; [apply Hpos; vm_compute; reflexivity |].
  apply Hlong. vm_compute. lia.
Defined.

Lemma X2_witness :
  Scraper.kecamatan_of (Some "") = VNone /\
  Scraper.kabupaten_of (Some "Kuta") = VNone.
Proof.
  destruct (X2_location_fields_absent (Some "")) as [[_ Hkec] _].
  destruct (X2_location_fields_absent (Some "Kuta")) as [_ [_ Hkab]].
  split.
  - apply Hkec. right. reflexivity.
  - apply Hkab. right. exists "Kuta". split; reflexivity.
Defined.

(* ================================================================== *)
(** ** The cleaning stage on a well-formed batch                       *)
(* ================================================================== *)

Section CleaningMore.

Import DataCleaning.

Variable repr_float : pyfloat -> string.

(** X3.  [clean_string] returns the absent value or a text without white
    space at either end; a non-empty text made of white space only is
    cleaned to the empty text, not to the absent value. *)
Theorem X3_clean_string_trims (v : value) (s : string) :
  (clean_string repr_float v = Ok VNone \/
   exists t, clean_string repr_float v = Ok (VStr t) /\ strip t = t) /\
  (s <> "" -> forallb is_space (list_ascii_of_string s) = true ->
   clean_string repr_float (VStr s) = Ok (VStr "")).
Proof.
  split.
  - unfold clean_string.
    destruct (isna v || is_None v || eq_empty v); simpl; [left; reflexivity |].
    right. eexists. split; [reflexivity | apply strip_fixed].
  - intros Hne Hsp. unfold clean_string. simpl.
    destruct (String.eqb_spec s ""); [contradiction |]. simpl.
    rewrite (strip_spaces s Hsp). reflexivity.
Qed.

Lemma first_seen_In (k : string) (l seen : list string) :
  In k (first_seen seen l)
  <-> In k l /\ existsb (String.eqb k) seen = false.
Proof.
  revert seen. induction l as [| x l IH]; intros seen; simpl.
  - tauto.
  - destruct (existsb (String.eqb x) seen) eqn:Ex.
    + rewrite IH. split.
      * intros [H1 H2]. auto.
      * intros [[-> | H1] H2]; [congruence | auto].
    + simpl. rewrite IH. simpl. rewrite orb_false_iff. split.
      * intros [<- | [H1 [H2 H3]]]; auto.
      * intros [[-> | H1] H2]; [auto |].
        destruct (String.eqb_spec k x) as [-> | Hkx]; [auto |].
        right. auto.
Qed.

Lemma get_None_iff (k : string) (d : doc) :
  get k d = None <-> ~ In k (map fst d).
Proof.
  induction d as [| [k' v] d IH]; simpl; [tauto |].
  destruct (String.eqb_spec k k') as [-> | Hne].
  - split; [discriminate | intros H; exfalso; apply H; auto].
  - rewrite IH. split.
    + intros H [E | Hin]; [congruence | auto].
    + intros H Hin. apply H. auto.
Qed.

Lemma has_column_In (col : string) (df : DataFrame) :
  has_column col df = true <-> In col (columns df).
Proof.
  unfold has_column. rewrite existsb_exists. split.
  - intros (x & Hx & E). apply String.eqb_eq in E. subst x. exact Hx.
  - intros H. exists col. split; [exact H | apply String.eqb_refl].
Qed.

(** The columns of a frame are the fields of its documents. *)
Lemma has_column_DataFrame_of (col : string) (docs : list doc) :
  has_column col (DataFrame_of docs) = true
  <-> exists d, In d docs /\ get col d <> None.
Proof.
  rewrite has_column_In. unfold DataFrame_of. simpl.
  rewrite first_seen_In. simpl. rewrite in_concat. split.
  - intros [(ks & Hks & Hk) _]. apply in_map_iff in Hks.
    destruct Hks as (d & <- & Hd). exists d. split; [exact Hd |].
    rewrite get_None_iff. tauto.
  - intros (d & Hd & Hget). split; [| reflexivity].
    exists (map fst d). split; [apply in_map, Hd |].
    destruct (in_dec string_dec col (map fst d)) as [Hin | Hnin];
      [exact Hin |].
    exfalso. apply Hget, get_None_iff, Hnin.
Qed.

(** X4.  What a structurally missing column is: a required column is
    missing from the frame built from a batch exactly when no document of
    the batch has the field; a field that some document holds, as null or
    otherwise, is a column of the frame. *)
Theorem X4_missing_column_is_field_of_no_document (required : list string)
    (docs : list doc) :
  missing_required required (DataFrame_of docs) = true
  <-> exists col, In col required /\ forall d, In d docs -> get col d = None.
Proof.
  unfold missing_required. rewrite existsb_exists. split.
  - intros (col & Hcol & Hneg). exists col. split; [exact Hcol |].
    intros d Hd. destruct (get col d) as [v |] eqn:E; [| reflexivity].
    exfalso. apply negb_true_iff in Hneg.
    assert (Hc : has_column col (DataFrame_of docs) = true).
    { apply has_column_DataFrame_of. exists d. split; [exact Hd | congruence]. }
    congruence.
  - intros (col & Hcol & Hnone). exists col. split; [exact Hcol |].
    apply negb_true_iff.
    destruct (has_column col (DataFrame_of docs)) eqn:E; [| reflexivity].
    apply has_column_DataFrame_of in E. destruct E as (d & Hd & Hget).
    exfalso. apply Hget, Hnone, Hd.
Qed.

End CleaningMore.

Lemma X3_witness :
  DataCleaning.clean_string Sample.repr0 (VStr "  ") = Ok (VStr "").
Proof.
  apply (X3_clean_string_trims Sample.repr0 VNone "  ");
    [discriminate | reflexivity].
Defined.

Lemma X4_witness :
  exists col, In col DataCleaning.listing_required_columns /\
              forall d, In d [[("judul_iklan", VStr "Rumah A")]] ->
                        get col d = None.
Proof.
  apply (X4_missing_column_is_field_of_no_document
           DataCleaning.listing_required_columns
           [[("judul_iklan", VStr "Rumah A")]]).
  reflexivity.
Defined.

Section CleaningShape.

Import DataCleaning.

Variable repr_float : pyfloat -> string.

Lemma keeps_shape_refl (cleaned : list string) (df : DataFrame) :
  keeps_shape cleaned df df.
Proof. repeat split. Qed.

Lemma keeps_shape_trans (cleaned : list string) (df1 df2 df3 : DataFrame) :
  keeps_shape cleaned df1 df2 -> keeps_shape cleaned df2 df3 ->
  keeps_shape cleaned df1 df3.
Proof.
  intros (H1 & H2 & H3) (H1' & H2' & H3'). repeat split; try congruence.
  intros k Hk. rewrite (H3' k Hk). apply H3, Hk.
Qed.

Lemma apply_cell_ok (f : value -> result value) (col : string) (d : doc) :
  (forall v, exists r, f v = Ok r) ->
  exists d', apply_cell f col d = Ok d' /\
             map fst d' = map fst d /\
             forall k, k <> col -> get k d' = get k d.
Proof.
  intros Hf. unfold apply_cell.
  induction d as [| [k0 v0] d (d' & E & Hk & Hg)]; simpl.
  - exists []. repeat split.
  - rewrite E. destruct (String.eqb_spec k0 col) as [-> | Hne]; simpl.
    + destruct (Hf v0) as [r ->]. simpl. eexists. split; [reflexivity |].
      split; [simpl; congruence |].
      intros k Hkc. simpl. destruct (String.eqb_spec k col);
        [contradiction | apply Hg, Hkc].
    + eexists. split; [reflexivity |]. split; [simpl; congruence |].
      intros k Hkc. simpl. rewrite (Hg k Hkc). reflexivity.
Qed.

Lemma apply_column_ok (cleaned : list string) (f : value -> result value)
    (col : string) (df : DataFrame) :
  (forall v, exists r, f v = Ok r) ->
  In col cleaned -> has_column col df = true ->
  exists df', apply_column f col df = Ok df' /\ keeps_shape cleaned df df'.
Proof.
  intros Hf Hin Hc. unfold apply_column. rewrite Hc.
  assert (H : exists rs, map_result (apply_cell f col) (records df) = Ok rs /\
                         map (map fst) rs = map (map fst) (records df) /\
                         forall k, k <> col ->
                                   map (get k) rs = map (get k) (records df)).
  { induction (records df) as [| d ds (rs & E & Hk & Hg)]; simpl.
    - exists []. repeat split.
    - destruct (apply_cell_ok f col d Hf) as (d' & -> & Hk' & Hg').
      simpl. rewrite E. simpl. eexists. split; [reflexivity |].
      split; [simpl; congruence |].
      intros k Hkc. simpl. rewrite (Hg' k Hkc), (Hg k Hkc). reflexivity. }
  destruct H as (rs & -> & Hk & Hg). simpl. eexists. split; [reflexivity |].
  split; [reflexivity |]. split; [exact Hk |].
  intros k Hk'. apply Hg. intros ->. contradiction.
Qed.

Lemma apply_columns_ok (cleaned : list string) (f : value -> result value)
    (cols : list string) (df : DataFrame) :
  (forall v, exists r, f v = Ok r) ->
  (forall c, In c cols -> In c cleaned /\ has_column c df = true) ->
  exists df', apply_columns f cols df = Ok df' /\ keeps_shape cleaned df df'.
Proof.
  intros Hf. revert df. induction cols as [| c cols IH]; intros df Hcols; simpl.
  - exists df. split; [reflexivity | apply keeps_shape_refl].
  - destruct (Hcols c (or_introl eq_refl)) as [Hin Hc].
    destruct (apply_column_ok cleaned f c df Hf Hin Hc) as (df1 & -> & Hs1).
    simpl. destruct (IH df1) as (df2 & E & Hs2).
    + intros c' Hc'. destruct (Hcols c' (or_intror Hc')) as [Hin' Hc''].
      split; [exact Hin' |]. unfold has_column in *.
      destruct Hs1 as (-> & _). exact Hc''.
    + exists df2. split; [exact E | eapply keeps_shape_trans; eauto].
Qed.

Lemma missing_required_false (required : list string) (df : DataFrame)
    (col : string) :
  missing_required required df = false -> In col required ->
  has_column col df = true.
Proof.
  unfold missing_required. intros H Hin.
  destruct (has_column col df) eqn:E; [reflexivity |].
  assert (Hex : existsb (fun c => negb (has_column c df)) required = true).
  { apply existsb_exists. exists col. rewrite E. auto. }
  congruence.
Qed.

Lemma check_required_present (required : list string) (df : DataFrame) :
  missing_required required df = false ->
  check_required required df = Ok tt.
Proof.
  induction required as [| col rest IH]; simpl; intros H; [reflexivity |].
  destruct (has_column col df); simpl in H; [auto | discriminate].
Qed.

Lemma subset_of_required (cols required : list string) (c : string) :
  forallb (fun x => existsb (String.eqb x) required) cols = true ->
  In c cols -> In c required.
Proof.
  intros H Hc. rewrite forallb_forall in H. specialize (H c Hc).
  apply existsb_exists in H. destruct H as (x & Hx & E).
  apply String.eqb_eq in E. subst x. exact Hx.
Qed.

Lemma clean_string_returns (v : value) :
  exists r, clean_string repr_float v = Ok r.
Proof. apply or_None_returns. Qed.

Lemma has_column_kept (cleaned : list string) (dfa dfb : DataFrame)
    (c : string) :
  keeps_shape cleaned dfa dfb -> has_column c dfa = true ->
  has_column c dfb = true.
Proof.
  intros (Hc & _) H. unfold has_column in *. rewrite Hc. exact H.
Qed.

(** The listings are cleaned whenever no required column is missing. *)
Lemma clean_rumah123_data_ok (df : DataFrame) :
  missing_required listing_required_columns df = false ->
  exists df', clean_rumah123_data repr_float df = Ok df' /\
              keeps_shape cleaned_listing_columns df df'.
Proof.
  intros Hm. unfold clean_rumah123_data.
  rewrite (check_required_present _ _ Hm). cbn [bind].
  assert (Hreq : forall c, In c listing_required_columns ->
                           has_column c df = true).
  { intros c. apply missing_required_false, Hm. }
  destruct (apply_column_ok cleaned_listing_columns clean_price "harga" df)
    as (df1 & -> & S1);
    [intros v; apply or_None_returns | left; reflexivity
     | apply Hreq; vm_compute; tauto |].
  cbn [bind].
  destruct (apply_columns_ok cleaned_listing_columns
              (fun x => clean_numeric x "int") numeric_int_columns df1)
    as (df2 & -> & S2).
  { intros v. apply or_None_returns. }
  { intros c Hc. split.
    - unfold cleaned_listing_columns. right. apply in_or_app. left. exact Hc.
    - apply (has_column_kept _ df df1 c S1), Hreq.
      apply (subset_of_required numeric_int_columns); [reflexivity | exact Hc]. }
  cbn [bind].
  destruct (apply_columns_ok cleaned_listing_columns
              (fun x => clean_numeric x "float") numeric_float_columns df2)
    as (df3 & -> & S3).
  { intros v. apply or_None_returns. }
  { intros c Hc. split.
    - unfold cleaned_listing_columns. right. apply in_or_app. right.
      apply in_or_app. left. exact Hc.
    - apply (has_column_kept _ df1 df2 c S2), (has_column_kept _ df df1 c S1), Hreq.
      apply (subset_of_required numeric_float_columns); [reflexivity | exact Hc]. }
  cbn [bind].
  destruct (apply_columns_ok cleaned_listing_columns
              (clean_string repr_float) string_columns df3)
    as (df4 & -> & S4).
  { apply clean_string_returns. }
  { intros c Hc. split.
    - unfold cleaned_listing_columns. right. apply in_or_app. right.
      apply in_or_app. right. exact Hc.
    - apply (has_column_kept _ df2 df3 c S3), (has_column_kept _ df1 df2 c S2),
        (has_column_kept _ df df1 c S1), Hreq.
      apply (subset_of_required string_columns); [reflexivity | exact Hc]. }
  cbn [bind]. exists df4. split; [reflexivity |].
  eapply keeps_shape_trans; [exact S1 |].
  eapply keeps_shape_trans; [exact S2 |].
  eapply keeps_shape_trans; [exact S3 | exact S4].
Qed.

(** The facility records are cleaned whenever no required column is
    missing. *)
Lemma clean_osm_facilities_data_ok (df : DataFrame) :
  missing_required facility_required_columns df = false ->
  exists df', clean_osm_facilities_data repr_float df = Ok df' /\
              keeps_shape facility_required_columns df df'.
Proof.
  intros Hm. unfold clean_osm_facilities_data.
  rewrite (check_required_present _ _ Hm). cbn [bind].
  assert (Hreq : forall c, In c facility_required_columns ->
                           has_column c df = true).
  { intros c. apply missing_required_false, Hm. }
  destruct (apply_columns_ok facility_required_columns
              (fun x => clean_numeric x "int")
              (filter (fun col => negb (String.eqb col "kecamatan"))
                      facility_required_columns) df)
    as (df1 & E1 & S1).
  { intros v. apply or_None_returns. }
  { intros c Hc. apply filter_In in Hc. destruct Hc as [Hc _].
    split; [exact Hc | apply Hreq, Hc]. }
  rewrite E1. cbn [bind].
  destruct (apply_column_ok facility_required_columns
              (clean_string repr_float) "kecamatan" df1)
    as (df2 & -> & S2);
    [apply clean_string_returns | left; reflexivity | |].
  { apply (has_column_kept _ df df1 _ S1), Hreq. left. reflexivity. }
  cbn [bind]. exists df2. split; [reflexivity |].
  eapply keeps_shape_trans; eauto.
Qed.

(** X5.  The schema check is the only way cleaning fails: the listings of
    a frame are cleaned exactly when no required column is missing, and so
    are the facility records; the cleaned frame has the columns, the rows
    and the fields of the frame it was given, and every cell outside the
    cleaned columns (the title, the page, the province) is as it was. *)
Theorem X5_cleaning_succeeds_and_keeps_shape (df : DataFrame) :
  (missing_required listing_required_columns df = false <->
   exists df', clean_rumah123_data repr_float df = Ok df') /\
  (missing_required facility_required_columns df = false <->
   exists df', clean_osm_facilities_data repr_float df = Ok df') /\
  (forall df', clean_rumah123_data repr_float df = Ok df' ->
               keeps_shape cleaned_listing_columns df df') /\
  (forall df', clean_osm_facilities_data repr_float df = Ok df' ->
               keeps_shape facility_required_columns df df').
Proof.
  split; [| split; [| split]].
  - split.
    + intros H. destruct (clean_rumah123_data_ok df H) as (df' & E & _). eauto.
    + intros [df' E].
      destruct (missing_required listing_required_columns df) eqn:Hm;
        [| reflexivity].
      destruct (clean_rumah123_data_missing repr_float df Hm) as [msg E'].
      congruence.
  - split.
    + intros H. destruct (clean_osm_facilities_data_ok df H) as (df' & E & _).
      eauto.
    + intros [df' E].
      destruct (missing_required facility_required_columns df) eqn:Hm;
        [| reflexivity].
      destruct (clean_osm_facilities_data_missing repr_float df Hm) as [msg E'].
      congruence.
  - intros df' E.
    destruct (missing_required listing_required_columns df) eqn:Hm.
    + destruct (clean_rumah123_data_missing repr_float df Hm) as [msg E'].
      congruence.
    + destruct (clean_rumah123_data_ok df Hm) as (df'' & E' & S).
      congruence.
  - intros df' E.
    destruct (missing_required facility_required_columns df) eqn:Hm.
    + destruct (clean_osm_facilities_data_missing repr_float df Hm) as [msg E'].
      congruence.
    + destruct (clean_osm_facilities_data_ok df Hm) as (df'' & E' & S).
      congruence.
Qed.

End CleaningShape.

Lemma X5_witness :
  (exists df', DataCleaning.clean_rumah123_data Sample.repr0
                 (DataCleaning.DataFrame_of (raw_listings Sample.db1)) = Ok df') /\
  (exists df', DataCleaning.clean_osm_facilities_data Sample.repr0
                 (DataCleaning.DataFrame_of [Sample.facility (VStr "Kuta")])
               = Ok df') /\
  DataCleaning.missing_required DataCleaning.listing_required_columns
    (DataCleaning.DataFrame_of (raw_listings Sample.db1)) = false.
Proof.
  destruct (X5_cleaning_succeeds_and_keeps_shape Sample.repr0
              (DataCleaning.DataFrame_of (raw_listings Sample.db1)))
    as ([Hl Hl'] & _ & _ & _).
  destruct (X5_cleaning_succeeds_and_keeps_shape Sample.repr0
              (DataCleaning.DataFrame_of [Sample.facility (VStr "Kuta")]))
    as (_ & [Hf _] & _ & _).
  split; [apply Hl; reflexivity |].
  split; [apply Hf; reflexivity |].
  apply Hl', Hl. reflexivity.
Defined.

(* ================================================================== *)
(** ** A completed page of the cleaner                                 *)
(* ================================================================== *)

Section CompletedPage.

Import DataCleaning.

Variable repr_float : pyfloat -> string.

Lemma bindM_Ok (A B : Type) (c : M A) (k : A -> M B) (s s' : db) (b : B) :
  bindM c k s = (Ok b, s') ->
  exists a s1, c s = (Ok a, s1) /\ k a s1 = (Ok b, s').
Proof.
  unfold bindM. destruct (c s) as [[a | e] s1]; [eauto | discriminate].
Qed.

Lemma records_DataFrame_of_length (docs : list doc) :
  List.length (records (DataFrame_of docs)) = List.length docs.
Proof. unfold DataFrame_of. simpl. apply length_map. Qed.

Lemma keeps_shape_length (cleaned : list string) (df df' : DataFrame) :
  keeps_shape cleaned df df' ->
  List.length (records df') = List.length (records df).
Proof.
  intros (_ & H & _). apply (f_equal (@List.length _)) in H.
  rewrite !length_map in H. exact H.
Qed.

(** What a page that returns [True] has done. *)
Lemma process_body_true_inv (ft : faults) (progress : progress_doc)
    (s s' : db) :
  process_body repr_float ft progress s = (Ok true, s') ->
  let page_raw := filter (field_is "page" (VInt (current_page progress)))
                         (raw_listings s) in
  page_raw <> [] /\
  missing_required listing_required_columns (DataFrame_of page_raw) = false /\
  raw_listings s' = raw_listings s /\
  facilities s' = facilities s /\
  List.length (cleaned_listings s')
  = (List.length (cleaned_listings s) + List.length page_raw)%nat /\
  scraping_progress s'
  = match scraping_progress s with
    | Some _ => Some (advance_page progress)
    | None => None
    end.
Proof.
  intros H. unfold process_body in H.
  apply bindM_Ok in H. destruct H as (raw & s1 & Hread & H).
  unfold read in Hread. destruct (find_listings_fails ft); [discriminate |].
  injection Hread as <- <-. cbv zeta.
  destruct (filter (field_is "page" (VInt (current_page progress)))
                   (raw_listings s)) as [| d0 raw] eqn:Eraw; [discriminate |].
  apply bindM_Ok in H. destruct H as (df' & s2 & Hclean & H).
  unfold lift in Hclean. injection Hclean as Hclean <-.
  assert (Hm : missing_required listing_required_columns
                 (DataFrame_of (d0 :: raw)) = false).
  { destruct (missing_required listing_required_columns
                (DataFrame_of (d0 :: raw))) eqn:Hm; [| reflexivity].
    destruct (clean_rumah123_data_missing repr_float _ Hm) as [msg E].
    congruence. }
  destruct (clean_rumah123_data_ok repr_float _ Hm) as (df'' & E & Hshape).
  rewrite Hclean in E. injection E as <-.
  apply keeps_shape_length in Hshape.
  rewrite records_DataFrame_of_length in Hshape.
  apply bindM_Ok in H. destruct H as (u & s3 & Hins & H).
  assert (H3 : raw_listings s3 = raw_listings s /\
               facilities s3 = facilities s /\
               scraping_progress s3 = scraping_progress s /\
               cleaned_listings s3
               = (cleaned_listings s ++ records df')%list).
  { unfold to_dict_records in Hins.
    destruct (records df') as [| r rs].
    - injection Hins as _ <-. rewrite app_nil_r. auto.
    - unfold insert_many in Hins.
      destruct (insert_listings_stops ft); [discriminate |].
      injection Hins as _ <-. auto. }
  clear Hins. destruct H3 as (Hr3 & Hf3 & Hp3 & Hc3).
  apply bindM_Ok in H. destruct H as (ks & s4 & Huniq & H).
  unfold lift in Huniq. injection Huniq as _ <-.
  apply bindM_Ok in H. destruct H as (fs & s5 & Hfind & H).
  unfold read in Hfind. destruct (find_facilities_fails ft); [discriminate |].
  injection Hfind as _ <-.
  apply bindM_Ok in H. destruct H as (u' & s6 & Hfac & H).
  assert (H6 : raw_listings s6 = raw_listings s3 /\
               facilities s6 = facilities s3 /\
               scraping_progress s6 = scraping_progress s3 /\
               cleaned_listings s6 = cleaned_listings s3).
  { destruct fs as [| f fs].
    - injection Hfac as _ <-. auto.
    - apply bindM_Ok in Hfac. destruct Hfac as (dff & s7 & Hcf & Hfac).
      unfold lift in Hcf. injection Hcf as _ <-.
      unfold insert_many in Hfac.
      destruct (insert_facilities_stops ft); [discriminate |].
      injection Hfac as _ <-. auto. }
  clear Hfac. destruct H6 as (Hr6 & Hf6 & Hp6 & Hc6).
  apply bindM_Ok in H. destruct H as (u'' & s8 & Hw & H).
  unfold ret in H. injection H as <-.
  unfold write_progress in Hw.
  destruct (update_progress_fails ft); [discriminate |].
  injection Hw as _ <-.
  split; [discriminate |]. split; [exact Hm |].
  assert (Hsp : scraping_progress s = scraping_progress s6) by congruence.
  rewrite Hsp.
  destruct (scraping_progress s6) eqn:E6; simpl;
    repeat split; try congruence;
    rewrite Hc6, Hc3, length_app, Hshape; reflexivity.
Qed.

(** A run of the cleaner either leaves the progress document as it was or,
    when it completes the page, writes the advanced progress. *)
Lemma run_progress_cases (ft : faults) (s : db) :
  (fst (run repr_float ft s) <> Completed /\
   scraping_progress (snd (run repr_float ft s)) = scraping_progress s) \/
  (fst (run repr_float ft s) = Completed /\
   exists p, scraping_progress s = Some p /\
             process_body repr_float ft p s
             = (Ok true, snd (run repr_float ft s))).
Proof.
  destruct (run_cases repr_float ft s) as [[e E] | (p & Hload & Es & Hpage)].
  - left. rewrite E. split; [discriminate | reflexivity].
  - assert (Hsp : scraping_progress s = Some p).
    { revert Hload.
      unfold load_progress, try_except, bindM, read, ret, raise.
      destruct (load_progress_fails ft); [discriminate |].
      destruct (scraping_progress s); simpl; [congruence | discriminate]. }
    destruct (fst (run repr_float ft s)) eqn:Eo.
    + right. split; [reflexivity |]. exists p. split; [exact Hsp |].
      revert Eo Es. unfold run, bindM.
      pose proof (load_progress_same ft s) as Hs.
      destruct (load_progress ft s) as [[p0 | e] s1]; simpl in Hs, Hload;
        subst s1; [| discriminate].
      injection Hload as ->.
      unfold process_current_page, try_except, ret.
      destruct (process_body repr_float ft p s) as [[[|] | e] s2]; simpl;
        intros Eo Es; try discriminate. reflexivity.
    + left. split; [discriminate |]. rewrite Es.
      apply process_current_page_progress, Hpage. discriminate.
    + left. split; [discriminate |]. rewrite Es.
      apply process_current_page_progress, Hpage. discriminate.
Qed.

(** X6.  A completed run of the cleaner: the progress document existed and
    is now the advanced one; some raw listing was stored under the current
    page and none of the required columns was missing; the raw listings and
    the facility records are as they were; and the cleaned listings have
    grown by one record for each raw listing of the page. *)
Theorem X6_completed_page (ft : faults) (s : db) :
  fst (run repr_float ft s) = Completed ->
  exists p,
    let page_raw := filter (field_is "page" (VInt (current_page p)))
                           (raw_listings s) in
    scraping_progress s = Some p /\
    scraping_progress (snd (run repr_float ft s)) = Some (advance_page p) /\
    page_raw <> [] /\
    missing_required listing_required_columns (DataFrame_of page_raw) = false /\
    raw_listings (snd (run repr_float ft s)) = raw_listings s /\
    facilities (snd (run repr_float ft s)) = facilities s /\
    List.length (cleaned_listings (snd (run repr_float ft s)))
    = (List.length (cleaned_listings s) + List.length page_raw)%nat.
Proof.
  intros Hc.
  destruct (run_progress_cases ft s) as [[Hne _] | (_ & p & Hsp & Hbody)];
    [contradiction |].
  exists p. cbv zeta.
  destruct (process_body_true_inv ft p s _ Hbody)
    as (H1 & H2 & H3 & H4 & H5 & H6).
  rewrite Hsp in H6. repeat split; auto.
Qed.

Lemma advance_page_keys (p : progress_doc) :
  map fst (provinces (advance_page p)) = map fst (provinces p).
Proof. unfold advance_page. simpl. rewrite map_map. reflexivity. Qed.

(** X7.  Progress is monotone under the cleaner: whatever a run does, a
    progress document that existed still exists with the same regions,
    no cursor has gone down or advanced by more than one page, and
    [current_page] has not gone down. *)
Theorem X7_cleaner_progress_monotone (ft : faults) (s : db)
    (p : progress_doc) (r : string) (v : Z) :
  scraping_progress s = Some p ->
  cursor r (provinces p) = Some v ->
  exists p' v',
    scraping_progress (snd (run repr_float ft s)) = Some p' /\
    map fst (provinces p') = map fst (provinces p) /\
    cursor r (provinces p') = Some v' /\
    v <= v' <= v + 1 /\
    current_page p <= current_page p' <= current_page p + 1.
Proof.
  intros Hsp Hcur.
  destruct (run_progress_cases ft s) as [[_ Hsame] | (_ & p0 & Hsp0 & Hbody)].
  - exists p, v. rewrite Hsame. repeat split; auto; lia.
  - rewrite Hsp in Hsp0. injection Hsp0 as <-.
    destruct (process_body_true_inv ft p s _ Hbody) as (_ & _ & _ & _ & _ & H6).
    rewrite Hsp in H6.
    exists (advance_page p),
           (if v =? current_page p then current_page p + 1 else v).
    split; [exact H6 |].
    split; [apply advance_page_keys |].
    split; [rewrite cursor_advance_page, Hcur; reflexivity |].
    split; [destruct (Z.eqb_spec v (current_page p)); lia |].
    unfold advance_page. simpl. lia.
Qed.

End CompletedPage.

Lemma X6_witness :
  exists p,
    scraping_progress Sample.db1 = Some p /\
    scraping_progress
      (snd (DataCleaning.run Sample.repr0 (Sample.cleaner_faults false)
              Sample.db1))
    = Some (DataCleaning.advance_page p).
Proof.
  destruct (X6_completed_page Sample.repr0 (Sample.cleaner_faults false)
              Sample.db1) as (p & H1 & H2 & _).
  - vm_compute. reflexivity.
  - exists p. split; assumption.
Defined.

Lemma X7_witness :
  exists p' v',
    scraping_progress
      (snd (DataCleaning.run Sample.repr0 (Sample.cleaner_faults false)
              Sample.db1)) = Some p' /\
    cursor "bali" (provinces p') = Some v' /\ 1 <= v' <= 2.
Proof.
  destruct (X7_cleaner_progress_monotone Sample.repr0
              (Sample.cleaner_faults false) Sample.db1 Sample.progress1
              "bali" 1 eq_refl eq_refl) as (p' & v' & H1 & _ & H2 & H3 & _).
  exists p', v'. repeat split; try assumption; lia.
Defined.

(* ================================================================== *)
(** ** The scraper: progress, detail pages and stored records          *)
(* ================================================================== *)

Section ScraperMore.

Import Scraper.

Variable ft : faults.
Variable w : web.

Lemma holds_progress_refl (p : progress_doc) (s : db) : holds_progress p s s.
Proof. intros H. exact H. Qed.

Lemma holds_progress_trans (p : progress_doc) (s1 s2 s3 : db) :
  holds_progress p s1 s2 -> holds_progress p s2 s3 -> holds_progress p s1 s3.
Proof. unfold holds_progress. auto. Qed.

Lemma holds_of_same_progress (p : progress_doc) (A : Type) (c : M A) :
  preserves same_progress c -> preserves (holds_progress p) c.
Proof. intros H s Hs. rewrite (H s). exact Hs. Qed.

Lemma In_cursor (k : string) (v : Z) (l : list (string * Z)) :
  NoDup (map fst l) -> In (k, v) l -> cursor k l = Some v.
Proof.
  induction l as [| [k0 v0] l IH]; simpl; [contradiction |].
  intros Hnd [[= -> ->] | Hin].
  - rewrite String.eqb_refl. reflexivity.
  - inversion Hnd as [| x xs Hnotin Hnd']; subst.
    destruct (String.eqb_spec k k0) as [-> | Hne].
    + exfalso. apply Hnotin. apply (in_map fst) in Hin. exact Hin.
    + apply IH; assumption.
Qed.

(** Writing the page a region is at, as [current_page] and as its cursor,
    changes nothing. *)
Lemma update_progress_holds (p : progress_doc) (province : string) (page : Z) :
  cursor province (provinces p) = Some page -> current_page p = page ->
  preserves (holds_progress p) (update_progress ft province page).
Proof.
  intros Hcur Hcp s Hs. unfold update_progress, try_except, ret.
  destruct (update_progress_fails ft province); simpl; [exact Hs |].
  rewrite Hs. simpl. f_equal.
  destruct p as [c l]. unfold set_progress. simpl in *.
  rewrite (set_cursor_same _ _ _ Hcur). subst c. reflexivity.
Qed.

Lemma run_province_holds (p : progress_doc) (ex : list value)
    (province : string) (page : Z) :
  cursor province (provinces p) = Some page ->
  preserves (holds_progress p)
    (run_province ft w ex (current_page p) province page).
Proof.
  intros Hcur. unfold run_province.
  destruct (Z.eqb_spec page (current_page p)) as [Heq | Hne]; simpl;
    [| apply preserves_ret, holds_progress_refl].
  apply preserves_bind; [apply holds_progress_trans | | intros houses].
  { apply scrape_search_page_preserves;
      [apply holds_progress_refl | apply holds_progress_trans |].
    apply holds_of_same_progress, emit_same_progress. }
  destruct houses as [| h0 hs]; [apply preserves_ret, holds_progress_refl |].
  apply preserves_bind; [apply holds_progress_trans | | intros ds].
  { apply scrape_all_preserves;
      [apply holds_progress_refl | apply holds_progress_trans |].
    intros h _. apply holds_of_same_progress, emit_same_progress. }
  destruct ds as [| d ds]; [apply preserves_ret, holds_progress_refl |].
  apply preserves_bind; [apply holds_progress_trans | | intros stored].
  { apply holds_of_same_progress, store_to_mongodb_progress. }
  destruct stored; [| apply preserves_ret, holds_progress_refl].
  apply update_progress_holds; [exact Hcur | congruence].
Qed.

Lemma run_loop_holds (p : progress_doc) (ex : list value)
    (items : list (string * Z)) :
  (forall k v, In (k, v) items -> cursor k (provinces p) = Some v) ->
  preserves (holds_progress p) (run_loop ft w ex (current_page p) items).
Proof.
  induction items as [| [province page] rest IH]; simpl; intros Hitems.
  - apply preserves_ret, holds_progress_refl.
  - apply preserves_bind; [apply holds_progress_trans | | intros _].
    + apply run_province_holds, Hitems. left. reflexivity.
    + apply IH. intros k v Hin. apply Hitems. right. exact Hin.
Qed.

(** X8.  The scraper never advances progress: once the progress document
    exists, with each region in it once, a run of the scraper leaves it
    exactly as it was, whatever the site answers and whatever storage call
    fails; the only page it writes is the page the region is already at. *)
Theorem X8_scraper_leaves_progress (s : db) (p : progress_doc) :
  scraping_progress s = Some p ->
  NoDup (map fst (provinces p)) ->
  scraping_progress (snd (run ft w s)) = Some p.
Proof.
  intros Hs Hnd.
  assert (Hload : load_progress ft s = (Ok p, s) \/
                  exists e, load_progress ft s = (Raise e, s)).
  { unfold load_progress, try_except, bindM, read, raise, ret.
    destruct (find_progress_fails ft); [right; eauto |].
    rewrite Hs. left. reflexivity. }
  unfold run. unfold bindM at 1.
  destruct Hload as [-> | [e ->]]; [| exact Hs].
  unfold bindM.
  assert (Hex : scraping_progress (snd (fetch_existing_titles ft s)) = Some p).
  { unfold fetch_existing_titles, try_except, read, ret.
    destruct (distinct_fails ft); exact Hs. }
  destruct (fetch_existing_titles ft s) as [[ex | e] s1]; simpl in *;
    [| exact Hex].
  apply (run_loop_holds p ex (provinces p)); [| exact Hex].
  intros k v Hin. apply In_cursor; assumption.
Qed.

Lemma cursor_map_const (r : string) (c : Z) (l : list string) :
  cursor r (map (fun k => (k, c)) l)
  = if existsb (String.eqb r) l then Some c else None.
Proof.
  induction l as [| k l IH]; simpl; [reflexivity |].
  destruct (String.eqb r k); simpl; [reflexivity | exact IH].
Qed.

Lemma with_progress_same (p : progress_doc) (s : db) :
  scraping_progress s = Some p -> with_progress (Some p) s = s.
Proof. destruct s. simpl. intros ->. reflexivity. Qed.

Lemma initial_provinces_NoDup :
  NoDup (map fst (map (fun province : string => (province, 1))
                      known_provinces)).
Proof.
  rewrite map_map. cbn [fst]. rewrite map_id.
  apply (NoDup_count_occ' string_dec). intros x Hx.
  unfold known_provinces in Hx. cbn [In] in Hx.
  repeat (destruct Hx as [<- | Hx]; [vm_compute; reflexivity |]).
  contradiction.
Qed.

Lemma load_progress_existing (s : db) (p : progress_doc) :
  find_progress_fails ft = false -> scraping_progress s = Some p ->
  load_progress ft s = (Ok p, s).
Proof.
  intros Hfind Hs. unfold load_progress, try_except, bindM, read, ret.
  rewrite Hfind, Hs. reflexivity.
Qed.

Lemma load_progress_missing (s : db) :
  find_progress_fails ft = false -> insert_progress_fails ft = false ->
  scraping_progress s = None ->
  let p := {| current_page := 1;
              provinces := map (fun province => (province, 1))
                               known_provinces |} in
  load_progress ft s = (Ok p, with_progress (Some p) s).
Proof.
  intros Hfind Hins Hs. unfold load_progress, try_except, bindM, read, ret.
  rewrite Hfind, Hs, Hins. reflexivity.
Qed.

(** X9.  Loading the progress in the scraper, the storage answering: the
    document loaded is the document stored afterwards, and loading again
    gives it back without a write; an existing document is returned
    untouched; a missing one is created at page 1 with each of the known
    provinces once, at cursor 1, and no other region. *)
Theorem X9_load_progress_initialises_once (s : db) :
  find_progress_fails ft = false ->
  insert_progress_fails ft = false ->
  exists p,
    load_progress ft s = (Ok p, with_progress (Some p) s) /\
    load_progress ft (with_progress (Some p) s)
    = (Ok p, with_progress (Some p) s) /\
    (forall p0, scraping_progress s = Some p0 ->
                p = p0 /\ with_progress (Some p) s = s) /\
    (scraping_progress s = None ->
     current_page p = 1 /\
     NoDup (map fst (provinces p)) /\
     forall r, cursor r (provinces p)
               = if existsb (String.eqb r) known_provinces then Some 1
                 else None).
Proof.
  intros Hfind Hins.
  destruct (scraping_progress s) as [p0 |] eqn:Hs.
  - exists p0. rewrite (with_progress_same p0 s Hs).
    rewrite (load_progress_existing s p0 Hfind Hs).
    split; [reflexivity |]. split; [reflexivity |].
    split; [intros p1 [= <-]; split; reflexivity | discriminate].
  - eexists. split; [apply (load_progress_missing s Hfind Hins Hs) |].
    split; [apply load_progress_existing; [exact Hfind | reflexivity] |].
    split; [discriminate |].
    intros _. split; [reflexivity |]. split.
    + apply initial_provinces_NoDup.
    + intros r. apply cursor_map_const.
Qed.

Lemma with_trace_same (s : db) : with_trace (trace s) s = s.
Proof. destruct s. reflexivity. Qed.

(** X10.  One bad listing does not abort the page: when every detail
    request answers or fails as a request, [scrape_all] returns, in the
    order of the candidates, the records of the pages that answered and
    nothing for the others; it sends exactly one request per candidate, in
    that order, and touches nothing else. *)
Theorem X10_detail_failures_are_absorbed (province : string)
    (houses : list house) (s : db) :
  (forall h, In h houses -> request_outcome w (link h)) ->
  scrape_all w province houses s
  = (Ok (flat_map (fun h => match detail w (link h) with
                            | Ok pg => [details_of (link h) province pg]
                            | Raise _ => []
                            end) houses),
     with_trace (trace s ++ map (fun h => HttpGet (link h)) houses)%list s).
Proof.
  revert s. induction houses as [| h rest IH]; intros s Hout; simpl.
  - rewrite app_nil_r, with_trace_same. reflexivity.
  - unfold bindM at 1.
    assert (Hh : request_outcome w (link h)) by (apply Hout; left; reflexivity).
    unfold request_outcome in Hh.
    unfold scrape_house_details, except_request, try_except, bindM at 1, emit,
      lift, ret, raise.
    destruct (detail w (link h)) as [pg | e] eqn:Ed; simpl.
    + unfold bindM. rewrite IH by (intros h' Hh'; apply Hout; right; exact Hh').
      simpl. rewrite <- app_assoc. reflexivity.
    + destruct e; try contradiction. simpl.
      unfold bindM. rewrite IH by (intros h' Hh'; apply Hout; right; exact Hh').
      simpl. rewrite <- app_assoc. reflexivity.
Qed.

Lemma get_set_same (k : string) (v : value) (d : doc) :
  get k (set k v d) = Some v.
Proof.
  induction d as [| [k0 v0] d IH]; simpl.
  - rewrite String.eqb_refl. reflexivity.
  - destruct (String.eqb_spec k k0) as [-> | Hne]; simpl.
    + rewrite String.eqb_refl. reflexivity.
    + destruct (String.eqb_spec k k0); [contradiction | exact IH].
Qed.

(** X11.  What the scraper stores is what the cleaner and the fetcher look
    up: when the store of a non-empty batch succeeds, it returns [True],
    the raw listings are the former ones followed by the batch, and each
    stored record carries the page and the province it was found under,
    keeps every other field as scraped, and is selected by the query for
    the listings of that page. *)
Theorem X11_stored_records_carry_their_page (data : list doc)
    (province : string) (page : Z) (s : db) :
  data <> [] ->
  store_stops ft province = None ->
  let s' := snd (store_to_mongodb ft w data province page s) in
  fst (store_to_mongodb ft w data province page s) = Ok true /\
  raw_listings s'
  = (raw_listings s ++ map (with_metadata w province page) data)%list /\
  forall d, In d data ->
    get "page" (with_metadata w province page d) = Some (VInt page) /\
    get "province" (with_metadata w province page d) = Some (VStr province) /\
    (forall k, k <> "page" -> k <> "province" -> k <> "inserted_at" ->
               get k (with_metadata w province page d) = get k d) /\
    In (with_metadata w province page d)
       (filter (field_is "page" (VInt page)) (raw_listings s')).
Proof.
  intros Hne Hok. cbv zeta.
  unfold store_to_mongodb. destruct data as [| d0 data]; [contradiction |].
  unfold try_except, bindM, insert_many, ret. rewrite Hok. simpl.
  split; [reflexivity |]. split; [reflexivity |].
  intros d Hd.
  assert (Hpage : get "page" (with_metadata w province page d)
                  = Some (VInt page)).
  { unfold with_metadata. rewrite get_set_other by discriminate.
    apply get_set_same. }
  split; [exact Hpage |]. split.
  { unfold with_metadata. rewrite !get_set_other by discriminate.
    apply get_set_same. }
  split.
  { intros k H1 H2 H3. unfold with_metadata.
    rewrite !get_set_other by assumption. reflexivity. }
  apply filter_In. split.
  - apply in_or_app. right.
    change (In (with_metadata w province page d)
               (map (with_metadata w province page) (d0 :: data))).
    apply in_map, Hd.
  - unfold field_is. rewrite Hpage. apply Z.eqb_refl.
Qed.

End ScraperMore.

Lemma X8_witness :
  scraping_progress
    (snd (Scraper.run (Sample.scraper_faults false false None false)
            Sample.web1 Sample.db1)) = Some Sample.progress1.
Proof.
  apply (X8_scraper_leaves_progress
           (Sample.scraper_faults false false None false) Sample.web1
           Sample.db1 Sample.progress1); [reflexivity |].
  simpl. repeat constructor; simpl; intuition discriminate.
Defined.

Lemma X9_witness :
  exists p,
    Scraper.load_progress (Sample.scraper_faults false false None false)
      (with_progress None Sample.db1)
    = (Ok p, with_progress (Some p) (with_progress None Sample.db1)) /\
    current_page p = 1.
Proof.
  destruct (X9_load_progress_initialises_once
              (Sample.scraper_faults false false None false)
              (with_progress None Sample.db1) eq_refl eq_refl)
    as (p & H1 & _ & _ & H4).
  exists p. split; [exact H1 | apply H4; reflexivity].
Defined.

Lemma X10_witness :
  fst (Scraper.scrape_all Sample.web1 "bali"
         [ {| Scraper.judul_iklan := "Rumah A";
              Scraper.link := "https://www.rumah123.com/properti/a" |} ]
         Sample.db1)
  = Ok [ Scraper.details_of "https://www.rumah123.com/properti/a" "bali"
           {| Scraper.h1 := Some "Rumah A";
              Scraper.location_text := Some "Kuta, Badung";
              Scraper.other_fields := [("harga", VInt 1200000)] |} ].
Proof.
  rewrite (X10_detail_failures_are_absorbed Sample.web1 "bali"); [reflexivity |].
  intros h _. exact I.
Defined.

Lemma X11_witness :
  fst (Scraper.store_to_mongodb (Sample.scraper_faults false false None false)
         Sample.web1 [[("judul_iklan", VStr "Rumah B")]] "bali" 1 Sample.db1)
  = Ok true.
Proof.
  apply (X11_stored_records_carry_their_page
           (Sample.scraper_faults false false None false) Sample.web1
           [[("judul_iklan", VStr "Rumah B")]] "bali" 1 Sample.db1);
    [discriminate | reflexivity].
Defined.

(* ================================================================== *)
(** ** The fetcher: pacing, tallies and stored records                 *)
(* ================================================================== *)

Section Dicts.

Lemma set_keys_In (k k' : string) (v : value) (d : doc) :
  In k' (map fst (set k v d)) <-> k' = k \/ In k' (map fst d).
Proof.
  induction d as [| [k0 v0] d IH]; simpl.
  - split; [intros [H | []]; auto | intros [H | []]; auto].
  - destruct (String.eqb_spec k k0) as [-> | Hne]; simpl.
    + intuition (subst; auto).
    + rewrite IH. intuition (subst; auto).
Qed.

Lemma set_keys_NoDup (k : string) (v : value) (d : doc) :
  NoDup (map fst d) -> NoDup (map fst (set k v d)).
Proof.
  induction d as [| [k0 v0] d IH]; simpl; intros Hnd.
  - constructor; [intros [] | constructor].
  - inversion Hnd as [| x xs Hnotin Hnd']; subst.
    destruct (String.eqb_spec k k0) as [-> | Hne]; simpl.
    + constructor; assumption.
    + constructor; [| apply IH, Hnd'].
      rewrite set_keys_In. intros [H | H]; [congruence | contradiction].
Qed.

Lemma get_apply_set_other (k : string) (fields d : doc) :
  ~ In k (map fst fields) ->
  get k (Facilities.apply_set fields d) = get k d.
Proof.
  unfold Facilities.apply_set. revert d.
  induction fields as [| [k0 v0] fields IH]; intros d Hnin; simpl;
    [reflexivity |].
  rewrite IH by (intros H; apply Hnin; right; exact H).
  apply get_set_other. intros ->. apply Hnin. left. reflexivity.
Qed.

(** Setting the fields of a dict on a document gives the document the
    values of the dict. *)
Lemma get_apply_set (k : string) (v : value) (fields d : doc) :
  NoDup (map fst fields) -> get k fields = Some v ->
  get k (Facilities.apply_set fields d) = Some v.
Proof.
  unfold Facilities.apply_set. revert d.
  induction fields as [| [k0 v0] fields IH]; intros d Hnd Hget; simpl in *;
    [discriminate |].
  inversion Hnd as [| x xs Hnotin Hnd']; subst.
  destruct (String.eqb_spec k k0) as [-> | Hne].
  - injection Hget as ->.
    change (get k0 (Facilities.apply_set fields (set k0 v d)) = Some v).
    rewrite get_apply_set_other by exact Hnotin. apply get_set_same.
  - apply IH; assumption.
Qed.

Lemma value_eqb_refl (v : value) : value_eqb v v = true.
Proof. apply value_eqb_eq. reflexivity. Qed.

Lemma field_is_of_get (key : string) (k : value) (d : doc) :
  get key d = Some k -> field_is key k d = true.
Proof. unfold field_is. intros ->. apply value_eqb_refl. Qed.

(** Whether a document that is a record of [k] is a record of [k']. *)
Lemma field_is_other (key : string) (k k' : value) (d : doc) :
  field_is key k d = true -> field_is key k' d = value_eqb k k'.
Proof.
  unfold field_is. destruct (get key d) as [w |].
  - intros H. apply value_eqb_eq in H. subst w. reflexivity.
  - destruct k; try discriminate. intros _. destruct k'; reflexivity.
Qed.

End Dicts.

Section FetcherStore.

Import Facilities.

Variable ft : faults.
Variable n : net.
Variable kecamatan : value.

Lemma upsert_exists (fields : doc) (l : list doc) :
  NoDup (map fst fields) -> get "kecamatan" fields = Some kecamatan ->
  existsb (field_is "kecamatan" kecamatan) (upsert kecamatan fields l) = true.
Proof.
  intros Hnd Hget. induction l as [| d l IH]; simpl.
  - rewrite (field_is_of_get _ _ _ (get_apply_set _ _ _ _ Hnd Hget)).
    reflexivity.
  - destruct (field_is "kecamatan" kecamatan d) eqn:E; simpl.
    + rewrite (field_is_of_get _ _ _ (get_apply_set _ _ _ _ Hnd Hget)).
      reflexivity.
    + rewrite E. exact IH.
Qed.

(** The upsert adds a record for the region when there is none and adds
    none otherwise; the records of the other regions are as many as
    before. *)
Lemma upsert_records_for (fields : doc) (l : list doc) (k' : value) :
  NoDup (map fst fields) -> get "kecamatan" fields = Some kecamatan ->
  records_for k' (upsert kecamatan fields l)
  = (records_for k' l
     + if existsb (field_is "kecamatan" kecamatan) l then 0
       else if value_eqb kecamatan k' then 1 else 0)%nat.
Proof.
  intros Hnd Hget. unfold records_for.
  assert (Hnew : forall d, field_is "kecamatan" k' (apply_set fields d)
                           = value_eqb kecamatan k').
  { intros d. unfold field_is at 1.
    rewrite (get_apply_set _ _ _ d Hnd Hget). reflexivity. }
  induction l as [| d l IH]; cbn [upsert filter existsb].
  - rewrite Hnew. destruct (value_eqb kecamatan k'); reflexivity.
  - destruct (field_is "kecamatan" kecamatan d) eqn:E;
      cbn [filter orb List.length].
    + rewrite Hnew, (field_is_other _ _ k' _ E).
      destruct (value_eqb kecamatan k'); cbn [List.length]; lia.
    + destruct (field_is "kecamatan" k' d); cbn [List.length];
        rewrite IH; lia.
Qed.

Lemma query_categories_keys (qs : list (string * list string)) (b : nat)
    (results results' : doc) (s : db) :
  fst (query_categories b n kecamatan qs results s) = Ok (Some results') ->
  NoDup (map fst results) -> NoDup (map fst results').
Proof.
  revert b results s. induction qs as [| [cat fs] qs IH]; intros b results s;
    simpl.
  - unfold ret. simpl. intros [= <-]. auto.
  - unfold bindM.
    destruct (query_filters b n kecamatan fs 0 s) as [[[[t b'] |] | e] s1];
      simpl; try discriminate.
    intros H Hnd. apply (IH _ _ _ H). apply set_keys_NoDup, Hnd.
Qed.

(** The record [get_facilities_count] returns is a dict that names its
    region. *)
Lemma get_facilities_count_record (max_retries : Z) (s : db) (f : doc) :
  fst (get_facilities_count n kecamatan max_retries s) = Ok (Some f) ->
  NoDup (map fst f) /\ get "kecamatan" f = Some kecamatan.
Proof.
  unfold get_facilities_count, bindM.
  pose proof (query_categories_keys facility_queries (Z.to_nat max_retries)
                [] ) as Hk.
  destruct (query_categories (Z.to_nat max_retries) n kecamatan
              facility_queries [] s) as [[[res |] | e] s1] eqn:E;
    simpl; try discriminate.
  intros [= <-]. split.
  - do 3 apply set_keys_NoDup. apply (Hk res s); [rewrite E; reflexivity |].
    constructor.
  - rewrite !get_set_other by discriminate. apply get_set_same.
Qed.

(** X12.  A region enriched once is not enriched again: when the turn of
    [run] for a region finds no record, gets the counts and saves them,
    the region has a record afterwards, and a second turn for it leaves
    the state as it is, without a query. *)
Theorem X12_enriched_region_is_skipped_next (s : db) (f : doc) :
  find_facility_fails ft kecamatan = false ->
  save_fails ft kecamatan = false ->
  fst (get_facilities_count n kecamatan 3 s) = Ok (Some f) ->
  let s' := snd (run_kecamatan ft n kecamatan s) in
  existsb (field_is "kecamatan" kecamatan) (facilities s') = true /\
  snd (run_kecamatan ft n kecamatan s') = s'.
Proof.
  intros Hfind Hsave Hcount. cbv zeta.
  assert (Hex : existsb (field_is "kecamatan" kecamatan)
                  (facilities (snd (run_kecamatan ft n kecamatan s))) = true).
  { destruct (get_facilities_count_record 3 s f Hcount) as [Hnd Hget].
    unfold run_kecamatan, bindM, facility_exists, read. rewrite Hfind.
    destruct (existsb (field_is "kecamatan" kecamatan) (facilities s)) eqn:E;
      [exact E |].
    pose proof (set_nonempty "status" (VStr "success")) as Hne.
    destruct (get_facilities_count n kecamatan 3 s) as [r s1]. simpl in Hcount.
    subst r. destruct f as [| kv f0] eqn:Ef; [discriminate |].
    rewrite <- Ef in *.
    unfold save_facilities_to_mongodb, try_except, ret, raise.
    rewrite Hget, Hsave. cbn -[set upsert get field_is existsb].
    apply upsert_exists.
    - apply set_keys_NoDup, Hnd.
    - rewrite get_set_other by discriminate. exact Hget. }
  split; [exact Hex | apply run_kecamatan_skips, Hex].
Qed.

(** X13.  Saving a facility record is an upsert by region: it succeeds
    unless the storage fails, adds one record for the region when the
    region has none and none when it has one, leaves the number of records
    of every other region as it was, and touches no other collection. *)
Theorem X13_save_is_upsert_by_region (f : doc) (s : db) (k' : value) :
  NoDup (map fst f) ->
  get "kecamatan" f = Some kecamatan ->
  save_fails ft kecamatan = false ->
  let s' := snd (save_facilities_to_mongodb ft n f s) in
  fst (save_facilities_to_mongodb ft n f s) = Ok true /\
  only_facilities_change s s' /\
  trace s' = trace s /\
  records_for k' (facilities s')
  = (records_for k' (facilities s)
     + if existsb (field_is "kecamatan" kecamatan) (facilities s) then 0
       else if value_eqb kecamatan k' then 1 else 0)%nat.
Proof.
  intros Hnd Hget Hsave. cbv zeta.
  unfold save_facilities_to_mongodb, try_except, ret, raise.
  rewrite Hget, Hsave. cbn -[set upsert get field_is existsb records_for].
  split; [reflexivity |]. split; [repeat split |]. split; [reflexivity |].
  apply upsert_records_for.
  - apply set_keys_NoDup, Hnd.
  - rewrite get_set_other by discriminate. exact Hget.
Qed.

End FetcherStore.

Section FetcherPacing.

Import Facilities.

Variable ft : faults.
Variable n : net.

Lemma paced_after_app (prev : bool) (t u : list event) :
  paced_after prev t = true -> (forall x, paced_after x u = true) ->
  paced_after prev (t ++ u) = true.
Proof.
  revert prev. induction t as [| e t IH]; intros prev Ht Hu; simpl in *.
  - apply Hu.
  - apply andb_true_iff in Ht. destruct Ht as [He Ht].
    rewrite He. simpl. apply IH; assumption.
Qed.

Lemma adds_paced_refl (s : db) : adds_paced s s.
Proof.
  exists []. split; [symmetry; apply app_nil_r | reflexivity].
Qed.

Lemma adds_paced_trans (s1 s2 s3 : db) :
  adds_paced s1 s2 -> adds_paced s2 s3 -> adds_paced s1 s3.
Proof.
  intros (a1 & E1 & H1) (a2 & E2 & H2). exists (a1 ++ a2)%list. split.
  - rewrite E2, E1. symmetry. apply app_assoc.
  - intros prev. apply paced_after_app; auto.
Qed.

Lemma adds_paced_of_same_trace (A : Type) (c : M A) :
  (forall s, trace (snd (c s)) = trace s) -> preserves adds_paced c.
Proof.
  intros H s. exists []. split; [rewrite H; symmetry; apply app_nil_r |].
  reflexivity.
Qed.

Lemma only_facilities_change_refl (s : db) : only_facilities_change s s.
Proof. repeat split. Qed.

Lemma only_facilities_change_trans (s1 s2 s3 : db) :
  only_facilities_change s1 s2 -> only_facilities_change s2 s3 ->
  only_facilities_change s1 s3.
Proof.
  unfold only_facilities_change. intros (? & ? & ? & ?) (? & ? & ? & ?).
  repeat split; congruence.
Qed.

Lemma only_facilities_of_same_collections (A : Type) (c : M A) :
  preserves same_collections c -> preserves only_facilities_change c.
Proof.
  intros H s. destruct (H s) as (? & ? & ? & ? & ?). repeat split; assumption.
Qed.

Section Region.

Variable kecamatan : value.

(** One turn of the [while] adds a wait of 2 seconds, the request, and
    then at most a wait. *)
Lemma turn_paced (f : string) : preserves adds_paced (turn n kecamatan f).
Proof.
  intros s.
  unfold turn, attempt, try_except, bindM, sleep, post, emit, lift, raise, ret,
    wait_of, adds_paced.
  simpl.
  destruct (overpass n (posts (with_trace (trace s ++ [Sleep 2]) s)))
    as [c ra j | e]; simpl.
  - destruct (c =? 200).
    + destruct j as [[len |] |]; simpl;
        (eexists; split;
         [rewrite <- ?app_assoc; reflexivity | intros prev; reflexivity]).
    + destruct (c =? 429).
      * destruct ra as [h |]; simpl.
        -- destruct (int_of_str h) as [wt | e]; simpl.
           ++ destruct ((wt <? -9223372036) || (9223372036 <? wt))%bool;
                [| destruct (wt <? 0);
                   [| destruct ((60 <? wt) && (longest_sleep n <? wt))%bool]];
                simpl;
                (eexists; split;
                 [rewrite <- ?app_assoc; reflexivity
                 | intros prev; reflexivity]).
           ++ eexists; split;
                [rewrite <- ?app_assoc; reflexivity | intros prev; reflexivity].
        -- eexists; split;
             [rewrite <- ?app_assoc; reflexivity | intros prev; reflexivity].
      * simpl. eexists; split;
          [rewrite <- ?app_assoc; reflexivity | intros prev; reflexivity].
  - eexists; split;
      [rewrite <- ?app_assoc; reflexivity | intros prev; reflexivity].
Qed.

Lemma run_kecamatan_paced :
  preserves adds_paced (run_kecamatan ft n kecamatan).
Proof.
  assert (Hqf : forall f b, preserves adds_paced (query_filter b n kecamatan f)).
  { intros f b. induction b as [| b IH]; simpl;
      [apply preserves_ret, adds_paced_refl |].
    apply preserves_bind; [apply adds_paced_trans | apply turn_paced | intros r].
    destruct r; [apply preserves_ret, adds_paced_refl | exact IH]. }
  assert (Hqfs : forall fs b t,
             preserves adds_paced (query_filters b n kecamatan fs t)).
  { intros fs. induction fs as [| f fs IH]; intros b t; simpl;
      [apply preserves_ret, adds_paced_refl |].
    apply preserves_bind; [apply adds_paced_trans | apply Hqf | intros r].
    destruct (snd r); [apply preserves_ret, adds_paced_refl | apply IH]. }
  assert (Hqc : forall qs b res,
             preserves adds_paced (query_categories b n kecamatan qs res)).
  { intros qs. induction qs as [| [cat fs] qs IH]; intros b res; simpl;
      [apply preserves_ret, adds_paced_refl |].
    apply preserves_bind; [apply adds_paced_trans | apply Hqfs | intros r].
    destruct r as [[t b'] |];
      [apply IH | apply preserves_ret, adds_paced_refl]. }
  unfold run_kecamatan.
  apply preserves_bind; [apply adds_paced_trans | | intros found].
  { apply adds_paced_of_same_trace. intros s.
    rewrite facility_exists_state. reflexivity. }
  destruct found; [apply preserves_ret, adds_paced_refl |].
  apply preserves_bind; [apply adds_paced_trans | | intros r].
  { unfold get_facilities_count.
    apply preserves_bind; [apply adds_paced_trans | apply Hqc | intros r].
    destruct r; apply preserves_ret, adds_paced_refl. }
  destruct r as [[| kv f] |]; try apply preserves_ret, adds_paced_refl.
  apply preserves_bind;
    [apply adds_paced_trans | | intros _; apply preserves_ret, adds_paced_refl].
  apply adds_paced_of_same_trace. intros s.
  unfold save_facilities_to_mongodb, try_except, raise, ret.
  destruct (get "kecamatan" (kv :: f)) as [v |]; [| reflexivity].
  destruct (save_fails ft v); reflexivity.
Qed.

Lemma run_kecamatan_only_facilities :
  preserves only_facilities_change (run_kecamatan ft n kecamatan).
Proof.
  unfold run_kecamatan.
  apply preserves_bind; [apply only_facilities_change_trans | | intros found].
  { intros s. rewrite facility_exists_state. apply only_facilities_change_refl. }
  destruct found; [apply preserves_ret, only_facilities_change_refl |].
  apply preserves_bind; [apply only_facilities_change_trans | | intros r].
  { apply only_facilities_of_same_collections,
      get_facilities_count_collections. }
  destruct r as [[| kv f] |];
    try apply preserves_ret, only_facilities_change_refl.
  apply preserves_bind;
    [apply only_facilities_change_trans |
     | intros _; apply preserves_ret, only_facilities_change_refl].
  intros s. unfold save_facilities_to_mongodb, try_except, raise, ret.
  destruct (get "kecamatan" (kv :: f)) as [v |]; [| repeat split].
  destruct (save_fails ft v); repeat split.
Qed.

End Region.

Lemma run_loop_frames (R : db -> db -> Prop) (ks : list value) :
  (forall s, R s s) -> (forall s1 s2 s3, R s1 s2 -> R s2 s3 -> R s1 s3) ->
  (forall k, preserves R (run_kecamatan ft n k)) ->
  preserves R (run_loop ft n ks).
Proof.
  intros Hrefl Htrans Hk. induction ks as [| k ks IH]; simpl.
  - apply preserves_ret, Hrefl.
  - apply preserves_bind; [exact Htrans | apply Hk | intros _; exact IH].
Qed.

Lemma run_frames (R : db -> db -> Prop) :
  (forall s, R s s) -> (forall s1 s2 s3, R s1 s2 -> R s2 s3 -> R s1 s3) ->
  (forall k, preserves R (run_kecamatan ft n k)) ->
  preserves R (run ft n).
Proof.
  intros Hrefl Htrans Hk. unfold run.
  apply preserves_try_except;
    [exact Htrans | | intros _; apply preserves_ret, Hrefl].
  apply preserves_bind;
    [exact Htrans | apply preserves_read, Hrefl | intros progress].
  destruct progress as [p |]; [| apply preserves_ret, Hrefl].
  apply preserves_bind; [exact Htrans | | intros ks].
  - unfold get_current_kecamatans.
    apply preserves_try_except;
      [exact Htrans | apply preserves_read, Hrefl
       | intros _; apply preserves_ret, Hrefl].
  - apply run_loop_frames; assumption.
Qed.

(** X14.  Rate limiting: every request the fetcher sends comes right after
    a wait of 2 seconds.  The events a run adds to the trace are so paced
    whatever came before them, so a paced trace stays paced. *)
Theorem X14_every_request_follows_a_wait (s : db) :
  adds_paced s (snd (run ft n s)) /\
  (paced (trace s) = true -> paced (trace (snd (run ft n s))) = true).
Proof.
  assert (H : adds_paced s (snd (run ft n s))).
  { apply run_frames;
      [apply adds_paced_refl | apply adds_paced_trans
       | apply run_kecamatan_paced]. }
  split; [exact H |].
  destruct H as (added & E & Hadded). intros Hp. rewrite E.
  apply paced_after_app; assumption.
Qed.

(** X16.  A run of the fetcher never raises, and writes nothing but
    facility records: the raw listings, the cleaned collections and the
    progress document are as they were. *)
Theorem X16_fetcher_writes_only_facilities (s : db) :
  fst (run ft n s) = Ok tt /\
  only_facilities_change s (snd (run ft n s)).
Proof.
  split.
  - unfold run, try_except, ret.
    match goal with
    | |- fst (match ?c with _ => _ end) = _ =>
        destruct c as [[[] | e] s1]; reflexivity
    end.
  - apply run_frames;
      [apply only_facilities_change_refl | apply only_facilities_change_trans
       | apply run_kecamatan_only_facilities].
Qed.

End FetcherPacing.

Lemma X14_witness :
  Facilities.paced (trace (snd (Facilities.run Sample.fetcher_faults Sample.net500
                       Sample.db1))) = true.
Proof.
  apply (X14_every_request_follows_a_wait Sample.fetcher_faults Sample.net500
           Sample.db1).
  reflexivity.
Defined.

Section FetcherTallies.

Import Facilities.

Variable n : net.
Variable kecamatan : value.

(** A turn whose answer is a success sends one request after one wait and
    leaves the loop with the length of the [elements] array. *)
Lemma turn_success (f : string) (s : db) :
  is_success (overpass n (posts s)) = true ->
  turn n kecamatan f s
  = (Ok (Break (count_of (overpass n (posts s)))),
     with_trace (trace s ++ [Sleep 2; OverpassPost kecamatan f]) s).
Proof.
  intros H.
  unfold turn, attempt, try_except, bindM, sleep, post, emit, lift, raise, ret.
  simpl.
  assert (Hp : posts (with_trace (trace s ++ [Sleep 2]) s) = posts s).
  { unfold posts. simpl. rewrite filter_app. simpl. rewrite app_nil_r.
    reflexivity. }
  rewrite Hp.
  destruct (overpass n (posts s)) as [c ra j | e]; simpl in H;
    [| discriminate].
  destruct j as [j |]; [| discriminate].
  rewrite H. simpl. rewrite <- app_assoc. simpl.
  destruct j; reflexivity.
Qed.

Lemma posts_after_turn (f : string) (s : db) :
  posts (with_trace (trace s ++ [Sleep 2; OverpassPost kecamatan f]) s)
  = S (posts s).
Proof.
  unfold posts. simpl. rewrite filter_app, length_app. simpl. lia.
Qed.

Lemma query_filters_success (b : nat) (fs : list string) :
  forall (t : Z) (s : db),
    (forall j, (j < List.length fs)%nat ->
               is_success (overpass n (posts s + j)) = true) ->
    exists s',
      query_filters (S b) n kecamatan fs t s
      = (Ok (Some (t + counts n (posts s) (List.length fs), S b)), s') /\
      posts s' = (posts s + List.length fs)%nat.
Proof.
  induction fs as [| f fs IH]; intros t s H; simpl.
  - exists s. split; [unfold ret; do 4 f_equal; lia | lia].
  - assert (H0 : is_success (overpass n (posts s)) = true).
    { specialize (H O). rewrite Nat.add_0_r in H. apply H. simpl. lia. }
    unfold bindM at 1. unfold bindM at 1.
    rewrite (turn_success f s H0). cbn [ret fst snd].
    destruct (IH (t + count_of (overpass n (posts s)))
                (with_trace (trace s ++ [Sleep 2; OverpassPost kecamatan f]) s))
      as (s' & E & P).
    { intros j Hj. rewrite posts_after_turn.
      replace (S (posts s) + j)%nat with (posts s + S j)%nat by lia.
      apply H. simpl. lia. }
    exists s'. rewrite posts_after_turn in E, P. split.
    + rewrite E. do 4 f_equal. lia.
    + lia.
Qed.

Lemma query_categories_success (b : nat) (qs : list (string * list string)) :
  forall (res : doc) (s : db),
    (forall j, (j < List.length (flat_map snd qs))%nat ->
               is_success (overpass n (posts s + j)) = true) ->
    exists s',
      query_categories (S b) n kecamatan qs res s
      = (Ok (Some (tally n (posts s) qs res)), s') /\
      posts s' = (posts s + List.length (flat_map snd qs))%nat.
Proof.
  induction qs as [| [cat fs] qs IH]; intros res s H; simpl.
  - exists s. split; [reflexivity | lia].
  - simpl in H. rewrite length_app in H.
    destruct (query_filters_success b fs 0 s) as (s1 & E1 & P1).
    { intros j Hj. apply H. lia. }
    unfold bindM at 1. rewrite E1.
    destruct (IH (set cat (VInt (0 + counts n (posts s) (List.length fs))) res)
                s1) as (s' & E & P).
    { intros j Hj. rewrite P1. rewrite <- Nat.add_assoc. apply H. lia. }
    exists s'. split.
    + rewrite E, P1. reflexivity.
    + rewrite P, P1, length_app. lia.
Qed.

(** X15.  When every answer is a 200 with a JSON body, the record gives
    each category the sum of the lengths of the [elements] arrays of the
    answers to its filter expressions: the first answer for education,
    the second for health, two for shopping, three for transport, two for
    recreation; it names the region with status "success"; and nine
    requests were sent. *)
Theorem X15_counts_are_summed_per_category (max_retries : Z) (s : db) :
  0 < max_retries ->
  (forall j, (j < filter_count)%nat ->
             is_success (overpass n (posts s + j)) = true) ->
  let p := posts s in
  exists f,
    fst (get_facilities_count n kecamatan max_retries s) = Ok (Some f) /\
    get "jumlah_fasilitas_pendidikan" f = Some (VInt (counts n p 1)) /\
    get "jumlah_fasilitas_kesehatan" f = Some (VInt (counts n (p + 1) 1)) /\
    get "jumlah_fasilitas_perbelanjaan" f = Some (VInt (counts n (p + 2) 2)) /\
    get "jumlah_fasilitas_transportasi" f = Some (VInt (counts n (p + 4) 3)) /\
    get "jumlah_fasilitas_rekreasi" f = Some (VInt (counts n (p + 7) 2)) /\
    get "kecamatan" f = Some kecamatan /\
    get "status" f = Some (VStr "success") /\
    posts (snd (get_facilities_count n kecamatan max_retries s))
    = (p + filter_count)%nat.
Proof.
  intros Hm H p.
  destruct (Z.to_nat max_retries) as [| b] eqn:Eb; [lia |].
  destruct (query_categories_success b facility_queries [] s H)
    as (s' & E & P).
  unfold get_facilities_count, bindM. rewrite Eb, E. unfold ret.
  eexists. split; [reflexivity |].
  fold p.
  replace (p + 2)%nat with (p + 1 + 1)%nat by lia.
  replace (p + 4)%nat with (p + 1 + 1 + 2)%nat by lia.
  replace (p + 7)%nat with (p + 1 + 1 + 2 + 3)%nat by lia.
  cbn [snd]. rewrite P.
  repeat split.
Qed.

End FetcherTallies.

Lemma X12_witness :
  existsb (field_is "kecamatan" (VStr "Kuta"))
    (facilities (snd (Facilities.run_kecamatan Sample.fetcher_faults
                        Sample.net200 (VStr "Kuta") Sample.db1))) = true.
Proof.
  refine (proj1 (X12_enriched_region_is_skipped_next Sample.fetcher_faults
                   Sample.net200 (VStr "Kuta") Sample.db1 _
                   eq_refl eq_refl _)).
  vm_compute. reflexivity.
Defined.

Lemma X13_witness :
  Facilities.records_for (VStr "Kuta")
    (facilities (snd (Facilities.save_facilities_to_mongodb
                        Sample.fetcher_faults Sample.net200
                        (Sample.facility (VStr "Kuta")) Sample.db2))) = 1%nat.
Proof.
  assert (Hnd : NoDup (map fst (Sample.facility (VStr "Kuta")))).
  { apply (NoDup_count_occ' string_dec). intros x Hx.
    cbn [Sample.facility map fst In] in Hx.
    repeat (destruct Hx as [<- | Hx]; [vm_compute; reflexivity |]).
    contradiction. }
  destruct (X13_save_is_upsert_by_region Sample.fetcher_faults Sample.net200
              (VStr "Kuta") (Sample.facility (VStr "Kuta")) Sample.db2
              (VStr "Kuta") Hnd eq_refl eq_refl) as (_ & _ & _ & H).
  rewrite H. reflexivity.
Defined.

Lemma X15_witness :
  exists f,
    fst (Facilities.get_facilities_count Sample.net200 (VStr "Kuta") 3
           Sample.db1) = Ok (Some f) /\
    get "jumlah_fasilitas_transportasi" f = Some (VInt 15).
Proof.
  destruct (X15_counts_are_summed_per_category Sample.net200 (VStr "Kuta") 3
              Sample.db1) as (f & Hf & _ & _ & _ & Ht & _).
  - lia.
  - intros j _. reflexivity.
  - exists f. split; [exact Hf | exact Ht].
Defined.

Section ScraperFrame.

Import Scraper.

Variable ft : faults.
Variable w : web.

Lemma only_raw_appended_refl (s : db) : only_raw_appended s s.
Proof.
  split; [exists []; symmetry; apply app_nil_r | repeat split].
Qed.

Lemma only_raw_appended_trans (s1 s2 s3 : db) :
  only_raw_appended s1 s2 -> only_raw_appended s2 s3 ->
  only_raw_appended s1 s3.
Proof.
  intros ((l1 & E1) & ? & ? & ?) ((l2 & E2) & ? & ? & ?).
  split; [| repeat split; congruence].
  exists (l1 ++ l2)%list. rewrite E2, E1. symmetry. apply app_assoc.
Qed.

Lemma only_raw_appended_of_same_collections (A : Type) (c : M A) :
  (forall s, raw_listings (snd (c s)) = raw_listings s /\
             facilities (snd (c s)) = facilities s /\
             cleaned_listings (snd (c s)) = cleaned_listings s /\
             cleaned_facilities (snd (c s)) = cleaned_facilities s) ->
  preserves only_raw_appended c.
Proof.
  intros H s. destruct (H s) as (E & ? & ? & ?).
  split; [exists []; rewrite E; symmetry; apply app_nil_r | auto].
Qed.

Lemma emit_only_raw_appended (e : event) :
  preserves only_raw_appended (emit e).
Proof.
  apply only_raw_appended_of_same_collections. intros s. repeat split.
Qed.

Lemma store_to_mongodb_appends (data : list doc) (province : string)
    (page : Z) :
  preserves only_raw_appended (store_to_mongodb ft w data province page).
Proof.
  intros s. unfold store_to_mongodb.
  destruct data as [| d data]; [apply only_raw_appended_refl |].
  unfold try_except, bindM, insert_many, ret.
  destruct (store_stops ft province) as [k |]; simpl;
    (split; [eexists; reflexivity | repeat split]).
Qed.

Lemma update_progress_appends (province : string) (page : Z) :
  preserves only_raw_appended (update_progress ft province page).
Proof.
  apply only_raw_appended_of_same_collections. intros s.
  unfold update_progress, try_except, ret.
  destruct (update_progress_fails ft province); [repeat split |].
  destruct (scraping_progress s); repeat split.
Qed.

Lemma load_progress_appends : preserves only_raw_appended (load_progress ft).
Proof.
  apply only_raw_appended_of_same_collections. intros s.
  unfold load_progress, try_except, bindM, read, ret, raise.
  destruct (find_progress_fails ft); [repeat split |].
  destruct (scraping_progress s); [repeat split |].
  destruct (insert_progress_fails ft); repeat split.
Qed.

Lemma run_province_appends (ex : list value) (cp : Z) (province : string)
    (page : Z) :
  preserves only_raw_appended (run_province ft w ex cp province page).
Proof.
  unfold run_province.
  destruct (negb (page =? cp));
    [apply preserves_ret, only_raw_appended_refl |].
  apply preserves_bind; [apply only_raw_appended_trans | | intros houses].
  { apply scrape_search_page_preserves;
      [apply only_raw_appended_refl | apply only_raw_appended_trans
       | apply emit_only_raw_appended]. }
  destruct houses as [| h hs];
    [apply preserves_ret, only_raw_appended_refl |].
  apply preserves_bind; [apply only_raw_appended_trans | | intros ds].
  { apply scrape_all_preserves;
      [apply only_raw_appended_refl | apply only_raw_appended_trans
       | intros; apply emit_only_raw_appended]. }
  destruct ds as [| d ds]; [apply preserves_ret, only_raw_appended_refl |].
  apply preserves_bind; [apply only_raw_appended_trans | | intros stored].
  { apply store_to_mongodb_appends. }
  destruct stored;
    [apply update_progress_appends
    | apply preserves_ret, only_raw_appended_refl].
Qed.

(** X17.  A run of the scraper only appends to the raw listings: every
    listing stored before the run is still there, in its place and
    unchanged, and the facility records and the cleaned collections are
    as they were.  This holds also for a run that ends with an
    exception. *)
Theorem X17_scraper_only_appends_raw_listings (s : db) :
  only_raw_appended s (snd (Scraper.run ft w s)).
Proof.
  revert s. change (preserves only_raw_appended (Scraper.run ft w)).
  unfold Scraper.run.
  apply preserves_bind;
    [apply only_raw_appended_trans | apply load_progress_appends
     | intros progress].
  apply preserves_bind; [apply only_raw_appended_trans | | intros ex].
  { unfold fetch_existing_titles.
    apply preserves_try_except;
      [apply only_raw_appended_trans
       | apply preserves_read, only_raw_appended_refl
       | intros _; apply preserves_ret, only_raw_appended_refl]. }
  generalize (current_page progress) as cp.
  induction (provinces progress) as [| [province page] rest IH]; intros cp;
    simpl.
  - apply preserves_ret, only_raw_appended_refl.
  - apply preserves_bind;
      [apply only_raw_appended_trans | apply run_province_appends
       | intros _; apply IH].
Qed.

End ScraperFrame.
